(* ===== verification/_CoqProject ===== *)
-Q . S2P
Prelude.v
PyNum.v
Image.v
Items.v
Logic.v
Strategy.v
Frame.v
Container.v
Render.v
ItemApi.v
Factory.v
Tree.v
Heuristics.v
Directory.v
PyDict.v
GenMonad.v
Generator.v
Populate.v
Scenarios.v
TestImages.v
Main.v
