(* ===== verification/Prelude.v ===== *)
(** * A verification library for frame_collage's layout engine

    The program (src/src/) lays rectangular items out in nested boxes and
    paints the result into a numpy buffer.  Its parts, leaf to root:

    - [ContainerItem] (layout/container_item.py): the capability shared by
      every placeable rectangle: a width, a height, [resize_by_width],
      [resize_by_height] and the derived [resize_to_limit], which picks the
      axis that keeps the item inside a box while keeping its aspect ratio.
    - [Image] (layout/image.py): a leaf owning a pixel buffer, resized with
      [cv2.resize].
    - [LayoutContainer] (layout/layout_container.py): an ordered list of
      child items, a capacity, padding, gutters, a background colour and
      minimum content sizes; [add_item], [remove_item] and the probe
      [can_next_item_fit] (append, check, remove again); [resize_by_width]
      and [resize_by_height] rescale the box and re-fit every child;
      [get_drawable_image] fills a numpy array with the background and
      assigns each child's own array to its paint rectangle.  Its
      [LayoutLogic] strategies compute per-child budgets, paint coordinates,
      minimum layout sizes and the feasibility check:
      [VerticalLayoutLogic] (layout/vertical_container.py),
      [GridLayoutLogic] (layout/grid_container.py),
      [ImageFrameLayoutLogic] (layout/image_frame_container.py) and the
      horizontal strategy, whose source file horizontal_container.py is not
      in the repository: it is modelled from spec.md section 4.2 as the
      transpose of the vertical one and marked spec-modelled in the map.
    - [ImageFrameContainer]: a container of exactly one image with its own
      resize methods that refuse an empty interior.
    - layouts_generator.py: the constants and heuristics of the three
      layout types, the sorting of image paths into aspect-ratio buckets,
      the randomised recursive generator of nested containers
      ([generate_random_layouts]: pick an eligible type, create a
      container, probe it and add it to the parent, propose child boxes
      by the best of 50 jittered partitions, recurse into them) which
      returns the "bottom-level" containers, and
      [populate_bottom_level_containers], which fills them with framed
      images drawn from the buckets.  The generator and the populator use
      the container API only through [can_next_item_fit] and [add_item],
      on containers they hold references to inside the main container.

    Files of this development, in dependency order:

    - [Prelude] (this file): the exceptions the code raises ([exn]), the
      result of a statement that may raise while keeping the mutations made
      before the raise ([exc]), its bind and list traversal ([map_exc]),
      Python's [list.remove] ([remove_first]), shared lemmas, the hint
      database [layout] and tactics.
    - [PyNum]: Python's float arithmetic as it occurs in the code:
      [int(x / d)], [int(h * (n / d))] and the comparison
      [w_limit / (w / h) > h_limit].  The class [PyNum] is the interface the
      components are written against; [ieee_num] implements it with the
      kernel's IEEE-754 binary64 floats, bit for bit what CPython computes,
      and is the instance the concrete scenarios run on; [exact_num] is the
      exact rational reading.  [PyNumLaws] states how far the float results
      may be from exact arithmetic on operands below 2^16 (a truncated
      product may be one less than the exact floor when the exact quotient
      is an integer; the rest is exact); [exact_num] is proved to satisfy
      it.  Binary64 satisfies it by the standard error bound (relative error
      at most 2^-53 per operation); no floating-point theory is installed to
      prove that for [ieee_num] in general, so the general theorems are
      stated for every instance satisfying the laws, and the laws are
      checked on [ieee_num] at sample inputs by evaluation.
    - [Image]: [Image] as a record of its id and shape (the pixel values
      are not modelled), its two resize methods (image.py 20-46, with
      [cv2.resize]'s refusal of an empty size), and
      [ContainerItem.resize_to_limit] (container_item.py 52-76) as a
      function of the two resize methods it dispatches to, so that images,
      frames and containers share it.
    - [Items]: the item tree.  [cattrs] is the attribute record of
      [LayoutContainer.__init__]; [kind] the strategy (a grid with its rows,
      columns and last computed cell size); [item] an image, a frame (its
      attributes and its one image) or a layout container (strategy,
      attributes, ordered children); [layout] a container as the receiver
      of its methods.  Object identity, which [list.remove] compares, is an
      id carried by every node.
    - [Logic]: the strategies ([LayoutLogic], [VerticalLogic],
      [HorizontalLogic], [GridLogic], [FrameLogic]): budgets, paint
      coordinates (their loops as structural recursion with the loop
      variables as arguments), minimum layout sizes and the dimension
      check; closed forms of the loops; the placement predicate
      [well_placed] (one rectangle per child, inside the padded box, of the
      child's shape, pairwise disjoint).
    - [Strategy]: the [LayoutLogic] abstract class as a record of
      operations with its laws, implemented by the three strategies
      ([logic_of], the strategy each constructor installs), and the
      containers' getters ([Accessors]).
    - [Frame]: [ImageFrameContainer]'s resizes, which store the new size
      before checking the interior, its no-op [add_item]/[remove_item],
      its dimension check (a bare [Exception]) and the probe it inherits.
    - [Container]: the methods of a layout container as functions of its
      state returning the state reached also when they raise: the
      recursive [resize_to_limit] over the item tree, [resize_items],
      [resize_by_width], [resize_by_height], [can_next_item_fit],
      [add_item], [remove_item]; the operations as a step relation
      [reachable] over [run_op].
    - [Render]: [get_drawable_image] of images, frames and containers on
      a model of numpy arrays ([buffer]: a shape and a pixel function,
      compared up to the pixels in range by the setoid [buf_eq]), with
      numpy's rules for [ones(...) * colour], slice bounds and
      broadcasting; the abstract picture [pixel_spec] the paint loop is
      proved to implement.
    - [ItemApi]: the [ContainerItem] abstract class as a record of the
      methods every item implements, its template method
      [resize_to_limit], and the item tree as an implementation.
    - [Factory]: construction: Python values ([pyval], where bools are
      ints), the validators, the setters [set_padding],
      [set_item_gutters] and [set_background_color] with their getters,
      [LayoutContainer.__init__] (proved equal to its sequence of setter
      calls), the constructors of the container classes and the four
      factory functions that call them, returning [Built] or [Failed].
    - [Tree]: Python references into the shared tree as paths
      ([sub_at] reads the container a reference designates, [set_at]
      writes a mutated one back), and skeletons ([sk]: ids, capacities and
      nesting, without sizes) with the order [sk_le] ("same nodes, children
      appended") under which references stay valid; the tree invariants
      [sk_caps] (every container within capacity) and [ids_below] (every
      object older than the next fresh identity), and how the container
      methods act on skeletons.
    - [Heuristics]: the dicts of layouts_generator.py 13-139 (fractions
      such as 0.25 as exact literals p/q, compared through the binary64
      product of [PyNum.py_frac_ge]), [get_list_of_eligible_layouts], the
      aspect-ratio classification on binary64 ratios and the sorting of
      the decoded images into the dict ([pool]: aspect key to list of
      image paths, an image standing for its path).
    - [Directory]: the files [get_list_of_images_from_directory] takes
      from an [os.walk] (the walk given as its list of [(root, files)]):
      [str.split], [str.lower], the extension set and posixpath's [join];
      [create_aspect_ratio_sorted_list_of_images_from_directory] reads
      each path with [open_image_file] (an input function standing for
      [cv2.imread]) and sorts the decoded images.
    - [PyDict]: Python dicts with string keys as association lists in
      insertion order, dict displays, and the [COLORS] of
      layouts_generator.py.
    - [GenMonad]: the generator's effects as a state, exception and fuel
      monad [G]: the state [gstate] is the main container (the store the
      references point into), the dict of images, the position on the
      random tape and the next object identity; [randint] and [choice]
      read an oracle [nat -> Z], so every theorem holds for every sequence
      of random values; [probe_at] and [add_at] call [can_next_item_fit]
      and [add_item] through a reference.  A Hoare logic ([hoare] with
      [hoare_bind], [hoare_conseq], [hoare_snap] and the primitives' rules)
      and the fuel order ([total], [approx]).
    - [Generator]: every function of the generator (272-362 and 189-269),
      [generate_random_sub_layouts] by fuel over the body
      [sub_layouts_body] (the recursive call a parameter), the child loop
      [children_loop], the 50 trials [trials]; the tree invariant [ginv]
      and growth [grows] it preserves; the reference [draws]/[select] the
      trial loop is proved equal to.
    - [Populate]: [populate_bottom_level_containers] (156-183) with its
      for/else loops ([try_aspects], [fill_slots]),
      [get_random_item_from_list_then_remove] (437-440),
      [random_open_x_images] (428-434, which removes from its argument in
      place), and [run] (144-154): the directory's images sorted into
      the dict, then
      [num_to_generate] rounds ([run_rounds]), each of which
      ([run_iteration]) draws a file name, deep-copies the dict,
      generates and populates a tree and renders its main container for
      [cv2.imwrite].
    - [Scenarios]: concrete runs of the container API on CPython's
      arithmetic ([ieee_num]).
    - [TestImages]: test_image_generator.py on explicit state (the tape of
      [np.random], the directories, the files written): the [COLORS] dict
      display, [get_random_number], [create_image],
      [add_text_to_image] with its helpers, [create_and_save_image] and
      [create_images_for_colors]; OpenCV's text metrics and drawing are
      section variables.
    - [Main]: main.py's [COLORS] and its [__main__] block, [run].

    Theorems, by group (each property of the manifest names its claim id in
    its doc comment):
    - the program end to end: every reference the generator returns
      designates a container of the final tree, at most
      [max_levels_to_nest] levels down (C1); it terminates, whatever the
      random draws (C2); population keeps the tree invariant and the
      references valid and spends at least one image of the dict per
      frame it places (C3); a round of [run] leaves the dict of images as
      it found it and the collage within capacity (C4); every array the
      rounds of [run] hand to [cv2.imwrite] is 1080 x 1920, the main
      container's size, which generation and population never change
      (C5); no container of the generated tree exceeds its capacity (C8);
    - rendering: a drawable tree renders, and the sequential numpy paint
      loop refines the abstract picture in which each pixel shows the
      child whose rectangle holds it (C6); whatever renders has its
      item's shape, the spec's render size invariant (C7);
    - placement: after [resize_items] or a successful [add_item] the
      children are painted inside the box without overlap (C9, C10), for
      each strategy's coordinates (C13-C15), the vertical bands exactly
      at their budget plus the gutter apart (C14);
    - resizing: every item resized to a limit lands inside it and touches
      it on one axis (C11, C22) and keeps its aspect ratio to within a
      pixel (C23);
    - the capacity invariant over every sequence of container operations,
      by induction on [reachable] (C12); the probe's purity and its effect
      on a child already present (C24, C30); [add_item] at capacity and
      on success (C25, C26); construction (C27, C28); [set_padding] and
      [get_padding] as a lens (C29); the frame's half-updated state (C31);
    - the generator's parts: the jittered partition and its duplication
      (C16), the trial loop as "draw 50, keep the first least" (C17, C18),
      the eligibility thresholds (C19), the aspect classification and
      the sorting (C20, C21);
    - the test image script: the text lies within the width, and within
      the height exactly when it is no taller than the image (C32); a
      name too wide at every scale makes the script raise [TypeError]
      (C33).
    Concrete runs, kept as [Example]s beside the findings they document
    and not listed as properties: the generator returning inner
    containers and duplicates ([GenRuns]), population throwing away
    images that do not fit ([PopRuns]), wide images sorted as
    "portrait-ish" ([HeuristicsRuns]), float truncation ([ImageRuns]),
    the grid's minimum size, the zero-column grid and bools taken as ints
    ([Scenarios]).
    Further theorems of the files, not listed in the manifest, cover the
    shape of
    the eligible list ([Heuristics]), the largest scale the text-size
    search returns and the whole test image script in the model
    ([TestImages]), the item tree's resize being the template method of
    [ContainerItem] ([ItemApi]), every strategy meeting the
    [LayoutLogic] laws ([Strategy]), the idempotence of
    [resize_to_limit] ([Image]), [random_open_x_images], which always
    returns ([Populate]), and the extension test ([Directory]).
    Every theorem with hypotheses has a witness, a closed instance of it
    checked by evaluation.

    Bounds: the laws of [PyNumLaws] are stated for operands in [0, 2^16]
    and divisors up to 2^12 ([in_range]); screens and collages are a few
    thousand pixels, well inside.  The only recursion that is not
    structural is [generate_random_sub_layouts], whose [nesting_level]
    decreases by one per call and stops at 0: it is written with fuel,
    and [Generator.generate_random_layouts_terminates] shows that fuel
    [max_levels_to_nest] (2, the largest level [randint(1, 2)] can draw)
    is enough and that more fuel changes nothing.  Every other loop runs
    over a list or a [range], and the resize and render recursions over
    the item tree are structural.

    Not modelled: the values of the pixels of decoded images and cv2's
    interpolation (the rendering theorems hold for every assignment of
    pixel values, [raster]); the file system and the codecs: os.walk is
    taken as the list it yields and cv2.imread as a function from paths
    to decoded images ([None] for a file it cannot read); cv2.imwrite
    and print are output only, so [run] stops at the arrays it hands to
    cv2.imwrite; the random module's and numpy's generators (arbitrary
    oracles stand for them); OpenCV's text rendering ([getTextSize],
    [putText], section variables of [TestImages]); the dtype of numpy
    arrays (an array is its shape and its pixel values); the
    commented-out driver code of main.py. *)

From Stdlib Require Import ZArith List Lia.
Import ListNotations.

Declare Scope layout_scope.
Delimit Scope layout_scope with layout.
Open Scope Z_scope.

(** ** Exceptions raised by the code *)

(** [LayoutException] is src/src/layout_exception.py; the others are the
    built-in exceptions the code lets escape: [ZeroDivisionError] from a
    true division by zero, [FrameTooSmall] the bare [Exception] raised by
    the frame's resize methods, [ValueError] from [list.remove] of an
    absent element, [Cv2Error] from [cv2.resize] to an empty size and
    [IndexError] from indexing an empty list or array; in
    test_image_generator.py, [TypeError] from unpacking an int and
    [SaveError] the bare [Exception] that [create_and_save_image] raises
    when writing fails. *)
Inductive exn : Type :=
| LayoutException
| ZeroDivisionError
| FrameTooSmall
| ValueError
| Cv2Error
| IndexError
| TypeError
| SaveError.

Definition exn_eq_dec (e1 e2 : exn) : {e1 = e2} + {e1 <> e2}.
Proof. decide equality. Defined.

(** ** Statements that may raise *)

(** Python keeps every mutation made before an exception.  A computation
    on a state of type [S] therefore ends either normally, [Ok s], or by
    raising [e] in the state [s] reached at the raise, [Raise e s]. *)
Inductive exc (S : Type) : Type :=
| Ok (s : S)
| Raise (e : exn) (s : S).
Arguments Ok {S} s.
Arguments Raise {S} e s.

Definition exc_state {S} (r : exc S) : S :=
  match r with Ok s | Raise _ s => s end.

Definition exc_map {S T} (f : S -> T) (r : exc S) : exc T :=
  match r with
  | Ok s => Ok (f s)
  | Raise e s => Raise e (f s)
  end.

(** Sequencing: run [k] on the state [m] ends in, unless [m] raised. *)
Definition exc_bind {S} (m : exc S) (k : S -> exc S) : exc S :=
  match m with
  | Ok s => k s
  | Raise e s => Raise e s
  end.

Notation "'let*' x ':=' m 'in' k" := (exc_bind m (fun x => k))
  (at level 10, x name, m at level 100, k at level 200) : layout_scope.
Open Scope layout_scope.

(** [for x in xs: f(x)] over a list whose elements are mutated in place:
    the elements after a raising one are left as they were. *)
Fixpoint map_exc {A} (f : A -> exc A) (l : list A) : exc (list A) :=
  match l with
  | [] => Ok []
  | x :: xs =>
      match f x with
      | Ok x' => exc_map (cons x') (map_exc f xs)
      | Raise e x' => Raise e (x' :: xs)
      end
  end.

(** [list.remove(x)]: drop the first element equal to [x] (here: for which
    [p] holds); [None] is the [ValueError] raised when there is none. *)
Fixpoint remove_first {A} (p : A -> bool) (l : list A) : option (list A) :=
  match l with
  | [] => None
  | y :: ys => if p y then Some ys else option_map (cons y) (remove_first p ys)
  end.

(** [f(i, x)] for the elements [x] of a list, [i] counting from [i0]: the
    closed form of the coordinate loops. *)
Fixpoint imap {A B} (f : Z -> A -> B) (i0 : Z) (l : list A) : list B :=
  match l with
  | [] => []
  | x :: xs => f i0 x :: imap f (i0 + 1) xs
  end.

(** [l[i] = x] on an index in range; out of range Python raises
    [IndexError], which the callers rule out before writing. *)
Fixpoint set_nth {A} (l : list A) (i : nat) (x : A) : list A :=
  match l, i with
  | [], _ => []
  | _ :: ys, O => x :: ys
  | y :: ys, S i' => y :: set_nth ys i' x
  end.

(** ** Shared lemmas *)

Create HintDb layout.
Create Rewrite HintDb layout_rw.

Lemma exc_state_map {S T} (f : S -> T) (r : exc S) :
  exc_state (exc_map f r) = f (exc_state r).
Proof. now destruct r. Qed.

Lemma exc_map_Ok {S T} (f : S -> T) r t :
  exc_map f r = Ok t -> exists s, r = Ok s /\ t = f s.
Proof. destruct r; simpl; intros H; inversion H; eauto. Qed.

Lemma exc_bind_Ok {S} (m : exc S) k t :
  exc_bind m k = Ok t -> exists s, m = Ok s /\ k s = Ok t.
Proof. destruct m; simpl; intros H; [eauto | discriminate]. Qed.

(** Whatever its outcome, a traversal keeps the length of the list. *)
Lemma map_exc_length {A} (f : A -> exc A) l :
  length (exc_state (map_exc f l)) = length l.
Proof.
  induction l as [|x xs IH]; simpl; [reflexivity|].
  destruct (f x); simpl; [rewrite exc_state_map; simpl|]; auto.
Qed.

(** A traversal that ends normally has applied [f] to every element. *)
Lemma map_exc_Ok {A} (f : A -> exc A) l l' :
  map_exc f l = Ok l' -> Forall2 (fun x x' => f x = Ok x') l l'.
Proof.
  revert l'; induction l as [|x xs IH]; simpl; intros l' H.
  - inversion H; constructor.
  - destruct (f x) eqn:Hx; [|discriminate].
    apply exc_map_Ok in H as [ys [Hys ->]]. constructor; auto.
Qed.

Lemma remove_first_length {A} (p : A -> bool) l l' :
  remove_first p l = Some l' -> S (length l') = length l.
Proof.
  revert l'; induction l as [|y ys IH]; simpl; intros l' H; [discriminate|].
  destruct (p y); [now inversion H|].
  destruct (remove_first p ys) as [r|] eqn:E; simpl in H; inversion H; subst.
  simpl. now rewrite (IH r eq_refl).
Qed.

(** Appending an element and removing it again is the identity when no
    earlier element matches. *)
Lemma remove_first_app_fresh {A} (p : A -> bool) l x :
  Forall (fun y => p y = false) l -> p x = true ->
  remove_first p (l ++ [x]) = Some l.
Proof.
  intros Hl Hx; induction Hl as [|y ys Hy _ IH]; simpl.
  - now rewrite Hx.
  - now rewrite Hy, IH.
Qed.

(** When an earlier element matches, the earlier one goes instead. *)
Lemma remove_first_app_hit {A} (p : A -> bool) l l' x :
  remove_first p l = Some l' -> remove_first p (l ++ [x]) = Some (l' ++ [x]).
Proof.
  revert l'; induction l as [|y ys IH]; simpl; intros l' H; [discriminate|].
  destruct (p y); [now inversion H|].
  destruct (remove_first p ys) as [r|] eqn:E; simpl in H; inversion H; subst.
  now rewrite (IH r eq_refl).
Qed.

Lemma remove_first_incl {A} (p : A -> bool) l l' :
  remove_first p l = Some l' -> incl l' l.
Proof.
  revert l'; induction l as [|y ys IH]; simpl; intros l' H; [discriminate|].
  destruct (p y); [inversion H; subst; apply incl_tl, incl_refl|].
  destruct (remove_first p ys) as [r|] eqn:E; simpl in H; inversion H; subst.
  apply incl_cons; [left; reflexivity | apply incl_tl, IH; reflexivity].
Qed.

Lemma remove_first_None {A} (p : A -> bool) l :
  remove_first p l = None <-> Forall (fun y => p y = false) l.
Proof.
  induction l as [|y ys IH]; simpl; split; intros H; auto.
  - destruct (p y) eqn:Hy; [discriminate|].
    destruct (remove_first p ys); [discriminate|]. constructor; auto. apply IH; auto.
  - inversion H; subst. rewrite H2. apply IH in H3. now rewrite H3.
Qed.

Lemma imap_length {A B} (f : Z -> A -> B) i0 l : length (imap f i0 l) = length l.
Proof. revert i0; induction l; simpl; auto. Qed.

Lemma imap_nth_error {A B} (f : Z -> A -> B) i0 l k :
  nth_error (imap f i0 l) k = option_map (f (i0 + Z.of_nat k)) (nth_error l k).
Proof.
  revert i0 k; induction l as [|x xs IH]; intros i0 [|k]; simpl; auto.
  - now rewrite Z.add_0_r.
  - rewrite IH. f_equal. f_equal. lia.
Qed.

(** A property of each element that its update keeps is kept by the
    loop, whether or not it raised. *)
Lemma map_exc_state_map {A B} (g : A -> B) (f : A -> exc A) l :
  (forall x, In x l -> g (exc_state (f x)) = g x) -> map g (exc_state (map_exc f l)) = map g l.
Proof.
  induction l as [|x l IH]; intros H; simpl; auto.
  specialize (H x (or_introl eq_refl)) as Hx.
  destruct (f x) as [x'|e x'] eqn:E; simpl in *; rewrite ?exc_state_map; simpl; f_equal; auto.
Qed.

Lemma length_set_nth {A} (l : list A) i x : length (set_nth l i x) = length l.
Proof. revert i; induction l as [|y l IH]; intros [|i]; simpl; auto. Qed.

Lemma nth_error_set_nth_eq {A} (l : list A) i x y :
  nth_error l i = Some y -> nth_error (set_nth l i x) i = Some x.
Proof. revert i; induction l as [|z l IH]; intros [|i] E; simpl in *; try discriminate; auto. Qed.

Lemma nth_error_set_nth_neq {A} (l : list A) i j x :
  i <> j -> nth_error (set_nth l i x) j = nth_error l j.
Proof.
  revert i j; induction l as [|z l IH]; intros [|i] [|j] Hne; simpl; auto; try congruence.
Qed.

Lemma set_nth_nth_error {A} (l : list A) i x :
  nth_error l i = Some x -> set_nth l i x = l.
Proof. revert i; induction l as [|z l IH]; intros [|i] E; simpl in *; try discriminate; f_equal; auto; congruence. Qed.

Lemma map_set_nth {A B} (f : A -> B) (l : list A) i x :
  map f (set_nth l i x) = set_nth (map f l) i (f x).
Proof. revert i; induction l as [|z l IH]; intros [|i]; simpl; f_equal; auto. Qed.

Lemma list_sum_set_nth (l : list nat) i x y :
  nth_error l i = Some x -> (list_sum (set_nth l i y) + x = list_sum l + y)%nat.
Proof.
  revert i; induction l as [|z l IH]; intros [|i] H; simpl in *; try discriminate.
  - inversion H; subst. lia.
  - specialize (IH i H). lia.
Qed.

(** [list.remove] finds an element the test accepts. *)
Lemma remove_first_In {A} (p : A -> bool) l x : In x l -> p x = true -> exists l', remove_first p l = Some l'.
Proof.
  induction l as [|y l IH]; simpl; [intros []|]. intros [->|H] Hp.
  - rewrite Hp. eauto.
  - destruct (p y); [eauto|]. destruct (IH H Hp) as [l' ->]. simpl. eauto.
Qed.

#[export] Hint Resolve map_exc_length remove_first_app_fresh : layout.
#[export] Hint Rewrite @imap_length : layout_rw.
#[export] Hint Rewrite @exc_state_map @map_exc_length @length_set_nth : layout_rw.

(** Python's [int(a / b)] on nonnegative operands in exact arithmetic. *)
Lemma quot_le_nonneg a b : 0 <= a -> 0 < b -> b * Z.quot a b <= a.
Proof.
  intros Ha Hb. rewrite Z.quot_div_nonneg by lia.
  pose proof (Z.mul_div_le a b Hb). lia.
Qed.

Lemma quot_nonneg a b : 0 <= a -> 0 < b -> 0 <= Z.quot a b.
Proof. intros. apply Z.quot_pos; lia. Qed.

#[export] Hint Resolve quot_le_nonneg quot_nonneg : layout.

(** Case analysis on the outcome of a statement named by an equation. *)
Ltac exc_cases H :=
  match type of H with
  | ?m = _ => destruct m eqn:?; simpl in H; try discriminate H
  end.

(** Case analysis on the integer comparisons of the goal. *)
Ltac zcmp :=
  repeat match goal with
         | |- context [Z.leb ?a ?b] => destruct (Z.leb_spec a b)
         | |- context [Z.ltb ?a ?b] => destruct (Z.ltb_spec a b)
         | |- context [Z.eqb ?a ?b] => destruct (Z.eqb_spec a b)
         end; simpl.
