(* ===== verification/PyNum.v ===== *)
(** Python's float arithmetic as the layout code uses it.

    Every size computation of the code divides two ints with [/], which in
    Python 3 is a binary64 division, and truncates with [int(...)].  Three
    shapes occur:
    - [int(x / d)]: budgets (vertical_container.py 31-33, grid_container.py
      52-57) and centring gaps ([int(x_gap / 2)]);
    - [int(h * (n / d))]: every resize ([ratio = n / d] then
      [int(h * ratio)]: image.py 28-30 and 42-44,
      layout_container.py 126-127 and 139-140, image_frame_container.py
      37-42 and 59-64);
    - [w_limit / (w / h) > h_limit]: the axis choice of
      container_item.py 61-71.
    [PyNum] is the interface; [ieee_num] computes them with the kernel's
    binary64 floats (round to nearest even, what CPython does) and
    [exact_num] in exact arithmetic.  The operations are only used with a
    nonzero divisor: the code raises [ZeroDivisionError] first. *)

From Stdlib Require Import ZArith Floats Uint63 List Lia.
From S2P Require Import Prelude.
Import ListNotations.
Open Scope Z_scope.

Class PyNum : Type := {
  py_div : Z -> Z -> Z;                 (** [int(x / d)] *)
  py_scale : Z -> Z -> Z -> Z;          (** [int(h * (n / d))] *)
  py_ratio_gt : Z -> Z -> Z -> Z -> bool; (** [wl / (w / h) > hl] *)
  py_frac_ge : Z -> Z -> Z -> Z -> bool   (** [x >= m * f], [f] the float literal [p / q] *)
}.

(** ** Binary64: CPython's arithmetic *)

Module Ieee.

(** [float(z)]: exact below 2^53, rounded to nearest above. *)
Definition of_Z (z : Z) : float :=
  if z <? 0 then PrimFloat.opp (PrimFloat.of_uint63 (Uint63.of_Z (- z)))
  else PrimFloat.of_uint63 (Uint63.of_Z z).

(** [int(f)]: truncation toward zero of a finite float, read off its
    sign, mantissa and exponent.  Python raises on infinities and NaN;
    the model maps them to 0, and they never arise from the operations
    below, whose divisors are nonzero. *)
Definition trunc (f : float) : Z :=
  match Prim2SF f with
  | S754_finite s m e =>
      let mag := if 0 <=? e then Z.shiftl (Zpos m) e else Z.shiftr (Zpos m) (- e) in
      if s then - mag else mag
  | _ => 0
  end.

Definition div (x d : Z) : Z := trunc (PrimFloat.div (of_Z x) (of_Z d)).

Definition scale (h n d : Z) : Z :=
  trunc (PrimFloat.mul (of_Z h) (PrimFloat.div (of_Z n) (of_Z d))).

Definition ratio_gt (wl w h hl : Z) : bool :=
  PrimFloat.ltb (of_Z hl) (PrimFloat.div (of_Z wl) (PrimFloat.div (of_Z w) (of_Z h))).

(** [x >= m * f] for a float literal [f] whose decimal value is [p / q]:
    the literal is the binary64 number nearest to [p / q], which is
    [float(p) / float(q)]; CPython compares the int [x] with the float
    product exactly, which for [|x| < 2^53] is comparing [float(x)]. *)
Definition frac_ge (x m p q : Z) : bool :=
  PrimFloat.leb (PrimFloat.mul (of_Z m) (PrimFloat.div (of_Z p) (of_Z q))) (of_Z x).

End Ieee.

Definition ieee_num : PyNum :=
  {| py_div := Ieee.div; py_scale := Ieee.scale; py_ratio_gt := Ieee.ratio_gt;
     py_frac_ge := Ieee.frac_ge |}.

(** ** Exact arithmetic *)

(** [wl / (w / h) > hl] is [(wl * h - hl * w) / w > 0], whose sign is that
    of [(wl * h - hl * w) * w]. *)
Definition exact_num : PyNum :=
  {| py_div := Z.quot;
     py_scale := fun h n d => Z.quot (h * n) d;
     py_ratio_gt := fun wl w h hl => 0 <? (wl * h - hl * w) * w;
     py_frac_ge := fun x m p q => p * m <=? q * x |}.

(** ** What the components rely on *)

(** On operands below 2^16, a truncated quotient is exact, a truncated
    product [h * (n / d)] is the exact floor or, when the exact value is an
    integer, possibly one less, and the axis comparison is exact except on
    a tie.  The sizes of the program are screen pixels (at most 3840 in
    layouts_generator.py), well inside these ranges. *)
Class PyNumLaws (N : PyNum) : Prop := {
  py_div_exact : forall x d,
    0 < d <= 2 ^ 12 -> - 2 ^ 40 <= x <= 2 ^ 40 -> py_div x d = Z.quot x d;
  py_scale_near : forall h n d,
    0 <= h <= 2 ^ 16 -> 0 <= n <= 2 ^ 16 -> 0 < d <= 2 ^ 16 ->
    py_scale h n d = h * n / d \/
    (0 < h * n /\ (h * n) mod d = 0 /\ py_scale h n d = h * n / d - 1);
  py_ratio_gt_sound : forall wl w h hl,
    0 < w <= 2 ^ 16 -> 0 < h <= 2 ^ 16 ->
    0 <= wl <= 2 ^ 16 -> 0 <= hl <= 2 ^ 16 ->
    (hl * w < wl * h -> py_ratio_gt wl w h hl = true) /\
    (wl * h < hl * w -> py_ratio_gt wl w h hl = false);
  py_frac_ge_sound : forall x m p q,
    0 <= x <= 2 ^ 16 -> 0 <= m <= 2 ^ 16 -> 0 < p <= 2 ^ 8 -> 0 < q <= 2 ^ 8 ->
    (p * m < q * x -> py_frac_ge x m p q = true) /\
    (q * x < p * m -> py_frac_ge x m p q = false)
}.

Lemma exact_num_laws : @PyNumLaws exact_num.
Proof.
  split; simpl.
  - reflexivity.
  - intros h n d Hh Hn Hd. left. apply Z.quot_div_nonneg; nia.
  - intros wl w h hl Hw Hh Hwl Hhl. split; intros Hlt.
    + apply Z.ltb_lt. nia.
    + apply Z.ltb_ge. nia.
  - intros x m p q _ _ _ _. split; intros Hlt.
    + apply Z.leb_le. lia.
    + apply Z.leb_gt. lia.
Qed.

(** A size in the range where the laws apply, and the tactic that
    unfolds it for [lia]. *)
Definition in_range (x : Z) : Prop := 0 <= x <= 2 ^ 16.

Ltac range := unfold in_range in *; lia.

(** Consequences shared by the components. *)
Section Laws.
Context `{N : PyNum} `{NL : !PyNumLaws N}.

Lemma py_scale_le h n d :
  0 <= h <= 2 ^ 16 -> 0 <= n <= 2 ^ 16 -> 0 < d <= 2 ^ 16 ->
  d * py_scale h n d <= h * n.
Proof.
  intros Hh Hn Hd. pose proof (Z.mul_div_le (h * n) d ltac:(lia)).
  destruct (py_scale_near h n d Hh Hn Hd) as [-> | (_ & _ & ->)]; lia.
Qed.

Lemma py_scale_ge h n d :
  0 <= h <= 2 ^ 16 -> 0 <= n <= 2 ^ 16 -> 0 < d <= 2 ^ 16 ->
  h * n <= d * py_scale h n d + d.
Proof.
  intros Hh Hn Hd.
  pose proof (Z.div_mod (h * n) d ltac:(lia)).
  pose proof (Z.mod_pos_bound (h * n) d ltac:(lia)).
  destruct (py_scale_near h n d Hh Hn Hd) as [-> | (_ & Hm & ->)]; nia.
Qed.

Lemma py_scale_nonneg h n d :
  0 <= h <= 2 ^ 16 -> 0 <= n <= 2 ^ 16 -> 0 < d <= 2 ^ 16 -> 0 <= py_scale h n d.
Proof.
  intros Hh Hn Hd. pose proof (Z.div_pos (h * n) d ltac:(nia) ltac:(lia)).
  destruct (py_scale_near h n d Hh Hn Hd) as [-> | (P & Hm & ->)]; [lia|].
  pose proof (Z.div_mod (h * n) d ltac:(lia)). nia.
Qed.

(** The resized dimension is within one of the exact one. *)
Lemma py_scale_within h n d :
  0 <= h <= 2 ^ 16 -> 0 <= n <= 2 ^ 16 -> 0 < d <= 2 ^ 16 ->
  Z.abs (d * py_scale h n d - h * n) <= d.
Proof.
  intros Hh Hn Hd. pose proof (py_scale_le h n d Hh Hn Hd).
  pose proof (py_scale_ge h n d Hh Hn Hd). lia.
Qed.

End Laws.

#[export] Hint Resolve py_scale_le py_scale_ge py_scale_nonneg : layout.

(** ** The laws on binary64, at sample inputs *)

(** [laws_hold_at] evaluates the first three laws of [PyNumLaws] on [ieee_num]
    at one operand tuple: [(x, d)] for the quotient, [(h, n, d)] for the
    product, [(wl, w, h, hl)] for the comparison. *)
Definition laws_hold_at (x d : Z) (h n d' : Z) (wl w h' hl : Z) : bool :=
  (Ieee.div x d =? Z.quot x d) &&
  (let s := Ieee.scale h n d' in
   (s =? h * n / d') || ((0 <? h * n) && ((h * n) mod d' =? 0) && (s =? h * n / d' - 1))) &&
  (if hl * w <? wl * h' then Ieee.ratio_gt wl w h' hl
   else if wl * h' <? hl * w then negb (Ieee.ratio_gt wl w h' hl) else true).

Definition zrange (n : nat) : list Z := map Z.of_nat (seq 1 n).

(** The laws hold on binary64 for every operand tuple drawn from
    [1..48]: 48^3 products and quotients, with the comparisons among them. *)
Example ieee_laws_small_operands :
  forallb (fun a => forallb (fun b => forallb (fun c =>
    laws_hold_at (a * b - c * 40) c a b c (a * 3) b c (b * 2)) (zrange 48)) (zrange 48)) (zrange 48)
  = true.
Proof. vm_compute. reflexivity. Qed.

(** ... and on screen-sized operands. *)
Example ieee_laws_screen_operands :
  forallb (fun a => forallb (fun b =>
    laws_hold_at (a * 1931 - b * 977) (b mod 12 + 1) (a * 61) (b * 37 + 1) (a + b)
      (1920 - b) (a * 17) (1080 - a) (b * 29)) (zrange 60)) (zrange 60)
  = true.
Proof. vm_compute. reflexivity. Qed.

(** The fourth law at one operand tuple. *)
Definition frac_law_at (x m p q : Z) : bool :=
  if p * m <? q * x then Ieee.frac_ge x m p q
  else if q * x <? p * m then negb (Ieee.frac_ge x m p q) else true.

(** ... on the literals of layouts_generator.py ([0.25], [0.3], [0.15]),
    around the thresholds of the canvases it uses and on a spread of
    other operands. *)
Example ieee_frac_literals :
  forallb (fun pq => let '(p, q) := pq in
    forallb (fun m => forallb (fun x => frac_law_at x m p q)
      (map (fun d => m * p / q + d - 30) (map Z.of_nat (seq 0 61))))
      [1900; 1060; 1920; 1080; 3840; 2160; 2560; 1440; 860; 1000; 333; 7])
    [(1, 4); (3, 10); (15, 100)] = true.
Proof. vm_compute. reflexivity. Qed.

Example ieee_frac_spread :
  forallb (fun a => forallb (fun b =>
    (frac_law_at (a * 97 + b) (b * 131 + a) 3 10 && frac_law_at (a * 89) (b * 53) 1 4 &&
    frac_law_at (a * b) (b * 67 + 5) 15 100)%bool) (zrange 70)) (zrange 70) = true.
Proof. vm_compute. reflexivity. Qed.
