(* ===== verification/Image.v ===== *)
(** The item capability and the image leaf.

    [ContainerItem] models layout/container_item.py: the default minimum
    content size and [resize_to_limit], written once for every kind of item
    as a function of the item's shape and of its two resize methods.
    [Image] models layout/image.py: an image is its id (Python's object
    identity) and its shape; [cv2.resize] is modelled by its effect on the
    shape and by the error it raises for an empty target size. *)

From Stdlib Require Import ZArith List Lia.
From S2P Require Import Prelude PyNum.
Import ListNotations.
Open Scope Z_scope.
Open Scope bool_scope.

Module ContainerItem.

Definition DEFAULT_MINIMUM_CONTENT_WIDTH : Z := 50.
Definition DEFAULT_MINIMUM_CONTENT_HEIGHT : Z := 50.

Section ResizeToLimit.
Context `{N : PyNum}.

(** [resize_to_limit(width_limit, height_limit)] of an item of shape
    [w] x [h] in state [s]: [w / h] raises on [h = 0], [width_limit / 0.0]
    on [w = 0]; then the height-driven resize is taken when the
    width-driven one would overflow the height. *)
Definition resize_to_limit {S} (w h : Z) (resize_by_width resize_by_height : Z -> exc S)
    (s : S) (width_limit height_limit : Z) : exc S :=
  if h =? 0 then Raise ZeroDivisionError s
  else if w =? 0 then Raise ZeroDivisionError s
  else if py_ratio_gt width_limit w h height_limit then resize_by_height height_limit
  else resize_by_width width_limit.

End ResizeToLimit.

Section Laws.
Context `{N : PyNum} `{NL : !PyNumLaws N}.
Context {S : Type} (wf hf : S -> Z).

(** What every [resize_by_width] of the code does to the shape it
    reports: the width becomes the target and the height is rescaled by
    [int(h * (W / w))], or nothing changes when the target is the current
    width. *)
Definition by_width_spec (bw : Z -> exc S) (s : S) : Prop :=
  forall W s', bw W = Ok s' ->
  wf s' = W /\ (hf s' = py_scale (hf s) W (wf s) \/ (W = wf s /\ hf s' = hf s)).

Definition by_height_spec (bh : Z -> exc S) (s : S) : Prop :=
  forall H s', bh H = Ok s' ->
  hf s' = H /\ (wf s' = py_scale (wf s) H (hf s) \/ (H = hf s /\ wf s' = wf s)).

(** The axis choice read through the laws: the width-driven resize when it
    does not overflow the height, the height-driven one when it does not
    overflow the width. *)
Lemma resize_to_limit_branch w h bw bh (s : S) wl hl :
  0 < w <= 2 ^ 16 -> 0 < h <= 2 ^ 16 -> in_range wl -> in_range hl ->
  (resize_to_limit w h bw bh s wl hl = bw wl /\ wl * h <= hl * w) \/
  (resize_to_limit w h bw bh s wl hl = bh hl /\ hl * w <= wl * h).
Proof.
  intros Rw Rh Rwl Rhl. unfold resize_to_limit, in_range in *.
  destruct (py_ratio_gt_sound wl w h hl) as [HGt HLt]; try lia.
  destruct (Z.eqb_spec h 0), (Z.eqb_spec w 0); try lia.
  destruct (py_ratio_gt wl w h hl) eqn:E.
  - right. split; [reflexivity|].
    destruct (Z.lt_ge_cases (wl * h) (hl * w)) as [C|C]; [|lia].
    specialize (HLt C); congruence.
  - left. split; [reflexivity|].
    destruct (Z.lt_ge_cases (hl * w) (wl * h)) as [C|C]; [|lia].
    specialize (HGt C); congruence.
Qed.

(** Any item whose resize methods behave as above lands inside the box,
    touches it on one axis and keeps its aspect ratio to within a pixel. *)
Lemma resize_to_limit_within bw bh (s s' : S) wl hl :
  0 < wf s <= 2 ^ 16 -> 0 < hf s <= 2 ^ 16 -> in_range wl -> in_range hl ->
  by_width_spec bw s -> by_height_spec bh s ->
  resize_to_limit (wf s) (hf s) bw bh s wl hl = Ok s' ->
  0 <= wf s' <= wl /\ 0 <= hf s' <= hl /\ (wf s' = wl \/ hf s' = hl) /\
  Z.abs (wf s' * hf s - hf s' * wf s) <= Z.max (wf s) (hf s).
Proof.
  intros Rw Rh Rwl Rhl Bw Bh. unfold in_range in *.
  destruct (resize_to_limit_branch (wf s) (hf s) bw bh s wl hl) as [[-> C] | [-> C]];
    auto; intros E.
  - destruct (Bw _ _ E) as [-> [Hs | [-> Hs]]]; rewrite Hs; [|nia].
    pose proof (py_scale_le (hf s) wl (wf s)). pose proof (py_scale_within (hf s) wl (wf s)).
    pose proof (py_scale_nonneg (hf s) wl (wf s)). repeat split; nia.
  - destruct (Bh _ _ E) as [-> [Hs | [-> Hs]]]; rewrite Hs; [|nia].
    pose proof (py_scale_le (wf s) hl (hf s)). pose proof (py_scale_within (wf s) hl (hf s)).
    pose proof (py_scale_nonneg (wf s) hl (hf s)). repeat split; nia.
Qed.

End Laws.
End ContainerItem.

Module Image.

Record image : Type := mkImage { img_id : nat; img_w : Z; img_h : Z }.

Section Ops.
Context `{N : PyNum}.

(** [cv2.resize(img, (w, h))] fails when the target size is empty. *)
Definition cv2_resize (im : image) (w h : Z) : exc image :=
  if (w <=? 0) || (h <=? 0) then Raise Cv2Error im
  else Ok (mkImage (img_id im) w h).

(** image.py 20-32 *)
Definition resize_by_width (im : image) (width : Z) : exc image :=
  if width =? img_w im then Ok im
  else if img_w im =? 0 then Raise ZeroDivisionError im
  else cv2_resize im width (py_scale (img_h im) width (img_w im)).

(** image.py 35-46 *)
Definition resize_by_height (im : image) (height : Z) : exc image :=
  if height =? img_h im then Ok im
  else if img_h im =? 0 then Raise ZeroDivisionError im
  else cv2_resize im (py_scale (img_w im) height (img_h im)) height.

(** [Image.resize_to_limit], inherited from [ContainerItem]. *)
Definition resize_to_limit (im : image) (wl hl : Z) : exc image :=
  ContainerItem.resize_to_limit (img_w im) (img_h im)
    (resize_by_width im) (resize_by_height im) im wl hl.

End Ops.

(** A nonempty shape in the range where the arithmetic laws apply. *)
Definition shape_ok (im : image) : Prop :=
  0 < img_w im /\ 0 < img_h im /\ in_range (img_w im) /\ in_range (img_h im).

Section Props.
Context `{N : PyNum} `{NL : !PyNumLaws N}.

(** The outcomes of a width-driven resize of a nonempty image. *)
Lemma resize_by_width_cases im W :
  img_w im <> 0 ->
  (W = img_w im /\ resize_by_width im W = Ok im) \/
  (W <> img_w im /\ resize_by_width im W = Raise Cv2Error im) \/
  (W <> img_w im /\ 0 < W /\ 0 < py_scale (img_h im) W (img_w im) /\
   resize_by_width im W = Ok (mkImage (img_id im) W (py_scale (img_h im) W (img_w im)))).
Proof.
  intros Hw. unfold resize_by_width, cv2_resize.
  destruct (Z.eqb_spec W (img_w im)); [left; auto|right].
  destruct (Z.eqb_spec (img_w im) 0); [contradiction|].
  destruct (Z.leb_spec W 0), (Z.leb_spec (py_scale (img_h im) W (img_w im)) 0);
    simpl; [left; auto ..| right; auto with zarith].
Qed.

Lemma resize_by_height_cases im H :
  img_h im <> 0 ->
  (H = img_h im /\ resize_by_height im H = Ok im) \/
  (H <> img_h im /\ resize_by_height im H = Raise Cv2Error im) \/
  (H <> img_h im /\ 0 < H /\ 0 < py_scale (img_w im) H (img_h im) /\
   resize_by_height im H = Ok (mkImage (img_id im) (py_scale (img_w im) H (img_h im)) H)).
Proof.
  intros Hh. unfold resize_by_height, cv2_resize.
  destruct (Z.eqb_spec H (img_h im)); [left; auto|right].
  destruct (Z.eqb_spec (img_h im) 0); [contradiction|].
  destruct (Z.leb_spec (py_scale (img_w im) H (img_h im)) 0), (Z.leb_spec H 0);
    simpl; [left; auto ..| right; auto with zarith].
Qed.

Lemma resize_by_width_spec im :
  img_w im <> 0 -> ContainerItem.by_width_spec img_w img_h (resize_by_width im) im.
Proof.
  intros Hw W im' E.
  destruct (resize_by_width_cases im W Hw) as [[-> R]|[[_ R]|(_ & _ & _ & R)]];
    rewrite R in E; inversion E; subst; simpl; auto.
Qed.

Lemma resize_by_height_spec im :
  img_h im <> 0 -> ContainerItem.by_height_spec img_w img_h (resize_by_height im) im.
Proof.
  intros Hh H im' E.
  destruct (resize_by_height_cases im H Hh) as [[-> R]|[[_ R]|(_ & _ & _ & R)]];
    rewrite R in E; inversion E; subst; simpl; auto.
Qed.

(** Every outcome of [resize_to_limit] on a nonempty image: an error is
    [cv2.error] on the unchanged image; a result keeps the id and is
    nonempty. *)
Lemma resize_to_limit_outcome im wl hl :
  shape_ok im -> in_range wl -> in_range hl ->
  match resize_to_limit im wl hl with
  | Ok im' => img_id im' = img_id im /\ 0 < img_w im' /\ 0 < img_h im'
  | Raise e s => e = Cv2Error /\ s = im
  end.
Proof.
  intros Hs Rwl Rhl. pose proof Hs as (Hw & Hh & Rw & Rh). unfold in_range in *.
  unfold resize_to_limit.
  destruct (ContainerItem.resize_to_limit_branch (img_w im) (img_h im) (resize_by_width im)
              (resize_by_height im) im wl hl) as [[-> _] | [-> _]]; try range.
  - destruct (resize_by_width_cases im wl ltac:(lia)) as [[_ ->]|[[_ ->]|(_ & P & Q & ->)]];
      simpl; auto.
  - destruct (resize_by_height_cases im hl ltac:(lia)) as [[_ ->]|[[_ ->]|(_ & P & Q & ->)]];
      simpl; auto.
Qed.

(** A resize keeps the object: the id is unchanged on every outcome. *)
Lemma resize_to_limit_id im wl hl : img_id (exc_state (resize_to_limit im wl hl)) = img_id im.
Proof.
  unfold resize_to_limit, ContainerItem.resize_to_limit, resize_by_width, resize_by_height, cv2_resize.
  repeat (simpl; match goal with |- context [if ?b then _ else _] => destruct b end); reflexivity.
Qed.

(** Resizing a well-shaped image to a box
    either raises [cv2.error] and leaves the image as it was, or gives the
    same image (same id) with a nonempty shape inside the box that touches
    the box on at least one axis: the largest size that fits. *)
Lemma image_resize_fits_box im wl hl :
  shape_ok im -> in_range wl -> in_range hl ->
  match resize_to_limit im wl hl with
  | Ok im' => img_id im' = img_id im /\ 0 < img_w im' <= wl /\ 0 < img_h im' <= hl /\
              (img_w im' = wl \/ img_h im' = hl)
  | Raise e s => e = Cv2Error /\ s = im
  end.
Proof.
  intros Hs Rwl Rhl. pose proof (resize_to_limit_outcome im wl hl Hs Rwl Rhl) as O.
  pose proof Hs as (Hw & Hh & Rw & Rh). unfold in_range in *.
  destruct (resize_to_limit im wl hl) as [im'|e s'] eqn:E; auto.
  destruct (ContainerItem.resize_to_limit_within img_w img_h (resize_by_width im)
              (resize_by_height im) im im' wl hl) as (A & B & C & _);
    try range; auto using resize_by_width_spec, resize_by_height_spec with zarith.
Qed.

(** C22: resizing a well-shaped image to a box
    either raises [cv2.error] and leaves the image as it was, or gives the
    same image (same id) with a nonempty shape inside the box that touches
    the box on at least one axis: the largest size that fits. *)
Theorem resize_to_limit_fits im wl hl :
  shape_ok im -> in_range wl -> in_range hl ->
  match resize_to_limit im wl hl with
  | Ok im' => img_id im' = img_id im /\ 0 < img_w im' <= wl /\ 0 < img_h im' <= hl /\
              (img_w im' = wl \/ img_h im' = hl)
  | Raise e s => e = Cv2Error /\ s = im
  end.
Proof. apply image_resize_fits_box. Qed.

(** C23: a resize to a box keeps the aspect ratio
    to within one pixel: the cross product [w' * h - h' * w] of the new and
    old shapes is at most the larger old side in absolute value. *)
Theorem resize_to_limit_aspect im wl hl im' :
  shape_ok im -> in_range wl -> in_range hl -> resize_to_limit im wl hl = Ok im' ->
  Z.abs (img_w im' * img_h im - img_h im' * img_w im) <= Z.max (img_w im) (img_h im).
Proof.
  intros Hs Rwl Rhl E. pose proof Hs as (Hw & Hh & Rw & Rh). unfold in_range in *.
  apply (ContainerItem.resize_to_limit_within img_w img_h (resize_by_width im)
           (resize_by_height im) im im' wl hl);
    try range; auto using resize_by_width_spec, resize_by_height_spec with zarith.
Qed.

(** resizing an image to the box it was
    just resized to changes nothing, so repeated re-fits of an unchanged
    budget (every [resize_items] of a container) are no-ops. *)
Theorem resize_to_limit_idempotent im wl hl im' :
  shape_ok im -> in_range wl -> in_range hl -> resize_to_limit im wl hl = Ok im' ->
  resize_to_limit im' wl hl = Ok im'.
Proof.
  intros Hs Rwl Rhl Hr.
  pose proof (image_resize_fits_box im wl hl Hs Rwl Rhl) as F. rewrite Hr in F.
  destruct F as (_ & Fw & Fh & Ft).
  pose proof Hs as (Hw & Hh & Rw & Rh). unfold in_range in *. unfold resize_to_limit.
  destruct (ContainerItem.resize_to_limit_branch (img_w im') (img_h im') (resize_by_width im')
              (resize_by_height im') im' wl hl) as [[-> C] | [-> C]]; try range.
  - destruct (resize_by_width_cases im' wl ltac:(lia)) as [[_ ->]|[[E _]|(E & _)]];
      [reflexivity | exfalso; nia ..].
  - destruct (resize_by_height_cases im' hl ltac:(lia)) as [[_ ->]|[[E _]|(E & _)]];
      [reflexivity | exfalso; nia ..].
Qed.

End Props.
End Image.

(** ** Witnesses and concrete runs *)

Module ImageRuns.
Import Image.

Definition im_200x100 : image := mkImage 0 200 100.

Lemma resize_to_limit_fits_witness :
  shape_ok im_200x100 /\ in_range 150 /\ in_range 100 /\
  match @resize_to_limit exact_num im_200x100 150 100 with
  | Ok im' => img_id im' = img_id im_200x100 /\ 0 < img_w im' <= 150 /\
              0 < img_h im' <= 100 /\ (img_w im' = 150 \/ img_h im' = 100)
  | Raise e s => e = Cv2Error /\ s = im_200x100
  end.
Proof.
  assert (Hs : shape_ok im_200x100) by (unfold shape_ok, in_range; simpl; lia).
  assert (R1 : in_range 150) by (unfold in_range; lia).
  assert (R2 : in_range 100) by (unfold in_range; lia).
  exact (conj Hs (conj R1 (conj R2
    (@resize_to_limit_fits exact_num exact_num_laws im_200x100 150 100 Hs R1 R2)))).
Defined.

Lemma resize_to_limit_aspect_witness :
  @resize_to_limit exact_num im_200x100 150 100 = Ok (mkImage 0 150 75) /\
  Z.abs (150 * img_h im_200x100 - 75 * img_w im_200x100)
    <= Z.max (img_w im_200x100) (img_h im_200x100).
Proof.
  split; [reflexivity|].
  apply (@resize_to_limit_aspect exact_num exact_num_laws im_200x100 150 100 (mkImage 0 150 75));
    [unfold shape_ok, in_range; simpl; lia | unfold in_range; lia | unfold in_range; lia | reflexivity].
Defined.

Lemma resize_to_limit_idempotent_witness :
  @resize_to_limit exact_num im_200x100 150 100 = Ok (mkImage 0 150 75) /\
  @resize_to_limit exact_num (mkImage 0 150 75) 150 100 = Ok (mkImage 0 150 75).
Proof.
  split; [reflexivity|].
  apply (@resize_to_limit_idempotent exact_num exact_num_laws im_200x100 150 100);
    [unfold shape_ok, in_range; simpl; lia | unfold in_range; lia | unfold in_range; lia | reflexivity].
Defined.

(** CPython truncates the binary64
    product [100 * (23 / 5)], which is just below 460, so widening a
    5 x 100 image to 23 gives height 459 where the exact floor of
    [100 * 23 / 5] is 460. *)
Theorem resize_by_width_float_truncation :
  @resize_by_width ieee_num (mkImage 0 5 100) 23 = Ok (mkImage 0 23 459) /\ 100 * 23 / 5 = 460.
Proof. split; vm_compute; reflexivity. Qed.

(** On an exact tie ([69 / (15 / 55)] is
    253) the binary64 comparison finds the width-driven height above the
    limit and takes the height-driven branch, whose result (69 x 253)
    differs from the width-driven one (69 x 252). *)
Theorem resize_to_limit_float_tie :
  69 * 55 = 253 * 15 /\
  @resize_to_limit ieee_num (mkImage 0 15 55) 69 253 = Ok (mkImage 0 69 253) /\
  @resize_by_width ieee_num (mkImage 0 15 55) 69 = Ok (mkImage 0 69 252).
Proof. repeat split; vm_compute; reflexivity. Qed.

End ImageRuns.
