(* ===== verification/Items.v ===== *)
(** The item tree: what a [LayoutContainer] holds.

    Python objects are linked by reference; the program only ever builds a
    tree (a container owns its children, no child is shared, no child knows
    its parent), so the model is a value tree in which each node carries the
    id that stands for Python's object identity, compared by
    [list.remove].  [cattrs] holds the attributes of
    [LayoutContainer.__init__] (layout_container.py 20-61), [kind] the
    strategy with the state it keeps (the grid's rows, columns and cell
    size), and [item] the three kinds of [ContainerItem] of the program:
    an [Image], an [ImageFrameContainer] (whose item list is always its one
    image: its [add_item] and [remove_item] do nothing) and a
    [LayoutContainer] with a strategy and an ordered list of children. *)

From Stdlib Require Import ZArith List Lia.
From S2P Require Import Prelude PyNum Image.
Import ListNotations.
Open Scope Z_scope.

Import Image (image, mkImage, img_id, img_w, img_h).

(** The attributes every container keeps. *)
Record cattrs : Type := mkAttrs {
  c_width : Z;
  c_height : Z;
  c_capacity : Z;
  c_padding_top : Z;
  c_padding_right : Z;
  c_padding_bottom : Z;
  c_padding_left : Z;
  c_gutter_horizontal : Z;  (** between vertically stacked items *)
  c_gutter_vertical : Z;    (** between items side by side *)
  c_background_color : Z * Z * Z;
  c_min_content_width : Z;
  c_min_content_height : Z
}.

(** [self._width = ...; self._height = ...] *)
Definition set_size (a : cattrs) (w h : Z) : cattrs :=
  {| c_width := w; c_height := h; c_capacity := c_capacity a;
     c_padding_top := c_padding_top a; c_padding_right := c_padding_right a;
     c_padding_bottom := c_padding_bottom a; c_padding_left := c_padding_left a;
     c_gutter_horizontal := c_gutter_horizontal a; c_gutter_vertical := c_gutter_vertical a;
     c_background_color := c_background_color a;
     c_min_content_width := c_min_content_width a;
     c_min_content_height := c_min_content_height a |}.

(** [LayoutLogic.get_max_drawable_width] / [_height] (layout_container.py
    457-473): the box less the padding. *)
Definition max_drawable_width (a : cattrs) : Z :=
  c_width a - c_padding_left a - c_padding_right a.
Definition max_drawable_height (a : cattrs) : Z :=
  c_height a - c_padding_top a - c_padding_bottom a.

(** The strategy of a container; a grid keeps its row and column counts
    (grid_container.py 19-21) and the cell size its [resize_items] last
    computed (grid_container.py 39-57). *)
Inductive kind : Type :=
| Horizontal
| Vertical
| Grid (rows cols cell_width cell_height : Z).

#[warnings="-register-all"]
Inductive item : Type :=
| IImage (im : image)
| IFrame (fid : nat) (fa : cattrs) (im : image)
| ILayout (lid : nat) (k : kind) (a : cattrs) (items : list item).

(** A layout container ([HorizontalContainer], [VerticalContainer] or
    [GridContainer]) as the receiver of its methods. *)
Record layout : Type := mkLayout {
  l_id : nat;
  l_kind : kind;
  l_attrs : cattrs;
  l_items : list item
}.

Definition to_item (c : layout) : item :=
  ILayout (l_id c) (l_kind c) (l_attrs c) (l_items c).

Definition with_items (c : layout) (its : list item) : layout :=
  mkLayout (l_id c) (l_kind c) (l_attrs c) its.

(** Python's object identity. *)
Definition item_id (x : item) : nat :=
  match x with
  | IImage im => img_id im
  | IFrame fid _ _ => fid
  | ILayout lid _ _ _ => lid
  end.

Definition same_object (x y : item) : bool := Nat.eqb (item_id x) (item_id y).

(** [get_width()] / [get_height()] of each kind of item. *)
Definition item_width (x : item) : Z :=
  match x with
  | IImage im => img_w im
  | IFrame _ fa _ => c_width fa
  | ILayout _ _ a _ => c_width a
  end.

Definition item_height (x : item) : Z :=
  match x with
  | IImage im => img_h im
  | IFrame _ fa _ => c_height fa
  | ILayout _ _ a _ => c_height a
  end.

(** [isinstance(item, LayoutContainer)]: frames are layout containers. *)
Definition is_layout_container (x : item) : bool :=
  match x with
  | IImage _ => false
  | IFrame _ _ _ | ILayout _ _ _ _ => true
  end.

(** ** Induction over the tree *)

Section ItemInd.
Variable P : item -> Prop.
Hypothesis P_image : forall im, P (IImage im).
Hypothesis P_frame : forall fid fa im, P (IFrame fid fa im).
Hypothesis P_layout : forall lid k a its, Forall P its -> P (ILayout lid k a its).

Fixpoint item_ind' (x : item) : P x :=
  match x with
  | IImage im => P_image im
  | IFrame fid fa im => P_frame fid fa im
  | ILayout lid k a its =>
      P_layout lid k a its
        ((fix go (l : list item) : Forall P l :=
            match l with
            | [] => Forall_nil _
            | y :: ys => Forall_cons _ (item_ind' y) (go ys)
            end) its)
  end.
End ItemInd.

(** The ids of a tree, root first. *)
Fixpoint item_ids (x : item) : list nat :=
  match x with
  | IImage im => [img_id im]
  | IFrame fid _ im => [fid; img_id im]
  | ILayout lid _ _ its => lid :: flat_map item_ids its
  end.

Lemma same_object_refl x : same_object x x = true.
Proof. apply Nat.eqb_refl. Qed.

#[export] Hint Resolve same_object_refl : layout.
