(* ===== verification/Logic.v ===== *)
(** The layout strategies ([LayoutLogic] and its subclasses).

    A strategy reads its container's attributes and items and computes the
    budget of each child ([get_max_width_for_each_item],
    [get_max_height_for_each_item]), the rectangles the children are
    painted into ([get_layout_coordinates]), the smallest size the container
    can shrink to ([get_minimum_layout_width] / [_height]) and whether the
    item just appended fits ([check_dimensions_when_adding_item], which
    raises [LayoutException] when it does not: here [false]).
    - [LayoutLogic]: the minimum sizes of the base class
      (layout_container.py 404-455), written once for the whole tree since
      they recurse into nested containers, with the grid's override
      (grid_container.py 104-108);
    - [VerticalLogic]: vertical_container.py 15-73;
    - [HorizontalLogic]: the horizontal strategy, from spec.md 4.2 and 4.4
      (its source is not in the repository): the transpose of the vertical
      one, with cells advancing by the budget plus the vertical gutter;
    - [GridLogic]: grid_container.py 36-124;
    - [FrameLogic]: image_frame_container.py 111-152. *)

From Stdlib Require Import ZArith List Lia.
From S2P Require Import Prelude PyNum Image Items.
Import ListNotations.
Open Scope Z_scope.
Open Scope bool_scope.

(** A paint rectangle [(x_origin, y_origin, x_end, y_end)]. *)
Definition rect : Type := (Z * Z * Z * Z)%type.

Definition sumZ (l : list Z) : Z := fold_right Z.add 0 l.

Definition count (l : list item) : Z := Z.of_nat (length l).

Module LayoutLogic.

(** [LayoutLogic.get_minimum_layout_height] of the container [(a, its)],
    given the minimum height [f] of its nested layout containers. *)
Definition base_min_layout_height_with (f : item -> Z) (a : cattrs) (its : list item) : Z :=
  c_gutter_horizontal a * Z.max (count its - 1) 0 +
  (c_padding_top a + c_padding_bottom a) +
  sumZ (map (fun y => if is_layout_container y then f y else c_min_content_height a) its).

Definition base_min_layout_width_with (f : item -> Z) (a : cattrs) (its : list item) : Z :=
  c_gutter_vertical a * Z.max (count its - 1) 0 +
  (c_padding_left a + c_padding_right a) +
  sumZ (map (fun y => if is_layout_container y then f y else c_min_content_width a) its).

(** [item.get_minimum_layout_height()] of a layout container: the frame's
    one child is an image; a grid answers its height less its rows'
    minimum content. *)
Fixpoint min_layout_height (x : item) : Z :=
  match x with
  | IImage _ => 0
  | IFrame _ fa im => base_min_layout_height_with (fun _ => 0) fa [IImage im]
  | ILayout _ (Grid rows _ _ _) a _ => c_height a - c_min_content_height a * rows
  | ILayout _ _ a its => base_min_layout_height_with min_layout_height a its
  end.

Fixpoint min_layout_width (x : item) : Z :=
  match x with
  | IImage _ => 0
  | IFrame _ fa im => base_min_layout_width_with (fun _ => 0) fa [IImage im]
  | ILayout _ (Grid _ cols _ _) a _ => c_width a - c_min_content_width a * cols
  | ILayout _ _ a its => base_min_layout_width_with min_layout_width a its
  end.

Definition base_min_layout_height (a : cattrs) (its : list item) : Z :=
  base_min_layout_height_with min_layout_height a its.
Definition base_min_layout_width (a : cattrs) (its : list item) : Z :=
  base_min_layout_width_with min_layout_width a its.

End LayoutLogic.

Module VerticalLogic.
Section S.
Context `{N : PyNum}.

Definition max_width_for_each_item (a : cattrs) : Z := max_drawable_width a.

Definition max_height_for_each_item (a : cattrs) (n : Z) : Z :=
  if n =? 0 then max_drawable_height a
  else py_div (max_drawable_height a - (n - 1) * c_gutter_horizontal a) n.

(** The loop of [get_layout_coordinates]: each item centred in its band,
    the band origin advancing by the budget and the gutter. *)
Fixpoint coordinates_from (x_cell_origin y_cell_origin mw mh gutter : Z)
    (its : list item) : list rect :=
  match its with
  | [] => []
  | it :: rest =>
      let x_origin := x_cell_origin + py_div (mw - item_width it) 2 in
      let y_origin := y_cell_origin + py_div (mh - item_height it) 2 in
      (x_origin, y_origin, x_origin + item_width it, y_origin + item_height it)
        :: coordinates_from x_cell_origin (y_cell_origin + mh + gutter) mw mh gutter rest
  end.

Definition layout_coordinates (a : cattrs) (its : list item) : list rect :=
  coordinates_from (c_padding_left a) (c_padding_top a) (max_width_for_each_item a)
    (max_height_for_each_item a (count its)) (c_gutter_horizontal a) its.

Definition check_dimensions_when_adding_item (a : cattrs) (its : list item) : bool :=
  negb (c_height a <? LayoutLogic.base_min_layout_height a its).

End S.
End VerticalLogic.

Module HorizontalLogic.
Section S.
Context `{N : PyNum}.

Definition max_width_for_each_item (a : cattrs) (n : Z) : Z :=
  if n =? 0 then max_drawable_width a
  else py_div (max_drawable_width a - (n - 1) * c_gutter_vertical a) n.

Definition max_height_for_each_item (a : cattrs) : Z := max_drawable_height a.

Fixpoint coordinates_from (x_cell_origin y_cell_origin mw mh gutter : Z)
    (its : list item) : list rect :=
  match its with
  | [] => []
  | it :: rest =>
      let x_origin := x_cell_origin + py_div (mw - item_width it) 2 in
      let y_origin := y_cell_origin + py_div (mh - item_height it) 2 in
      (x_origin, y_origin, x_origin + item_width it, y_origin + item_height it)
        :: coordinates_from (x_cell_origin + mw + gutter) y_cell_origin mw mh gutter rest
  end.

Definition layout_coordinates (a : cattrs) (its : list item) : list rect :=
  coordinates_from (c_padding_left a) (c_padding_top a)
    (max_width_for_each_item a (count its)) (max_height_for_each_item a)
    (c_gutter_vertical a) its.

Definition check_dimensions_when_adding_item (a : cattrs) (its : list item) : bool :=
  negb (c_width a <? LayoutLogic.base_min_layout_width a its).

End S.
End HorizontalLogic.

Module GridLogic.
Section S.
Context `{N : PyNum}.

(** The cell size [resize_items] computes (grid_container.py 52-57). *)
Definition cell_width (a : cattrs) (cols : Z) : Z :=
  py_div (c_width a - c_padding_left a - c_padding_right a - c_gutter_vertical a * (cols - 1)) cols.
Definition cell_height (a : cattrs) (rows : Z) : Z :=
  py_div (c_height a - c_padding_top a - c_padding_bottom a - c_gutter_horizontal a * (rows - 1)) rows.

(** Cells filled row by row; [col] counts the cells used in the current
    row and wraps at [cols]. *)
Fixpoint coordinates_from (padding_left x_cell_origin y_cell_origin col cols cw ch gv gh : Z)
    (its : list item) : list rect :=
  match its with
  | [] => []
  | it :: rest =>
      let x_gap := py_div (cw - item_width it) 2 in
      let y_gap := py_div (ch - item_height it) 2 in
      let r := (x_cell_origin + x_gap, y_cell_origin + y_gap,
                x_cell_origin + x_gap + item_width it, y_cell_origin + y_gap + item_height it) in
      if cols <=? col + 1
      then r :: coordinates_from padding_left padding_left (y_cell_origin + ch + gh) 0
                  cols cw ch gv gh rest
      else r :: coordinates_from padding_left (x_cell_origin + cw + gv) y_cell_origin (col + 1)
                  cols cw ch gv gh rest
  end.

Definition layout_coordinates (cols cw ch : Z) (a : cattrs) (its : list item) : list rect :=
  coordinates_from (c_padding_left a) (c_padding_left a) (c_padding_top a) 0 cols cw ch
    (c_gutter_vertical a) (c_gutter_horizontal a) its.

(** The last item, or its minimum layout size when it is a layout
    container, against the cell. *)
Definition check_dimensions_when_adding_item (cw ch : Z) (its : list item) : bool :=
  match rev its with
  | [] => true
  | last :: _ =>
      let w := if is_layout_container last then LayoutLogic.min_layout_width last
               else item_width last in
      let h := if is_layout_container last then LayoutLogic.min_layout_height last
               else item_height last in
      negb ((cw <? w) || (ch <? h))
  end.

End S.
End GridLogic.

Module FrameLogic.
Section S.
Context `{N : PyNum}.

(** The top-left corner of the image centred in the padded interior. *)
Definition layout_coordinates (fa : cattrs) (im : Image.image) : list (Z * Z) :=
  [(c_padding_left fa + py_div (max_drawable_width fa - Image.img_w im) 2,
    c_padding_top fa + py_div (max_drawable_height fa - Image.img_h im) 2)].

End S.
End FrameLogic.

(** ** Dispatch on the strategy of a container *)

Section Dispatch.
Context `{N : PyNum}.

Definition budget (k : kind) (a : cattrs) (n : Z) : Z * Z :=
  match k with
  | Vertical => (VerticalLogic.max_width_for_each_item a, VerticalLogic.max_height_for_each_item a n)
  | Horizontal => (HorizontalLogic.max_width_for_each_item a n, HorizontalLogic.max_height_for_each_item a)
  | Grid _ _ cw ch => (cw, ch)
  end.

Definition layout_coordinates (k : kind) (a : cattrs) (its : list item) : list rect :=
  match k with
  | Vertical => VerticalLogic.layout_coordinates a its
  | Horizontal => HorizontalLogic.layout_coordinates a its
  | Grid _ cols cw ch => GridLogic.layout_coordinates cols cw ch a its
  end.

Definition check_dimensions_when_adding_item (k : kind) (a : cattrs) (its : list item) : bool :=
  match k with
  | Vertical => VerticalLogic.check_dimensions_when_adding_item a its
  | Horizontal => HorizontalLogic.check_dimensions_when_adding_item a its
  | Grid _ _ cw ch => GridLogic.check_dimensions_when_adding_item cw ch its
  end.

End Dispatch.

(** ** Paint rectangles: closed forms *)

(** One child centred in a cell of size [mw] x [mh] at [(x, y)]: the body
    of every coordinate loop. *)
Section Cells.
Context `{N : PyNum}.

Definition cell_rect (x y mw mh : Z) (it : item) : rect :=
  let x_origin := x + py_div (mw - item_width it) 2 in
  let y_origin := y + py_div (mh - item_height it) 2 in
  (x_origin, y_origin, x_origin + item_width it, y_origin + item_height it).

(** The [i]-th child of a column sits in the [i]-th band. *)
Lemma vertical_closed x0 y mw mh g its i :
  VerticalLogic.coordinates_from x0 (y + i * (mh + g)) mw mh g its =
  imap (fun j it => cell_rect x0 (y + j * (mh + g)) mw mh it) i its.
Proof.
  revert i; induction its as [|it rest IH]; intros i; simpl; [reflexivity|].
  replace (y + i * (mh + g) + mh + g) with (y + (i + 1) * (mh + g)) by ring.
  rewrite IH. reflexivity.
Qed.

Lemma horizontal_closed x y0 mw mh g its i :
  HorizontalLogic.coordinates_from (x + i * (mw + g)) y0 mw mh g its =
  imap (fun j it => cell_rect (x + j * (mw + g)) y0 mw mh it) i its.
Proof.
  revert i; induction its as [|it rest IH]; intros i; simpl; [reflexivity|].
  replace (x + i * (mw + g) + mw + g) with (x + (i + 1) * (mw + g)) by ring.
  rewrite IH. reflexivity.
Qed.

Lemma row_col q c cols : 0 <= c < cols -> (q * cols + c) / cols = q /\ (q * cols + c) mod cols = c.
Proof.
  intros Hc. rewrite Z.div_add_l, Z.div_small, Z.add_0_r by lia. split; [reflexivity|].
  rewrite Z.add_comm, Z.mod_add by lia. apply Z.mod_small; lia.
Qed.

(** The [j]-th child of a grid sits in row [j / cols], column [j mod cols]. *)
Lemma grid_closed pl pt cols cw ch gv gh its q c :
  0 <= c < cols ->
  GridLogic.coordinates_from pl (pl + c * (cw + gv)) (pt + q * (ch + gh)) c cols cw ch gv gh its =
  imap (fun j it => cell_rect (pl + (j mod cols) * (cw + gv)) (pt + (j / cols) * (ch + gh)) cw ch it)
    (q * cols + c) its.
Proof.
  revert q c; induction its as [|it rest IH]; intros q c Hc; simpl; [reflexivity|].
  destruct (row_col q c cols Hc) as [-> ->].
  destruct (Z.leb_spec cols (c + 1)).
  - replace (q * cols + c + 1) with ((q + 1) * cols + 0) by lia.
    specialize (IH (q + 1) 0 ltac:(lia)). rewrite Z.mul_0_l, Z.add_0_r in IH.
    replace (pt + q * (ch + gh) + ch + gh) with (pt + (q + 1) * (ch + gh)) by ring.
    rewrite IH, Z.add_0_r. reflexivity.
  - replace (q * cols + c + 1) with (q * cols + (c + 1)) by lia.
    replace (pl + c * (cw + gv) + cw + gv) with (pl + (c + 1) * (cw + gv)) by ring.
    rewrite IH by lia. reflexivity.
Qed.

End Cells.

(** ** Paint rectangles: inside the container, of the child's size, apart *)

Definition inside (a : cattrs) (r : rect) : Prop :=
  let '(x0, y0, x1, y1) := r in
  c_padding_left a <= x0 /\ x1 <= c_width a - c_padding_right a /\
  c_padding_top a <= y0 /\ y1 <= c_height a - c_padding_bottom a.

(** [r] is where [it] is painted: inside the drawable area, with exactly
    the child's shape (numpy's slice assignment needs both). *)
Definition placed (a : cattrs) (it : item) (r : rect) : Prop :=
  let '(x0, y0, x1, y1) := r in
  inside a r /\ x1 - x0 = item_width it /\ y1 - y0 = item_height it.

Definition disjoint (r1 r2 : rect) : Prop :=
  let '(a0, b0, a1, b1) := r1 in
  let '(c0, d0, c1, d1) := r2 in
  a1 <= c0 \/ c1 <= a0 \/ b1 <= d0 \/ d1 <= b0.

(** A child that fits a budget of [mw] x [mh]. *)
Definition fits (mw mh : Z) (x : item) : Prop :=
  0 <= item_width x <= mw /\ 0 <= item_height x <= mh.

(** Sizes, padding and gutters in the range of the arithmetic laws. *)
Definition attrs_ok (a : cattrs) : Prop :=
  in_range (c_width a) /\ in_range (c_height a) /\
  in_range (c_padding_top a) /\ in_range (c_padding_right a) /\
  in_range (c_padding_bottom a) /\ in_range (c_padding_left a) /\
  in_range (c_gutter_horizontal a) /\ in_range (c_gutter_vertical a).

(** The three properties of a coordinate list. *)
Definition well_placed (a : cattrs) (its : list item) (coords : list rect) : Prop :=
  length coords = length its /\
  (forall k it r, nth_error its k = Some it -> nth_error coords k = Some r -> placed a it r) /\
  (forall k1 k2 r1 r2, (k1 < k2)%nat ->
     nth_error coords k1 = Some r1 -> nth_error coords k2 = Some r2 -> disjoint r1 r2).

Section Placement.
Context `{N : PyNum} `{NL : !PyNumLaws N}.

Lemma half_gap g : 0 <= g <= 2 ^ 16 -> 0 <= py_div g 2 /\ 2 * py_div g 2 <= g.
Proof.
  intros Hg. rewrite py_div_exact by lia.
  split; [apply quot_nonneg | apply quot_le_nonneg]; lia.
Qed.

(** A child that fits its cell is painted inside the cell, with its shape. *)
Lemma cell_rect_bounds x y mw mh it :
  mw <= 2 ^ 16 -> mh <= 2 ^ 16 -> fits mw mh it ->
  let '(x0, y0, x1, y1) := cell_rect x y mw mh it in
  x <= x0 /\ x1 <= x + mw /\ y <= y0 /\ y1 <= y + mh /\
  x1 - x0 = item_width it /\ y1 - y0 = item_height it.
Proof.
  intros Hw Hh [Fw Fh]. unfold cell_rect.
  pose proof (half_gap (mw - item_width it) ltac:(lia)).
  pose proof (half_gap (mh - item_height it) ltac:(lia)). lia.
Qed.

(** The shared core of the strategies: children placed in cells at
    [pos i] that lie inside the drawable area and are pairwise apart (a
    later cell to the right of or below an earlier one). *)
Lemma cells_well_placed a mw mh (pos : Z -> Z * Z) its :
  0 <= mw <= 2 ^ 16 -> 0 <= mh <= 2 ^ 16 -> Forall (fits mw mh) its ->
  (forall i, 0 <= i < count its ->
     c_padding_left a <= fst (pos i) /\ fst (pos i) + mw <= c_width a - c_padding_right a /\
     c_padding_top a <= snd (pos i) /\ snd (pos i) + mh <= c_height a - c_padding_bottom a) ->
  (forall i j, 0 <= i < j -> j < count its ->
     fst (pos i) + mw <= fst (pos j) \/ snd (pos i) + mh <= snd (pos j)) ->
  well_placed a its (imap (fun i it => cell_rect (fst (pos i)) (snd (pos i)) mw mh it) 0 its).
Proof.
  intros Rw Rh Hf Hin Hap. unfold count in *. split; [apply imap_length|split].
  - intros k it r Hit Hr. rewrite imap_nth_error, Hit in Hr. simpl in Hr. inversion Hr; subst.
    pose proof (proj1 (nth_error_Some its k) ltac:(congruence)).
    pose proof (Hin (Z.of_nat k) ltac:(lia)).
    pose proof (cell_rect_bounds (fst (pos (0 + Z.of_nat k))) (snd (pos (0 + Z.of_nat k))) mw mh it
                  ltac:(lia) ltac:(lia) (proj1 (Forall_forall _ _) Hf it (nth_error_In _ _ Hit))).
    destruct (cell_rect _ _ _ _ _) as [[[x0 y0] x1] y1]. simpl in *. lia.
  - intros k1 k2 r1 r2 Hlt H1 H2. rewrite imap_nth_error in H1, H2.
    destruct (nth_error its k1) as [it1|] eqn:E1; [|discriminate].
    destruct (nth_error its k2) as [it2|] eqn:E2; [|discriminate].
    simpl in H1, H2. inversion H1; inversion H2; subst.
    pose proof (proj1 (nth_error_Some its k2) ltac:(congruence)).
    pose proof (Hap (Z.of_nat k1) (Z.of_nat k2) ltac:(lia) ltac:(lia)).
    pose proof (cell_rect_bounds (fst (pos (0 + Z.of_nat k1))) (snd (pos (0 + Z.of_nat k1))) mw mh it1
                  ltac:(lia) ltac:(lia) (proj1 (Forall_forall _ _) Hf it1 (nth_error_In _ _ E1))).
    pose proof (cell_rect_bounds (fst (pos (0 + Z.of_nat k2))) (snd (pos (0 + Z.of_nat k2))) mw mh it2
                  ltac:(lia) ltac:(lia) (proj1 (Forall_forall _ _) Hf it2 (nth_error_In _ _ E2))).
    do 2 destruct (cell_rect _ _ _ _ _) as [[[? ?] ?] ?]. simpl in *. lia.
Qed.

End Placement.

Section Strategies.
Context `{N : PyNum} `{NL : !PyNumLaws N}.

Lemma well_placed_nil a : well_placed a [] [].
Proof.
  split; [reflexivity|split].
  - intros [|k] it r H; discriminate.
  - intros k1 [|k2] r1 r2 _ _ H; discriminate.
Qed.

(** An equal share [int(X / n)] of a nonnegative extent. *)
Lemma share_bounds X n :
  0 < n <= 2 ^ 12 -> 0 <= X <= 2 ^ 16 -> 0 <= py_div X n /\ n * py_div X n <= X.
Proof.
  intros Hn HX. rewrite py_div_exact by lia.
  split; [apply quot_nonneg | apply quot_le_nonneg]; lia.
Qed.

(** In a vertical container whose
    children fit their budget (full drawable width, equal share of the
    height), [get_layout_coordinates] gives one rectangle per child, in
    order, each inside the drawable area with exactly its child's shape,
    and no two overlap. *)
Lemma vertical_bands_placed a its :
  attrs_ok a -> count its <= 2 ^ 12 -> 0 <= max_drawable_width a ->
  0 <= max_drawable_height a - (count its - 1) * c_gutter_horizontal a ->
  Forall (fits (VerticalLogic.max_width_for_each_item a)
               (VerticalLogic.max_height_for_each_item a (count its))) its ->
  well_placed a its (VerticalLogic.layout_coordinates a its).
Proof.
  intros Ha Hn Hdw HX Hf. destruct its as [|it0 rest]; [apply well_placed_nil|].
  unfold attrs_ok, in_range, max_drawable_width, max_drawable_height in *.
  unfold VerticalLogic.layout_coordinates, VerticalLogic.max_width_for_each_item,
    VerticalLogic.max_height_for_each_item, max_drawable_width, max_drawable_height in *.
  set (n := count (it0 :: rest)) in *.
  assert (Hn0 : 0 < n) by (unfold n, count; simpl; lia).
  destruct (Z.eqb_spec n 0) as [|_]; [lia|].
  set (X := c_height a - c_padding_top a - c_padding_bottom a - (n - 1) * c_gutter_horizontal a) in *.
  destruct (share_bounds X n ltac:(lia) ltac:(nia)) as [Hm Hnm].
  set (mh := py_div X n) in *.
  replace (c_padding_top a) with (c_padding_top a + 0 * (mh + c_gutter_horizontal a)) at 1 by ring.
  rewrite vertical_closed.
  apply (cells_well_placed a _ mh (fun i => (c_padding_left a, c_padding_top a + i * (mh + c_gutter_horizontal a))));
    [lia | nia | exact Hf | intros i Hi; simpl; nia | intros i j Hij Hj; simpl; right; nia].
Qed.

(** C14: in a vertical container whose
    children fit their budget (full drawable width, equal share [mh] of
    the height), [get_layout_coordinates] gives one rectangle per child,
    in order, each inside the drawable area with exactly its child's
    shape, and no two overlap; the [j]-th child is centred in the band
    that starts [j * (mh + gutter)] below the top padding, the bands
    separated by the horizontal gutter. *)
Theorem vertical_coordinates_well_placed a its :
  attrs_ok a -> count its <= 2 ^ 12 -> 0 <= max_drawable_width a ->
  0 <= max_drawable_height a - (count its - 1) * c_gutter_horizontal a ->
  Forall (fits (VerticalLogic.max_width_for_each_item a)
               (VerticalLogic.max_height_for_each_item a (count its))) its ->
  well_placed a its (VerticalLogic.layout_coordinates a its) /\
  (VerticalLogic.layout_coordinates a its =
    imap (fun j it => cell_rect (c_padding_left a)
                        (c_padding_top a + j * (VerticalLogic.max_height_for_each_item a (count its)
                                                + c_gutter_horizontal a))
                        (VerticalLogic.max_width_for_each_item a)
                        (VerticalLogic.max_height_for_each_item a (count its)) it) 0 its).
Proof.
  intros Ha Hn Hw Hh Hf. split; [apply vertical_bands_placed; assumption|].
  unfold VerticalLogic.layout_coordinates.
  rewrite <- vertical_closed, Z.mul_0_l, Z.add_0_r. reflexivity.
Qed.

(** In a horizontal container whose
    children fit their budget (equal share of the width, full drawable
    height), the rectangles are one per child, in order, inside the
    drawable area, of the child's shape, and pairwise disjoint. *)
Lemma horizontal_bands_placed a its :
  attrs_ok a -> count its <= 2 ^ 12 -> 0 <= max_drawable_height a ->
  0 <= max_drawable_width a - (count its - 1) * c_gutter_vertical a ->
  Forall (fits (HorizontalLogic.max_width_for_each_item a (count its))
               (HorizontalLogic.max_height_for_each_item a)) its ->
  well_placed a its (HorizontalLogic.layout_coordinates a its).
Proof.
  intros Ha Hn Hdh HX Hf. destruct its as [|it0 rest]; [apply well_placed_nil|].
  unfold attrs_ok, in_range, max_drawable_width, max_drawable_height in *.
  unfold HorizontalLogic.layout_coordinates, HorizontalLogic.max_width_for_each_item,
    HorizontalLogic.max_height_for_each_item, max_drawable_width, max_drawable_height in *.
  set (n := count (it0 :: rest)) in *.
  assert (Hn0 : 0 < n) by (unfold n, count; simpl; lia).
  destruct (Z.eqb_spec n 0) as [|_]; [lia|].
  set (X := c_width a - c_padding_left a - c_padding_right a - (n - 1) * c_gutter_vertical a) in *.
  destruct (share_bounds X n ltac:(lia) ltac:(nia)) as [Hm Hnm].
  set (mw := py_div X n) in *.
  replace (c_padding_left a) with (c_padding_left a + 0 * (mw + c_gutter_vertical a)) at 1 by ring.
  rewrite horizontal_closed.
  apply (cells_well_placed a mw _ (fun i => (c_padding_left a + i * (mw + c_gutter_vertical a), c_padding_top a)));
    [nia | lia | exact Hf | intros i Hi; simpl; nia | intros i j Hij Hj; simpl; left; nia].
Qed.

(** C15: in a horizontal container whose
    children fit their budget (equal share of the width, full drawable
    height), the rectangles are one per child, in order, inside the
    drawable area, of the child's shape, and pairwise disjoint. *)
Theorem horizontal_coordinates_well_placed a its :
  attrs_ok a -> count its <= 2 ^ 12 -> 0 <= max_drawable_height a ->
  0 <= max_drawable_width a - (count its - 1) * c_gutter_vertical a ->
  Forall (fits (HorizontalLogic.max_width_for_each_item a (count its))
               (HorizontalLogic.max_height_for_each_item a)) its ->
  well_placed a its (HorizontalLogic.layout_coordinates a its).
Proof. apply horizontal_bands_placed. Qed.

Lemma div_mod_facts i cols :
  0 < cols -> 0 <= i -> i = cols * (i / cols) + i mod cols /\ 0 <= i mod cols < cols /\ 0 <= i / cols.
Proof.
  intros Hc Hi. split; [apply Z.div_mod; lia|].
  split; [apply Z.mod_pos_bound; lia | apply Z.div_pos; lia].
Qed.

(** In a grid whose cells were computed
    from its current size, holding at most [rows * columns] children that
    fit a cell, the rectangles are one per child, filled row by row, each
    inside the drawable area with its child's shape, and pairwise disjoint. *)
Lemma grid_cells_placed rows cols a its :
  attrs_ok a -> 0 < rows <= 2 ^ 12 -> 0 < cols <= 2 ^ 12 ->
  0 <= max_drawable_width a - c_gutter_vertical a * (cols - 1) ->
  0 <= max_drawable_height a - c_gutter_horizontal a * (rows - 1) ->
  count its <= rows * cols ->
  Forall (fits (GridLogic.cell_width a cols) (GridLogic.cell_height a rows)) its ->
  well_placed a its
    (GridLogic.layout_coordinates cols (GridLogic.cell_width a cols) (GridLogic.cell_height a rows) a its).
Proof.
  intros Ha Hr Hc HXw HXh Hn Hf.
  unfold attrs_ok, in_range, max_drawable_width, max_drawable_height in *.
  unfold GridLogic.layout_coordinates, GridLogic.cell_width, GridLogic.cell_height in *.
  destruct (share_bounds (c_width a - c_padding_left a - c_padding_right a - c_gutter_vertical a * (cols - 1)) cols
              ltac:(lia) ltac:(nia)) as [Hw Hcw].
  destruct (share_bounds (c_height a - c_padding_top a - c_padding_bottom a - c_gutter_horizontal a * (rows - 1)) rows
              ltac:(lia) ltac:(nia)) as [Hh Hch].
  set (cw := py_div _ cols) in *. set (ch := py_div _ rows) in *.
  replace (c_padding_left a) with (c_padding_left a + 0 * (cw + c_gutter_vertical a)) at 2 by ring.
  replace (c_padding_top a) with (c_padding_top a + 0 * (ch + c_gutter_horizontal a)) at 1 by ring.
  rewrite grid_closed by lia. rewrite Z.mul_0_l, Z.add_0_r.
  pose proof (Z.mul_nonneg_nonneg (c_gutter_vertical a) (cols - 1) ltac:(lia) ltac:(lia)).
  pose proof (Z.mul_nonneg_nonneg (c_gutter_horizontal a) (rows - 1) ltac:(lia) ltac:(lia)).
  assert (cw <= 2 ^ 16) by (pose proof (Z.mul_nonneg_nonneg (cols - 1) cw ltac:(lia) ltac:(lia)); lia).
  assert (ch <= 2 ^ 16) by (pose proof (Z.mul_nonneg_nonneg (rows - 1) ch ltac:(lia) ltac:(lia)); lia).
  apply (cells_well_placed a cw ch (fun i => (c_padding_left a + (i mod cols) * (cw + c_gutter_vertical a),
                                             c_padding_top a + (i / cols) * (ch + c_gutter_horizontal a))));
    [lia | lia | exact Hf | intros i Hi; simpl | intros i j Hij Hj; simpl].
  - destruct (div_mod_facts i cols ltac:(lia) ltac:(lia)) as (E & R & Q).
    set (q := i / cols) in *. set (r := i mod cols) in *.
    assert (q < rows) by (apply (Z.mul_lt_mono_pos_l cols); lia).
    pose proof (Z.mul_nonneg_nonneg (cols - 1 - r) (cw + c_gutter_vertical a) ltac:(lia) ltac:(lia)).
    pose proof (Z.mul_nonneg_nonneg (rows - 1 - q) (ch + c_gutter_horizontal a) ltac:(lia) ltac:(lia)).
    pose proof (Z.mul_nonneg_nonneg r (cw + c_gutter_vertical a) ltac:(lia) ltac:(lia)).
    pose proof (Z.mul_nonneg_nonneg q (ch + c_gutter_horizontal a) ltac:(lia) ltac:(lia)).
    lia.
  - destruct (div_mod_facts i cols ltac:(lia) ltac:(lia)) as (Ei & Ri & Qi).
    destruct (div_mod_facts j cols ltac:(lia) ltac:(lia)) as (Ej & Rj & Qj).
    assert (i / cols <= j / cols) by (apply Z.div_le_mono; lia).
    destruct (Z.eq_dec (i / cols) (j / cols)) as [Eq|Ne]; [left | right].
    + rewrite Eq in Ei. pose proof (Z.mul_nonneg_nonneg (j mod cols - i mod cols - 1)
        (cw + c_gutter_vertical a) ltac:(lia) ltac:(lia)). lia.
    + pose proof (Z.mul_nonneg_nonneg (j / cols - i / cols - 1)
        (ch + c_gutter_horizontal a) ltac:(lia) ltac:(lia)). lia.
Qed.

(** C13: in a grid whose cells were computed
    from its current size, holding at most [rows * columns] children that
    fit a cell, the rectangles are one per child, filled row by row, each
    inside the drawable area with its child's shape, and pairwise disjoint. *)
Theorem grid_coordinates_well_placed rows cols a its :
  attrs_ok a -> 0 < rows <= 2 ^ 12 -> 0 < cols <= 2 ^ 12 ->
  0 <= max_drawable_width a - c_gutter_vertical a * (cols - 1) ->
  0 <= max_drawable_height a - c_gutter_horizontal a * (rows - 1) ->
  count its <= rows * cols ->
  Forall (fits (GridLogic.cell_width a cols) (GridLogic.cell_height a rows)) its ->
  well_placed a its
    (GridLogic.layout_coordinates cols (GridLogic.cell_width a cols) (GridLogic.cell_height a rows) a its).
Proof. apply grid_cells_placed. Qed.

End Strategies.

(** ** The strategies behind one interface *)

(** The numeric room a strategy needs for [n] children: sizes in range,
    the gutters fit, and a grid holds at most [rows * columns] children. *)
Definition room (k : kind) (a : cattrs) (n : Z) : Prop :=
  attrs_ok a /\ 0 <= n <= 2 ^ 12 /\
  match k with
  | Vertical => 0 <= max_drawable_width a /\ 0 <= max_drawable_height a - (n - 1) * c_gutter_horizontal a
  | Horizontal => 0 <= max_drawable_height a /\ 0 <= max_drawable_width a - (n - 1) * c_gutter_vertical a
  | Grid rows cols _ _ =>
      0 < rows <= 2 ^ 12 /\ 0 < cols <= 2 ^ 12 /\
      0 <= max_drawable_width a - c_gutter_vertical a * (cols - 1) /\
      0 <= max_drawable_height a - c_gutter_horizontal a * (rows - 1) /\ n <= rows * cols
  end.

(** A grid's stored cell size is the one its current size gives. *)
Definition cells_current `{PyNum} (k : kind) (a : cattrs) : Prop :=
  match k with
  | Grid rows cols cw ch => cw = GridLogic.cell_width a cols /\ ch = GridLogic.cell_height a rows
  | _ => True
  end.

Section Dispatch.
Context `{N : PyNum} `{NL : !PyNumLaws N}.

Lemma layout_coordinates_well_placed k a its :
  room k a (count its) -> cells_current k a ->
  Forall (fits (fst (budget k a (count its))) (snd (budget k a (count its)))) its ->
  well_placed a its (layout_coordinates k a its).
Proof.
  intros (Ha & Hn & Hk) Hc Hf. destruct k as [| |rows cols cw ch]; simpl in *.
  - apply horizontal_bands_placed; tauto.
  - apply vertical_bands_placed; tauto.
  - destruct Hc as [-> ->]. apply grid_cells_placed; tauto.
Qed.

(** The budget a strategy hands out is in range when it has room. *)
Lemma budget_in_range k a n :
  room k a n -> 0 < n -> cells_current k a ->
  in_range (fst (budget k a n)) /\ in_range (snd (budget k a n)).
Proof.
  intros (Ha & Hn & Hk) Hn0 Hc. unfold attrs_ok, in_range in *.
  destruct k as [| |rows cols cw ch]; simpl in *; unfold max_drawable_width, max_drawable_height in *.
  - unfold HorizontalLogic.max_width_for_each_item, HorizontalLogic.max_height_for_each_item,
      max_drawable_width, max_drawable_height.
    destruct (Z.eqb_spec n 0); [lia|].
    pose proof (Z.mul_nonneg_nonneg (n - 1) (c_gutter_vertical a) ltac:(lia) ltac:(lia)).
    pose proof (share_bounds (c_width a - c_padding_left a - c_padding_right a - (n - 1) * c_gutter_vertical a) n
                  ltac:(lia) ltac:(lia)).
    set (m := py_div _ n) in *.
    pose proof (Z.mul_nonneg_nonneg (n - 1) m ltac:(lia) ltac:(lia)). lia.
  - unfold VerticalLogic.max_width_for_each_item, VerticalLogic.max_height_for_each_item,
      max_drawable_width, max_drawable_height.
    destruct (Z.eqb_spec n 0); [lia|].
    pose proof (Z.mul_nonneg_nonneg (n - 1) (c_gutter_horizontal a) ltac:(lia) ltac:(lia)).
    pose proof (share_bounds (c_height a - c_padding_top a - c_padding_bottom a - (n - 1) * c_gutter_horizontal a) n
                  ltac:(lia) ltac:(lia)).
    set (m := py_div _ n) in *.
    pose proof (Z.mul_nonneg_nonneg (n - 1) m ltac:(lia) ltac:(lia)). lia.
  - destruct Hc as [-> ->]. unfold GridLogic.cell_width, GridLogic.cell_height.
    pose proof (Z.mul_nonneg_nonneg (c_gutter_vertical a) (cols - 1) ltac:(lia) ltac:(lia)).
    pose proof (Z.mul_nonneg_nonneg (c_gutter_horizontal a) (rows - 1) ltac:(lia) ltac:(lia)).
    pose proof (share_bounds (c_width a - c_padding_left a - c_padding_right a - c_gutter_vertical a * (cols - 1))
                  cols ltac:(lia) ltac:(lia)).
    pose proof (share_bounds (c_height a - c_padding_top a - c_padding_bottom a - c_gutter_horizontal a * (rows - 1))
                  rows ltac:(lia) ltac:(lia)).
    set (cw := py_div _ cols) in *. set (ch := py_div _ rows) in *.
    pose proof (Z.mul_nonneg_nonneg (cols - 1) cw ltac:(lia) ltac:(lia)).
    pose proof (Z.mul_nonneg_nonneg (rows - 1) ch ltac:(lia) ltac:(lia)). lia.
Qed.

End Dispatch.

(** ** Witnesses *)

(** Discharges the side conditions of the placement theorems on concrete
    containers: lists of fitting items, ranges, room. *)
Ltac concrete :=
  repeat match goal with
         | |- Forall _ _ => constructor
         | |- _ /\ _ => split
         | |- _ => progress (unfold room, attrs_ok, in_range, fits, count,
                              max_drawable_width, max_drawable_height)
         end; cbn; first [reflexivity | lia].


Module LogicRuns.

Definition white : Z * Z * Z := (255, 255, 255).
Definition two_squares : list item :=
  [IImage (Image.mkImage 1 100 100); IImage (Image.mkImage 2 100 100)].
Definition two_small : list item :=
  [IImage (Image.mkImage 1 60 80); IImage (Image.mkImage 2 90 40)].

Lemma vertical_coordinates_well_placed_witness :
  let a := mkAttrs 100 300 2 0 0 0 0 10 0 white 50 50 in
  well_placed a two_squares (@VerticalLogic.layout_coordinates exact_num a two_squares) /\
  @VerticalLogic.layout_coordinates exact_num a two_squares = [(0, 22, 100, 122); (0, 177, 100, 277)].
Proof.
  intros a. destruct (@vertical_coordinates_well_placed exact_num exact_num_laws a two_squares) as [Hw Hc];
    [concrete..|].
  split; [exact Hw|]. rewrite Hc. vm_compute. reflexivity.
Defined.

Lemma horizontal_coordinates_well_placed_witness :
  well_placed (mkAttrs 300 100 2 0 0 0 0 0 0 white 50 50) two_squares
    (@HorizontalLogic.layout_coordinates exact_num (mkAttrs 300 100 2 0 0 0 0 0 0 white 50 50) two_squares).
Proof.
  apply (@horizontal_coordinates_well_placed exact_num exact_num_laws); concrete.
Defined.

Lemma grid_coordinates_well_placed_witness :
  let a := mkAttrs 300 200 6 0 0 0 0 10 10 white 50 50 in
  well_placed a two_small
    (@GridLogic.layout_coordinates exact_num 3 (@GridLogic.cell_width exact_num a 3)
       (@GridLogic.cell_height exact_num a 2) a two_small).
Proof.
  intros a. apply (@grid_coordinates_well_placed exact_num exact_num_laws); unfold a; concrete.
Defined.

End LogicRuns.
