(* ===== verification/Strategy.v ===== *)
(** The [LayoutLogic] abstract class (layout_container.py 352-402) as an
    interface: a record of the operations a strategy implements (the
    per-item budget, the paint coordinates, the dimension check), the
    numeric room it needs, and the laws every implementation must meet.
    Each container's constructor installs its strategy
    ([self._layout_logic = VerticalLayoutLogic(self)], ...), which is
    [logic_of] on the container's [kind]; the three strategies of
    [Logic] are proved to implement the interface, and the container's
    delegating methods are written against it.

    [resize_items], the fifth abstract method, is the recursive resize of
    [Container], whose theorems use the laws through [budget_in_range]
    and [layout_coordinates_well_placed].

    [Accessors] holds the getters of the containers (layout_container.py
    161-301, grid_container.py 29-33, image_frame_container.py 24-28),
    which read the attributes the other files keep. *)

From Stdlib Require Import ZArith List Lia.
From S2P Require Import Prelude PyNum Image Items Logic.
Import ListNotations.
Open Scope Z_scope.

(** ** The container's getters *)

Module Accessors.
(** [LayoutContainer.get_capacity] (161-162). *)
Definition get_capacity (c : layout) : Z := c_capacity (l_attrs c).

(** [get_items_copy] (223-230): a shallow copy, the same items in a new
    list; items are values here, and the callers only read it. *)
Definition get_items_copy (c : layout) : list item := l_items c.

(** [get_current_num_of_items] (232-237). *)
Definition get_current_num_of_items (c : layout) : Z := count (l_items c).

(** [get_minimum_content_width] / [_height] (239-265). *)
Definition get_minimum_content_width (c : layout) : Z := c_min_content_width (l_attrs c).
Definition get_minimum_content_height (c : layout) : Z := c_min_content_height (l_attrs c).

(** [get_max_drawable_width] / [_height] (284-301): delegated to the
    installed strategy, whose inherited method is the box less the
    padding. *)
Definition get_max_drawable_width (c : layout) : Z := max_drawable_width (l_attrs c).
Definition get_max_drawable_height (c : layout) : Z := max_drawable_height (l_attrs c).

(** [GridContainer.get_num_of_rows] / [get_num_of_columns]
    (grid_container.py 29-33); the other containers have no such
    method. *)
Definition get_num_of_rows (c : layout) : option Z :=
  match l_kind c with Grid rows _ _ _ => Some rows | _ => None end.
Definition get_num_of_columns (c : layout) : option Z :=
  match l_kind c with Grid _ cols _ _ => Some cols | _ => None end.

(** [ImageFrameContainer.get_width] / [get_height]
    (image_frame_container.py 24-28): [int] of the stored int. *)
Definition frame_get_width (fa : cattrs) : Z := c_width fa.
Definition frame_get_height (fa : cattrs) : Z := c_height fa.

End Accessors.

(** ** The strategy interface *)

Module Strategy.

Section Interface.
Context `{N : PyNum}.

(** The abstract methods of [LayoutLogic] (359-402), given the
    container's attributes and children. *)
Record LayoutLogic : Type := {
  get_max_width_for_each_item : cattrs -> Z -> Z;
  get_max_height_for_each_item : cattrs -> Z -> Z;
  get_layout_coordinates : cattrs -> list item -> list rect;
  check_dimensions_when_adding_item : cattrs -> list item -> bool;
  has_room : cattrs -> Z -> Prop
}.

(** What the container relies on: with room for its children, children
    that fit the budget are painted inside the box without overlap, and
    the budget handed to [resize_to_limit] is in range. *)
Record LayoutLogicLaws (L : LayoutLogic) : Prop := {
  coordinates_placed : forall a its,
    has_room L a (count its) ->
    Forall (fits (get_max_width_for_each_item L a (count its)) (get_max_height_for_each_item L a (count its))) its ->
    well_placed a its (get_layout_coordinates L a its);
  budget_bounded : forall a n,
    has_room L a n -> 0 < n ->
    in_range (get_max_width_for_each_item L a n) /\ in_range (get_max_height_for_each_item L a n)
}.

(** [VerticalLayoutLogic] (vertical_container.py 15-17 and its methods). *)
Definition vertical_logic : LayoutLogic := {|
  get_max_width_for_each_item := fun a _ => VerticalLogic.max_width_for_each_item a;
  get_max_height_for_each_item := VerticalLogic.max_height_for_each_item;
  get_layout_coordinates := VerticalLogic.layout_coordinates;
  check_dimensions_when_adding_item := VerticalLogic.check_dimensions_when_adding_item;
  has_room := room Vertical
|}.

(** The horizontal strategy (spec.md 4.2). *)
Definition horizontal_logic : LayoutLogic := {|
  get_max_width_for_each_item := HorizontalLogic.max_width_for_each_item;
  get_max_height_for_each_item := fun a _ => HorizontalLogic.max_height_for_each_item a;
  get_layout_coordinates := HorizontalLogic.layout_coordinates;
  check_dimensions_when_adding_item := HorizontalLogic.check_dimensions_when_adding_item;
  has_room := room Horizontal
|}.

(** [GridLayoutLogic] of a grid with [rows] and [cols] whose last
    [resize_items] stored the cell size [cw x ch]; its room includes that
    the stored cells are those of the current size. *)
Definition grid_logic (rows cols cw ch : Z) : LayoutLogic := {|
  get_max_width_for_each_item := fun _ _ => cw;
  get_max_height_for_each_item := fun _ _ => ch;
  get_layout_coordinates := GridLogic.layout_coordinates cols cw ch;
  check_dimensions_when_adding_item := fun _ its => GridLogic.check_dimensions_when_adding_item cw ch its;
  has_room := fun a n => room (Grid rows cols cw ch) a n /\ cells_current (Grid rows cols cw ch) a
|}.

(** The strategy each constructor installs. *)
Definition logic_of (k : kind) : LayoutLogic :=
  match k with
  | Vertical => vertical_logic
  | Horizontal => horizontal_logic
  | Grid rows cols cw ch => grid_logic rows cols cw ch
  end.

(** The dispatch of [Logic] is the installed strategy's methods. *)
Lemma logic_of_dispatch k a its n :
  budget k a n = (get_max_width_for_each_item (logic_of k) a n, get_max_height_for_each_item (logic_of k) a n) /\
  layout_coordinates k a its = get_layout_coordinates (logic_of k) a its /\
  Logic.check_dimensions_when_adding_item k a its = check_dimensions_when_adding_item (logic_of k) a its.
Proof. destruct k; repeat split. Qed.

Context `{NL : !PyNumLaws N}.

(** Every strategy of the program implements the interface. *)
Theorem logic_of_laws k : LayoutLogicLaws (logic_of k).
Proof.
  split.
  - intros a its Hr Hf. destruct (logic_of_dispatch k a its (count its)) as (Eb & Ec & _).
    rewrite <- Ec. apply layout_coordinates_well_placed.
    + destruct k; [exact Hr | exact Hr | exact (proj1 Hr)].
    + destruct k; [exact I | exact I | exact (proj2 Hr)].
    + rewrite Eb. exact Hf.
  - intros a n Hr Hn. destruct (logic_of_dispatch k a [] n) as (Eb & _).
    pose proof (budget_in_range k a n) as B. rewrite Eb in B. apply B; [| exact Hn |].
    + destruct k; [exact Hr | exact Hr | exact (proj1 Hr)].
    + destruct k; [exact I | exact I | exact (proj2 Hr)].
Qed.

End Interface.

End Strategy.
