(* ===== verification/Frame.v ===== *)
(** [ImageFrameContainer] (layout/image_frame_container.py).

    A frame is a layout container created around one image: its size is the
    image's plus the padding, it overrides [resize_by_width] and
    [resize_by_height] (rescale the frame, then fit the image into the
    padded interior, refusing an empty interior with a bare [Exception]:
    [FrameTooSmall]) and turns [add_item] and [remove_item] into no-ops, so
    its item list is always its one image.  The state is the frame's
    attributes and its image. *)

From Stdlib Require Import ZArith List Lia Bool.
From S2P Require Import Prelude PyNum Image Items Logic.
Import ListNotations.
Open Scope Z_scope.

Import Image (image, mkImage, img_id, img_w, img_h).

Module Frame.
Section Ops.
Context `{N : PyNum}.

(** image_frame_container.py 30-52: the new size is committed before the
    interior is checked. *)
Definition resize_by_width (fa : cattrs) (im : image) (width : Z) : exc (cattrs * image) :=
  if width =? c_width fa then Ok (fa, im)
  else if c_width fa =? 0 then Raise ZeroDivisionError (fa, im)
  else
    let fa' := set_size fa width (py_scale (c_height fa) width (c_width fa)) in
    let child_width := max_drawable_width fa' in
    if child_width <=? 0 then Raise FrameTooSmall (fa', im)
    else exc_map (fun im' => (fa', im'))
           (Image.resize_to_limit im child_width (max_drawable_height fa')).

(** image_frame_container.py 54-74 *)
Definition resize_by_height (fa : cattrs) (im : image) (height : Z) : exc (cattrs * image) :=
  if height =? c_height fa then Ok (fa, im)
  else if c_height fa =? 0 then Raise ZeroDivisionError (fa, im)
  else
    let fa' := set_size fa (py_scale (c_width fa) height (c_height fa)) height in
    let child_height := max_drawable_height fa' in
    if child_height <=? 0 then Raise FrameTooSmall (fa', im)
    else exc_map (fun im' => (fa', im'))
           (Image.resize_to_limit im (max_drawable_width fa') child_height).

(** [ImageFrameContainer.resize_to_limit], inherited from [ContainerItem]. *)
Definition resize_to_limit (fa : cattrs) (im : image) (wl hl : Z) : exc (cattrs * image) :=
  ContainerItem.resize_to_limit (c_width fa) (c_height fa)
    (resize_by_width fa im) (resize_by_height fa im) (fa, im) wl hl.

End Ops.

(** [add_item] and [remove_item] of a frame: [pass]
    (image_frame_container.py 76-83). *)
Definition add_item (fa : cattrs) (im : image) (x : item) : cattrs * image := (fa, im).
Definition remove_item (fa : cattrs) (im : image) (x : item) : cattrs * image := (fa, im).

(** [ImageFrameLayoutLogic.check_dimensions_when_adding_item]
    (image_frame_container.py 147-152): the minimum layout sizes of the
    base class over the frame's items, and a bare [Exception]
    ([FrameTooSmall]) when the frame is smaller. *)
Definition check_dimensions_when_adding_item (fa : cattrs) (its : list item) : bool :=
  negb ((c_width fa <? LayoutLogic.base_min_layout_width fa its) ||
        (c_height fa <? LayoutLogic.base_min_layout_height fa its)).

(** [can_next_item_fit] inherited from [LayoutContainer]
    (layout_container.py 87-114) on a frame, whose items are its image:
    the check's bare [Exception] is not the [LayoutException] the
    [except] clause catches, so it escapes (after the [finally] has
    removed the probed item again). *)
Definition can_next_item_fit (fa : cattrs) (im : image) (x : item) : exc bool :=
  if c_capacity fa <=? count [IImage im] then Ok false
  else if check_dimensions_when_adding_item fa [IImage im; x] then Ok true
  else Raise FrameTooSmall false.

Section Props.
Context `{N : PyNum} `{NL : !PyNumLaws N}.

Lemma frame_resize_by_width_spec fa im :
  ContainerItem.by_width_spec (fun p => c_width (fst p)) (fun p => c_height (fst p))
    (resize_by_width fa im) (fa, im).
Proof.
  intros W [fa' im'] E. unfold resize_by_width in E. simpl.
  destruct (Z.eqb_spec W (c_width fa)) as [->|]; [inversion E; auto|].
  destruct (c_width fa =? 0); [discriminate|].
  destruct (_ <=? 0); [discriminate|].
  apply exc_map_Ok in E as (? & _ & E). inversion E; subst. simpl. auto.
Qed.

Lemma frame_resize_by_height_spec fa im :
  ContainerItem.by_height_spec (fun p => c_width (fst p)) (fun p => c_height (fst p))
    (resize_by_height fa im) (fa, im).
Proof.
  intros H [fa' im'] E. unfold resize_by_height in E. simpl.
  destruct (Z.eqb_spec H (c_height fa)) as [->|]; [inversion E; auto|].
  destruct (c_height fa =? 0); [discriminate|].
  destruct (_ <=? 0); [discriminate|].
  apply exc_map_Ok in E as (? & _ & E). inversion E; subst. simpl. auto.
Qed.

End Props.
Section Errors.
Context `{N : PyNum}.

(** C31: a width resize that leaves no
    interior raises [Exception], but only after the frame's new width and
    rescaled height have been stored: the caller sees a half-updated
    frame whose image was not resized. *)
Theorem frame_resize_commits_before_check fa im W :
  W <> c_width fa -> c_width fa <> 0 ->
  W - c_padding_left fa - c_padding_right fa <= 0 ->
  resize_by_width fa im W =
  Raise FrameTooSmall (set_size fa W (py_scale (c_height fa) W (c_width fa)), im).
Proof.
  intros Hne Hnz Hin. unfold resize_by_width, max_drawable_width. simpl.
  destruct (Z.eqb_spec W (c_width fa)); [contradiction|].
  destruct (Z.eqb_spec (c_width fa) 0); [contradiction|].
  destruct (Z.leb_spec (W - c_padding_left fa - c_padding_right fa) 0); [reflexivity | lia].
Qed.

(** A frame holds its image at capacity 1, so
    [can_next_item_fit] on it answers [False] at the capacity test and its
    own dimension check, with its bare [Exception], is never reached. *)
Theorem frame_can_next_item_fit_full fa im x :
  c_capacity fa = 1 -> can_next_item_fit fa im x = Ok false.
Proof. intros H. unfold can_next_item_fit. rewrite H. reflexivity. Qed.

End Errors.

End Frame.

(** ** Witnesses *)

Module FrameRuns.

(** A 50-wide frame with 30 pixels of padding left and right. *)
Definition narrow : cattrs := mkAttrs 50 100 1 0 30 0 30 0 0 (255, 255, 255) 50 50.

Lemma frame_resize_commits_before_check_witness :
  @Frame.resize_by_width exact_num narrow (mkImage 1 40 40) 40 =
  Raise FrameTooSmall (set_size narrow 40 80, mkImage 1 40 40).
Proof.
  exact (@Frame.frame_resize_commits_before_check exact_num narrow (mkImage 1 40 40) 40
           ltac:(cbn; lia) ltac:(cbn; lia) ltac:(cbn; lia)).
Defined.

(** The frame the populator makes around a 300 x 200 image. *)
Lemma frame_can_next_item_fit_full_witness :
  Frame.can_next_item_fit (mkAttrs 300 200 1 0 0 0 0 0 0 (235, 235, 235) 50 50) (mkImage 1 300 200)
    (IImage (mkImage 2 10 10)) = Ok false.
Proof. apply Frame.frame_can_next_item_fit_full. reflexivity. Defined.

End FrameRuns.
