(* ===== verification/Container.v ===== *)
(** [LayoutContainer] (layout/layout_container.py) with its strategies.

    Resizing is recursive: a container's [resize_by_width] rescales its box
    and calls its strategy's [resize_items], which asks every child to
    [resize_to_limit] its budget; a child that is itself a container does
    the same with its own children.  [resize_to_limit] below is that
    recursion over the item tree, structural in the tree; it dispatches to
    [Image.resize_to_limit], [Frame.resize_to_limit] and, for a layout
    container, to [ContainerItem.resize_to_limit] over the container's own
    resize methods.  The methods of a layout container are then functions
    of its record [layout]: [resize_items], [resize_by_width],
    [resize_by_height], [can_next_item_fit], [add_item] and [remove_item].
    Every method returns the state reached, also when it raises. *)

From Stdlib Require Import ZArith List Lia.
From S2P Require Import Prelude PyNum Image Items Logic Frame.
Import ListNotations.
Open Scope Z_scope.
Open Scope bool_scope.

Import Image (image, mkImage, img_id, img_w, img_h).

Module Layout.
Section Ops.
Context `{N : PyNum}.

(** [resize_items] of the container's strategy, given [rl mw mh], the loop
    that resizes every child to the budget [mw] x [mh]
    (vertical_container.py 19-21, grid_container.py 42-60 and the
    horizontal strategy of spec.md 4.2).  The grid first recomputes and
    stores its cell size: [int(... / num_of_cols)] raises on zero columns
    before anything is stored, [... / num_of_rows] on zero rows after the
    cell width is. *)
Definition resize_items_with (rl : Z -> Z -> exc (list item)) (k : kind) (a : cattrs)
    (its : list item) : exc (kind * list item) :=
  match k with
  | Vertical | Horizontal =>
      let '(mw, mh) := budget k a (count its) in
      exc_map (fun l => (k, l)) (rl mw mh)
  | Grid rows cols cw ch =>
      if cols =? 0 then Raise ZeroDivisionError (k, its)
      else
        let cw' := GridLogic.cell_width a cols in
        if rows =? 0 then Raise ZeroDivisionError (Grid rows cols cw' ch, its)
        else
          let ch' := GridLogic.cell_height a rows in
          exc_map (fun l => (Grid rows cols cw' ch', l)) (rl cw' ch')
  end.

(** layout_container.py 122-132: height rescaled, then width, then the
    children re-fitted. *)
Definition resize_by_width_with (rl : Z -> Z -> exc (list item)) (k : kind) (a : cattrs)
    (its : list item) (width : Z) : exc (kind * cattrs * list item) :=
  if width =? c_width a then Ok (k, a, its)
  else if c_width a =? 0 then Raise ZeroDivisionError (k, a, its)
  else
    let a' := set_size a width (py_scale (c_height a) width (c_width a)) in
    exc_map (fun p => (fst p, a', snd p)) (resize_items_with rl k a' its).

(** layout_container.py 134-144 *)
Definition resize_by_height_with (rl : Z -> Z -> exc (list item)) (k : kind) (a : cattrs)
    (its : list item) (height : Z) : exc (kind * cattrs * list item) :=
  if height =? c_height a then Ok (k, a, its)
  else if c_height a =? 0 then Raise ZeroDivisionError (k, a, its)
  else
    let a' := set_size a (py_scale (c_width a) height (c_height a)) height in
    exc_map (fun p => (fst p, a', snd p)) (resize_items_with rl k a' its).

(** [item.resize_to_limit(width_limit, height_limit)] for every kind of
    item. *)
Fixpoint resize_to_limit (x : item) (wl hl : Z) {struct x} : exc item :=
  match x with
  | IImage im => exc_map IImage (Image.resize_to_limit im wl hl)
  | IFrame fid fa im =>
      exc_map (fun p => IFrame fid (fst p) (snd p)) (Frame.resize_to_limit fa im wl hl)
  | ILayout lid k a its =>
      let rl mw mh := map_exc (fun y => resize_to_limit y mw mh) its in
      exc_map (fun t => ILayout lid (fst (fst t)) (snd (fst t)) (snd t))
        (ContainerItem.resize_to_limit (c_width a) (c_height a)
           (resize_by_width_with rl k a its) (resize_by_height_with rl k a its)
           (k, a, its) wl hl)
  end.

(** The loop [for item in self._con.get_items_copy(): item.resize_to_limit(mw, mh)]. *)
Definition resize_children (its : list item) (mw mh : Z) : exc (list item) :=
  map_exc (fun y => resize_to_limit y mw mh) its.

Definition of_triple (c : layout) (t : kind * cattrs * list item) : layout :=
  mkLayout (l_id c) (fst (fst t)) (snd (fst t)) (snd t).

(** [self._layout_logic.resize_items()] *)
Definition resize_items (c : layout) : exc layout :=
  exc_map (fun p => mkLayout (l_id c) (fst p) (l_attrs c) (snd p))
    (resize_items_with (resize_children (l_items c)) (l_kind c) (l_attrs c) (l_items c)).

Definition resize_by_width (c : layout) (width : Z) : exc layout :=
  exc_map (of_triple c)
    (resize_by_width_with (resize_children (l_items c)) (l_kind c) (l_attrs c) (l_items c) width).

Definition resize_by_height (c : layout) (height : Z) : exc layout :=
  exc_map (of_triple c)
    (resize_by_height_with (resize_children (l_items c)) (l_kind c) (l_attrs c) (l_items c) height).

(** layout_container.py 87-114: refuse at capacity; otherwise append the
    item, run the strategy's check (a [LayoutException] there is the
    answer [False]) and, in the [finally], remove the first element that
    is the item. *)
Definition can_next_item_fit (c : layout) (x : item) : bool * layout :=
  if c_capacity (l_attrs c) <=? count (l_items c) then (false, c)
  else
    let its' := l_items c ++ [x] in
    let fits := check_dimensions_when_adding_item (l_kind c) (l_attrs c) its' in
    match remove_first (same_object x) its' with
    | Some its'' => (fits, with_items c its'')
    | None => (fits, with_items c its')
    end.

(** layout_container.py 63-74 *)
Definition add_item (c : layout) (x : item) : exc layout :=
  let '(fits, c1) := can_next_item_fit c x in
  if fits then resize_items (with_items c1 (l_items c1 ++ [x]))
  else Raise LayoutException c1.

(** layout_container.py 76-85 *)
Definition remove_item (c : layout) (x : item) : exc layout :=
  match remove_first (same_object x) (l_items c) with
  | None => Raise ValueError c
  | Some its => resize_items (with_items c its)
  end.

End Ops.

(** ** Resizing: every item lands inside its budget *)

(** A child with a nonempty shape in the range of the laws. *)
Definition item_shape_ok (x : item) : Prop :=
  0 < item_width x /\ 0 < item_height x /\ in_range (item_width x) /\ in_range (item_height x).

Section ResizeProps.
Context `{N : PyNum} `{NL : !PyNumLaws N}.

Definition t_width (t : kind * cattrs * list item) : Z := c_width (snd (fst t)).
Definition t_height (t : kind * cattrs * list item) : Z := c_height (snd (fst t)).

Lemma resize_by_width_with_spec rl k a its :
  ContainerItem.by_width_spec t_width t_height (resize_by_width_with rl k a its) (k, a, its).
Proof.
  intros W t E. unfold resize_by_width_with, t_width, t_height in *. simpl.
  destruct (Z.eqb_spec W (c_width a)) as [->|]; [inversion E; subst; simpl; auto|].
  destruct (c_width a =? 0); [discriminate|].
  apply exc_map_Ok in E as (p & _ & ->). simpl. auto.
Qed.

Lemma resize_by_height_with_spec rl k a its :
  ContainerItem.by_height_spec t_width t_height (resize_by_height_with rl k a its) (k, a, its).
Proof.
  intros H t E. unfold resize_by_height_with, t_width, t_height in *. simpl.
  destruct (Z.eqb_spec H (c_height a)) as [->|]; [inversion E; subst; simpl; auto|].
  destruct (c_height a =? 0); [discriminate|].
  apply exc_map_Ok in E as (p & _ & ->). simpl. auto.
Qed.

(** Asking any item (image, frame or
    nested container) with a nonempty shape to [resize_to_limit] a box
    either raises or leaves the same object inside the box, touching it
    on one axis. *)
Lemma item_resize_fits_box x wl hl x' :
  item_shape_ok x -> in_range wl -> in_range hl -> resize_to_limit x wl hl = Ok x' ->
  item_id x' = item_id x /\ fits wl hl x' /\ (item_width x' = wl \/ item_height x' = hl).
Proof.
  intros (Hw & Hh & Rw & Rh) Rwl Rhl E. unfold fits.
  destruct x as [im|fid fa im|lid k a its]; simpl in *;
    apply exc_map_Ok in E as (p & E & ->); simpl.
  - pose proof (Image.image_resize_fits_box im wl hl) as F. rewrite E in F.
    destruct F as (F1 & F2 & F3 & F4); [unfold Image.shape_ok; auto | auto | auto |].
    repeat split; auto; lia.
  - destruct (ContainerItem.resize_to_limit_within (fun p => c_width (fst p)) (fun p => c_height (fst p))
                (Frame.resize_by_width fa im) (Frame.resize_by_height fa im) (fa, im) p wl hl)
      as (F1 & F2 & F3 & _);
      simpl; auto using Frame.frame_resize_by_width_spec, Frame.frame_resize_by_height_spec; try range.
  - destruct (ContainerItem.resize_to_limit_within t_width t_height
                (resize_by_width_with (fun mw mh => map_exc (fun y => resize_to_limit y mw mh) its) k a its)
                (resize_by_height_with (fun mw mh => map_exc (fun y => resize_to_limit y mw mh) its) k a its)
                (k, a, its) p wl hl) as (F1 & F2 & F3 & _);
      unfold t_width, t_height in *; simpl in *;
      auto using resize_by_width_with_spec, resize_by_height_with_spec; try range.
Qed.

(** C11: asking any item (image, frame or
    nested container) with a nonempty shape to [resize_to_limit] a box
    either raises or leaves the same object inside the box, touching it
    on one axis. *)
Theorem resize_to_limit_item_fits x wl hl x' :
  item_shape_ok x -> in_range wl -> in_range hl -> resize_to_limit x wl hl = Ok x' ->
  item_id x' = item_id x /\ fits wl hl x' /\ (item_width x' = wl \/ item_height x' = hl).
Proof. apply item_resize_fits_box. Qed.

(** The loop over the children keeps them in order and, when it ends
    normally, leaves every child inside the budget. *)
Lemma resize_children_fit its mw mh its' :
  Forall item_shape_ok its -> in_range mw -> in_range mh -> resize_children its mw mh = Ok its' ->
  Forall (fits mw mh) its' /\ map item_id its' = map item_id its.
Proof.
  intros Hs Rw Rh E. apply map_exc_Ok in E.
  induction E as [|x x' xs xs' Ex _ IH]; simpl; [split; auto|].
  inversion Hs; subst.
  destruct (item_resize_fits_box x mw mh x' ltac:(assumption) Rw Rh Ex) as (Id & F & _).
  destruct (IH ltac:(assumption)) as [IH1 IH2]. split; [constructor; auto|]. now rewrite Id, IH2.
Qed.


(** A strategy's [resize_items] that ends normally has re-fitted the
    children to the budget of its (new) state, which for a grid means
    cells computed from the current size. *)
Lemma resize_items_with_Ok rl k a its k' its' :
  resize_items_with rl k a its = Ok (k', its') ->
  rl (fst (budget k' a (count its))) (snd (budget k' a (count its))) = Ok its' /\
  cells_current k' a /\
  match k, k' with
  | Grid r c _ _, Grid r' c' _ _ => r' = r /\ c' = c
  | _, _ => k' = k
  end.
Proof.
  unfold resize_items_with. destruct k as [| |rows cols cw ch]; intros E.
  - apply exc_map_Ok in E as (l & E & F). inversion F; subst. simpl. auto.
  - apply exc_map_Ok in E as (l & E & F). inversion F; subst. simpl. auto.
  - destruct (cols =? 0); [discriminate|]. destruct (rows =? 0); [discriminate|].
    apply exc_map_Ok in E as (l & E & F). inversion F; subst. simpl. auto.
Qed.

Lemma room_same_shape k k' a n :
  match k, k' with
  | Grid r c _ _, Grid r' c' _ _ => r' = r /\ c' = c
  | _, _ => k' = k
  end -> room k a n -> room k' a n.
Proof.
  destruct k as [| |r c cw ch], k' as [| |r' c' cw' ch']; intros E; try discriminate;
    try (subst; tauto). destruct E as [-> ->]. unfold room. tauto.
Qed.

(** After [resize_items] ends normally on a container with room for its
    children, the strategy's paint rectangles are one per child, inside
    the drawable area, of the child's shape and pairwise disjoint. *)
Lemma resize_items_placed c c' :
  room (l_kind c) (l_attrs c) (count (l_items c)) -> Forall item_shape_ok (l_items c) ->
  resize_items c = Ok c' ->
  well_placed (l_attrs c') (l_items c') (layout_coordinates (l_kind c') (l_attrs c') (l_items c')).
Proof.
  intros Hr Hs E. unfold resize_items in E. apply exc_map_Ok in E as ([k' its'] & E & ->). simpl.
  destruct (resize_items_with_Ok _ _ _ _ _ _ E) as (Ec & Hc & Hk).
  pose proof (room_same_shape _ _ _ _ Hk Hr) as Hr'.
  destruct (l_items c) as [|x0 xs] eqn:Hits.
  - unfold resize_children in Ec. simpl in Ec. inversion Ec; subst. destruct k'; exact (well_placed_nil _).
  - assert (Hn : 0 < count (x0 :: xs)) by (unfold count; simpl; lia).
    destruct (budget_in_range k' (l_attrs c) _ Hr' Hn Hc) as [B1 B2].
    destruct (resize_children_fit _ _ _ _ Hs B1 B2 Ec) as [F Ids].
    assert (Hlen : count its' = count (x0 :: xs)).
    { unfold count. f_equal. rewrite <- (length_map item_id its'), Ids, length_map. reflexivity. }
    rewrite <- Hlen in *. apply layout_coordinates_well_placed; auto.
Qed.

End ResizeProps.

(** ** Adding, removing and probing *)

Ltac destr_budget :=
  match goal with |- context [budget ?k ?a ?n] => destruct (budget k a n) end.

Section ContainerProps.
Context `{N : PyNum}.

Lemma frame_resize_to_limit_state fa im wl hl :
  Image.img_id (snd (exc_state (Frame.resize_to_limit fa im wl hl))) = Image.img_id im.
Proof.
  unfold Frame.resize_to_limit, ContainerItem.resize_to_limit, Frame.resize_by_width,
    Frame.resize_by_height.
  repeat (simpl; match goal with |- context [if ?b then _ else _] => destruct b end);
    rewrite ?exc_state_map; simpl; auto using Image.resize_to_limit_id.
Qed.

(** Resizing never changes which object an item is. *)
Lemma item_resize_to_limit_id x wl hl x' : resize_to_limit x wl hl = Ok x' -> item_id x' = item_id x.
Proof.
  intros E. destruct x as [im|fid fa im|lid k a its]; simpl in E;
    apply exc_map_Ok in E as (p & E & ->); simpl; auto.
  pose proof (Image.resize_to_limit_id im wl hl) as I. rewrite E in I. exact I.
Qed.

Lemma resize_children_ids its mw mh its' :
  resize_children its mw mh = Ok its' -> map item_id its' = map item_id its.
Proof.
  intros E. apply map_exc_Ok in E. induction E; simpl; auto.
  f_equal; auto. eapply item_resize_to_limit_id; eauto.
Qed.

(** Whatever its outcome, [resize_items] keeps the attributes and the
    number of children. *)
Lemma resize_items_state c :
  l_attrs (exc_state (resize_items c)) = l_attrs c /\
  length (l_items (exc_state (resize_items c))) = length (l_items c).
Proof.
  unfold resize_items, resize_items_with. rewrite exc_state_map. simpl.
  destruct (l_kind c) as [| |rows cols cw ch]; simpl.
  - try destr_budget. rewrite ?exc_state_map. simpl. split; auto. apply map_exc_length.
  - try destr_budget. rewrite ?exc_state_map. simpl. split; auto. apply map_exc_length.
  - destruct (cols =? 0), (rows =? 0); simpl; rewrite ?exc_state_map; simpl; split; auto;
      apply map_exc_length.
Qed.

Lemma resize_items_attrs c : l_attrs (exc_state (resize_items c)) = l_attrs c.
Proof. apply resize_items_state. Qed.

Lemma resize_items_length c : length (l_items (exc_state (resize_items c))) = length (l_items c).
Proof. apply resize_items_state. Qed.

(** Whatever budget a strategy chose, the children it returns are those of
    one run of the loop. *)
Lemma resize_items_with_children rl k a its k' its' :
  resize_items_with rl k a its = Ok (k', its') -> exists mw mh, rl mw mh = Ok its'.
Proof.
  unfold resize_items_with. destruct k as [| |rows cols cw ch]; intros E.
  1-2: apply exc_map_Ok in E as (l & E & F); inversion F; subst; eauto.
  destruct (cols =? 0); [discriminate|]. destruct (rows =? 0); [discriminate|].
  apply exc_map_Ok in E as (l & E & F). inversion F; subst. eauto.
Qed.

Lemma resize_items_ids c c' :
  resize_items c = Ok c' -> l_attrs c' = l_attrs c /\ map item_id (l_items c') = map item_id (l_items c).
Proof.
  intros E. unfold resize_items in E. apply exc_map_Ok in E as ([k' its'] & E & ->). simpl.
  split; auto. destruct (resize_items_with_children _ _ _ _ _ _ E) as (mw & mh & Ec).
  eapply resize_children_ids; eauto.
Qed.

Lemma resize_by_width_state c w :
  c_capacity (l_attrs (exc_state (resize_by_width c w))) = c_capacity (l_attrs c) /\
  length (l_items (exc_state (resize_by_width c w))) = length (l_items c).
Proof.
  unfold resize_by_width, resize_by_width_with. rewrite exc_state_map.
  destruct (w =? c_width _); [simpl; auto|]. destruct (c_width _ =? 0); [simpl; auto|].
  rewrite exc_state_map. unfold resize_items_with.
  destruct (l_kind c) as [| |rows cols cw ch]; simpl;
    [try destr_budget | try destr_budget | destruct (cols =? 0), (rows =? 0)];
    simpl; rewrite ?exc_state_map; simpl; split; auto; apply map_exc_length.
Qed.

Lemma resize_by_height_state c h :
  c_capacity (l_attrs (exc_state (resize_by_height c h))) = c_capacity (l_attrs c) /\
  length (l_items (exc_state (resize_by_height c h))) = length (l_items c).
Proof.
  unfold resize_by_height, resize_by_height_with. rewrite exc_state_map.
  destruct (h =? c_height _); [simpl; auto|]. destruct (c_height _ =? 0); [simpl; auto|].
  rewrite exc_state_map. unfold resize_items_with.
  destruct (l_kind c) as [| |rows cols cw ch]; simpl;
    [try destr_budget | try destr_budget | destruct (cols =? 0), (rows =? 0)];
    simpl; rewrite ?exc_state_map; simpl; split; auto; apply map_exc_length.
Qed.

(** The state the probe leaves: the same container, with as many
    children as before, drawn from the old ones and the probed item. *)
Lemma probe_state c x :
  let c1 := snd (can_next_item_fit c x) in
  l_id c1 = l_id c /\ l_kind c1 = l_kind c /\ l_attrs c1 = l_attrs c /\
  length (l_items c1) = length (l_items c) /\ incl (l_items c1) (l_items c ++ [x]).
Proof.
  unfold can_next_item_fit. try (destruct (_ <=? _); [simpl; repeat split; auto using incl_appl, incl_refl|]).
  destruct (remove_first (same_object x) (l_items c ++ [x])) as [l'|] eqn:E; simpl.
  - pose proof (remove_first_length _ _ _ E). rewrite length_app in H. simpl in H.
    repeat split; [lia | eapply remove_first_incl; eauto].
  - apply remove_first_None, Forall_app in E as [_ E]. inversion E. rewrite same_object_refl in *.
    discriminate.
Qed.

Lemma probe_true_not_full c x :
  fst (can_next_item_fit c x) = true -> count (l_items c) < c_capacity (l_attrs c).
Proof.
  unfold can_next_item_fit. destruct (Z.leb_spec (c_capacity (l_attrs c)) (count (l_items c)));
    [discriminate | auto].
Qed.

End ContainerProps.

(** ** The capacity invariant over every sequence of operations *)

(** The operations a client can call on a container: [add_item],
    [remove_item], [can_next_item_fit], [resize_by_width],
    [resize_by_height]; [run_op] gives the state each leaves, whether it
    returns or raises (a caller that catches the exception keeps using the
    container). *)
Inductive op : Type :=
| OpAdd (x : item)
| OpRemove (x : item)
| OpProbe (x : item)
| OpResizeWidth (w : Z)
| OpResizeHeight (h : Z).

Definition run_op `{PyNum} (c : layout) (o : op) : layout :=
  match o with
  | OpAdd x => exc_state (add_item c x)
  | OpRemove x => exc_state (remove_item c x)
  | OpProbe x => snd (can_next_item_fit c x)
  | OpResizeWidth w => exc_state (resize_by_width c w)
  | OpResizeHeight h => exc_state (resize_by_height c h)
  end.

Inductive reachable `{PyNum} (c0 : layout) : layout -> Prop :=
| reach_init : reachable c0 c0
| reach_step c o : reachable c0 c -> reachable c0 (run_op c o).

Definition cap_ok (c : layout) : Prop := count (l_items c) <= c_capacity (l_attrs c).

Section Capacity.
Context `{N : PyNum}.

Lemma run_op_cap_ok c o : cap_ok c -> cap_ok (run_op c o).
Proof.
  unfold cap_ok, count. intros Hc. destruct o as [x|x|x|w|h]; simpl.
  - unfold add_item. pose proof (probe_state c x) as (_ & _ & Ha & Hl & _).
    pose proof (probe_true_not_full c x) as Hnf.
    destruct (can_next_item_fit c x) as [[|] c1]; simpl in *.
    + repeat progress (rewrite ?exc_state_map, ?resize_items_attrs, ?resize_items_length,
                          ?length_app; simpl).
      rewrite ?Ha. unfold count in Hnf. simpl. lia.
    + now rewrite Ha, Hl.
  - unfold remove_item. destruct (remove_first (same_object x) (l_items c)) as [l'|] eqn:E; simpl; auto.
    rewrite ?resize_items_attrs, ?resize_items_length. simpl.
    apply remove_first_length in E. lia.
  - pose proof (probe_state c x) as (_ & _ & Ha & Hl & _). now rewrite Ha, Hl.
  - destruct (resize_by_width_state c w) as [Ea El]. now rewrite Ea, El.
  - destruct (resize_by_height_state c h) as [Ea El]. now rewrite Ea, El.
Qed.

(** C12: from a container within its capacity, every
    sequence of [add_item], [remove_item], [can_next_item_fit] and resize
    calls, each of which may raise, leaves a container within its
    capacity. *)
Theorem capacity_invariant c0 c : cap_ok c0 -> reachable c0 c -> cap_ok c.
Proof. intros H0 R. induction R; auto using run_op_cap_ok. Qed.

End Capacity.

(** ** Probing and adding *)

Section Probe.
Context `{N : PyNum}.

Lemma with_items_same c : with_items c (l_items c) = c.
Proof. now destruct c. Qed.

(** C25: at capacity, the probe answers [False] without
    touching the container and [add_item] raises [LayoutException] with
    the container unchanged. *)
Theorem add_item_full c x :
  c_capacity (l_attrs c) <= count (l_items c) ->
  can_next_item_fit c x = (false, c) /\ add_item c x = Raise LayoutException c.
Proof.
  intros Hf. unfold add_item, can_next_item_fit.
  destruct (Z.leb_spec (c_capacity (l_attrs c)) (count (l_items c))); [auto | lia].
Qed.

(** Probing an item that is not yet in the
    container leaves the container exactly as it was, whatever the answer. *)
Lemma probe_fresh_pure c x :
  Forall (fun y => same_object x y = false) (l_items c) -> snd (can_next_item_fit c x) = c.
Proof.
  intros Hf. unfold can_next_item_fit. try (destruct (_ <=? _); [reflexivity|]).
  rewrite (remove_first_app_fresh _ _ _ Hf (same_object_refl x)). apply with_items_same.
Qed.

(** C24: probing an item that is not yet in the
    container leaves the container exactly as it was, whatever the answer. *)
Theorem can_next_item_fit_pure c x :
  Forall (fun y => same_object x y = false) (l_items c) -> snd (can_next_item_fit c x) = c.
Proof. apply probe_fresh_pure. Qed.

(** C30: probing an object that is
    already a child removes, in the [finally], its first occurrence rather
    than the appended one: below capacity, the child moves to the end of
    the list, which changes the paint order. *)
Theorem can_next_item_fit_moves_present c x l' :
  count (l_items c) < c_capacity (l_attrs c) ->
  remove_first (same_object x) (l_items c) = Some l' ->
  snd (can_next_item_fit c x) = with_items c (l' ++ [x]).
Proof.
  intros Hn E. unfold can_next_item_fit.
  try (destruct (Z.leb_spec (c_capacity (l_attrs c)) (count (l_items c))); [lia|]).
  now rewrite (remove_first_app_hit _ _ _ x E).
Qed.

(** C26: adding an object not yet in the container,
    when it succeeds, appends it after the existing children (insertion
    order is paint order) and keeps the attributes. *)
Theorem add_item_appends c x c' :
  Forall (fun y => same_object x y = false) (l_items c) -> add_item c x = Ok c' ->
  l_attrs c' = l_attrs c /\ map item_id (l_items c') = map item_id (l_items c) ++ [item_id x].
Proof.
  intros Hf E. unfold add_item in E. rewrite (surjective_pairing (can_next_item_fit c x)) in E.
  rewrite (probe_fresh_pure c x Hf) in E.
  destruct (fst (can_next_item_fit c x)); [|discriminate].
  apply resize_items_ids in E as [-> ->]. simpl. now rewrite map_app.
Qed.

(** Removing an object that is not a child raises
    [ValueError] and leaves the container unchanged. *)
Theorem remove_item_absent c x :
  Forall (fun y => same_object x y = false) (l_items c) -> remove_item c x = Raise ValueError c.
Proof.
  intros Hf. unfold remove_item. apply remove_first_None in Hf. now rewrite Hf.
Qed.

End Probe.

Section AddPlaced.
Context `{N : PyNum} `{NL : !PyNumLaws N}.

(** C9: after [resize_items] ends normally on a
    container with room for its children, the children are the same
    objects in the same order and the strategy's paint rectangles are one
    per child, inside the drawable area, of the child's shape and pairwise
    disjoint. *)
Theorem resize_items_well_placed c c' :
  room (l_kind c) (l_attrs c) (count (l_items c)) -> Forall item_shape_ok (l_items c) ->
  resize_items c = Ok c' ->
  map item_id (l_items c') = map item_id (l_items c) /\
  well_placed (l_attrs c') (l_items c') (layout_coordinates (l_kind c') (l_attrs c') (l_items c')).
Proof.
  intros Hr Hs E. split; [apply (proj2 (resize_items_ids c c' E)) | exact (resize_items_placed c c' Hr Hs E)].
Qed.

(** C10: when [add_item] succeeds on a container with
    room for one more child, all children having a nonempty shape, every
    child is then painted inside the drawable area, with its shape, and no
    two children overlap: a structural change never leaves a stale or
    out-of-bounds child. *)
Theorem add_item_well_placed c x c' :
  room (l_kind c) (l_attrs c) (count (l_items c) + 1) ->
  Forall item_shape_ok (l_items c) -> item_shape_ok x -> add_item c x = Ok c' ->
  well_placed (l_attrs c') (l_items c') (layout_coordinates (l_kind c') (l_attrs c') (l_items c')).
Proof.
  intros Hr Hs Hx E. unfold add_item in E.
  pose proof (probe_state c x) as (_ & Hk & Ha & Hl & Hi).
  destruct (can_next_item_fit c x) as [[|] c1]; [|discriminate]. simpl in *.
  apply resize_items_placed in E; auto.
  - simpl. unfold count in *. rewrite length_app, Hk, Ha, Hl. simpl.
    replace (Z.of_nat (length (l_items c) + 1)) with (Z.of_nat (length (l_items c)) + 1) by lia.
    exact Hr.
  - simpl. apply Forall_app. split; [|auto].
    apply Forall_forall. intros y Hy. apply Hi in Hy. apply in_app_or in Hy as [Hy|[<-|[]]]; auto.
    rewrite Forall_forall in Hs. auto.
Qed.

End AddPlaced.

End Layout.

(** ** Witnesses *)

Module LayoutRuns.
Import Layout.

Definition white : Z * Z * Z := (255, 255, 255).
Definition sq (i : nat) (w h : Z) : item := IImage (mkImage i w h).

(** A 100x300 vertical container with room for three items, holding a
    200x200 image that does not fit yet and a 100x50 one. *)
Definition col : layout :=
  mkLayout 10 Vertical (mkAttrs 100 300 3 0 0 0 0 0 0 white 50 50) [sq 1 200 200; sq 2 100 50].
(** A 200x400 vertical container holding one 200x400 image. *)
Definition tower : item :=
  ILayout 5 Vertical (mkAttrs 200 400 1 0 0 0 0 0 0 white 50 50) [sq 1 200 400].
(** A horizontal container at its capacity of one. *)
Definition full_row : layout :=
  mkLayout 11 Horizontal (mkAttrs 300 100 1 0 0 0 0 0 0 white 50 50) [sq 1 50 50].

Ltac concrete_items :=
  repeat match goal with
         | |- Forall _ _ => constructor
         | |- item_shape_ok _ => unfold item_shape_ok
         end; concrete.

Definition tower_shrunk : item := exc_state (@resize_to_limit exact_num tower 100 100).

Lemma resize_to_limit_item_fits_witness :
  item_id tower_shrunk = item_id tower /\ fits 100 100 tower_shrunk /\
  (item_width tower_shrunk = 100 \/ item_height tower_shrunk = 100).
Proof.
  exact (@resize_to_limit_item_fits exact_num exact_num_laws tower 100 100 tower_shrunk
           ltac:(concrete_items) ltac:(concrete) ltac:(concrete) ltac:(vm_compute; reflexivity)).
Defined.

Definition col_resized : layout := exc_state (@resize_items exact_num col).

Lemma resize_items_well_placed_witness :
  map item_id (l_items col_resized) = map item_id (l_items col) /\
  well_placed (l_attrs col_resized) (l_items col_resized)
    (@layout_coordinates exact_num (l_kind col_resized) (l_attrs col_resized) (l_items col_resized)).
Proof.
  exact (@resize_items_well_placed exact_num exact_num_laws col col_resized
           ltac:(concrete) ltac:(concrete_items) ltac:(vm_compute; reflexivity)).
Defined.

Lemma capacity_invariant_witness :
  cap_ok (@run_op exact_num (@run_op exact_num col (OpAdd (sq 3 50 50))) (OpProbe (sq 4 60 60))).
Proof.
  apply (@capacity_invariant exact_num col).
  - unfold cap_ok. concrete.
  - apply reach_step, reach_step, reach_init.
Defined.

Lemma add_item_full_witness :
  can_next_item_fit full_row (sq 2 50 50) = (false, full_row) /\
  @add_item exact_num full_row (sq 2 50 50) = Raise LayoutException full_row.
Proof.
  exact (@add_item_full exact_num full_row (sq 2 50 50) ltac:(concrete)).
Defined.

Lemma can_next_item_fit_pure_witness :
  snd (can_next_item_fit col (sq 3 50 50)) = col.
Proof.
  exact (can_next_item_fit_pure col (sq 3 50 50) ltac:(concrete)).
Defined.

Lemma can_next_item_fit_moves_present_witness :
  snd (can_next_item_fit col (sq 1 200 200)) = with_items col ([sq 2 100 50] ++ [sq 1 200 200]).
Proof.
  exact (can_next_item_fit_moves_present col (sq 1 200 200) [sq 2 100 50]
           ltac:(concrete) ltac:(reflexivity)).
Defined.

Definition col_added : layout := exc_state (@add_item exact_num col (sq 3 50 50)).

Lemma add_item_appends_witness :
  l_attrs col_added = l_attrs col /\
  map item_id (l_items col_added) = map item_id (l_items col) ++ [item_id (sq 3 50 50)].
Proof.
  exact (@add_item_appends exact_num col (sq 3 50 50) col_added
           ltac:(concrete) ltac:(vm_compute; reflexivity)).
Defined.

Lemma remove_item_absent_witness :
  @remove_item exact_num col (sq 3 50 50) = Raise ValueError col.
Proof.
  exact (@remove_item_absent exact_num col (sq 3 50 50) ltac:(concrete)).
Defined.

Lemma add_item_well_placed_witness :
  well_placed (l_attrs col_added) (l_items col_added)
    (@layout_coordinates exact_num (l_kind col_added) (l_attrs col_added) (l_items col_added)).
Proof.
  exact (@add_item_well_placed exact_num exact_num_laws col (sq 3 50 50) col_added
           ltac:(concrete) ltac:(concrete_items) ltac:(concrete_items) ltac:(vm_compute; reflexivity)).
Defined.

End LayoutRuns.
