(* ===== verification/Render.v ===== *)
(** Rendering: [get_drawable_image] of the three kinds of item
    (image.py 49-54, image_frame_container.py 88-108,
    layout_container.py 146-156) on a model of the numpy arrays it
    builds.

    A numpy array of shape [(h, w, 3)] is a [buffer]: its shape and the
    pixel at each index ([b_px y x], three channels).  Two buffers of the
    same shape that agree at every index in range are the same array;
    [buf_eq] is that equivalence, with its [Equivalence] instance and the
    [Proper] instances of the operations, so that rewriting works up to
    it.  The numpy operations the code uses are modelled with numpy's own
    rules ([Numpy]): [ns.ones(shape) * colour] refuses a negative
    dimension, a slice bound is normalised as [PySlice_AdjustIndices] does
    (negative bounds count from the end, bounds are clamped to the axis),
    and the slice assignment [dst[y0:y1, x0:x1] = src] broadcasts [src]
    to the slice's shape or raises [ValueError].

    The values of an image's own array (what [cv2.imread] decoded and
    [cv2.resize] resampled) are not modelled: they are the section
    variable [raster], and the shape of the array is the image's shape,
    which is what [Image.get_width] and [get_height] read.

    Theorems: every rendered buffer has the shape [height x width] of its
    item; a [drawable] tree (sizes in range, every container's children
    placed by its strategy, every frame's image inside its interior)
    renders, and its buffer is the abstract picture [pixel_spec] in which
    each pixel shows the child whose paint rectangle holds it, and the
    background elsewhere: the sequential paint loop refines the
    declarative composition. *)

From Stdlib Require Import ZArith List Lia Bool Morphisms RelationClasses Setoid.
From S2P Require Import Prelude PyNum Image Items Logic.
Import ListNotations.
Open Scope Z_scope.
Open Scope bool_scope.

Import Image (image, mkImage, img_id, img_w, img_h).

(** ** Arrays *)

(** A pixel, channels in the array's order (blue, green, red for cv2). *)
Definition pixel : Type := (Z * Z * Z)%type.

(** A numpy array of shape [(b_h, b_w, 3)]: the pixel at row [y] and
    column [x] is [b_px y x]. *)
Record buffer : Type := mkBuf {
  b_h : Z;
  b_w : Z;
  b_px : Z -> Z -> pixel
}.

(** Same shape, same pixels at every index in range. *)
Definition buf_eq (b1 b2 : buffer) : Prop :=
  b_h b1 = b_h b2 /\ b_w b1 = b_w b2 /\
  forall y x, 0 <= y < b_h b1 -> 0 <= x < b_w b1 -> b_px b1 y x = b_px b2 y x.

(** The outcome of a read-only computation that may raise. *)
Inductive result (A : Type) : Type :=
| Success (a : A)
| Failure (e : exn).
Arguments Success {A} a.
Arguments Failure {A} e.

Definition rbind {A B} (m : result A) (k : A -> result B) : result B :=
  match m with
  | Success a => k a
  | Failure e => Failure e
  end.

Declare Scope render_scope.
Delimit Scope render_scope with render.
Notation "'let?' x ':=' m 'in' k" := (rbind m (fun x => k))
  (at level 10, x name, m at level 100, k at level 200) : render_scope.
Open Scope render_scope.

(** Two outcomes related by [R]: both succeed with related values, or
    both raise the same exception. *)
Definition result_rel {A} (R : A -> A -> Prop) (r1 r2 : result A) : Prop :=
  match r1, r2 with
  | Success a1, Success a2 => R a1 a2
  | Failure e1, Failure e2 => e1 = e2
  | _, _ => False
  end.

(** [self._background_color[::-1]]: the RGB tuple in the array's BGR
    order. *)
Definition bgr (c : Z * Z * Z) : pixel :=
  let '(r, g, b) := c in (b, g, r).

Module Numpy.

(** [ns.ones((h, w, 3)) * p]. *)
Definition full (h w : Z) (p : pixel) : result buffer :=
  if (h <? 0) || (w <? 0) then Failure ValueError
  else Success (mkBuf h w (fun _ _ => p)).

(** A bound of a slice with step 1 on an axis of length [n]. *)
Definition clamp_index (n i : Z) : Z :=
  if i <? 0 then Z.max (i + n) 0 else Z.min i n.

(** An axis of length [src] broadcasts to one of length [dst]. *)
Definition broadcastable (src dst : Z) : bool := (src =? dst) || (src =? 1).

(** The index into a broadcast axis of length [src]. *)
Definition bcast (src i : Z) : Z := if src =? 1 then 0 else i.

(** [dst[y0:y1, x0:x1] = src]. *)
Definition assign_slice (dst : buffer) (y0 y1 x0 x1 : Z) (src : buffer) : result buffer :=
  let ys := clamp_index (b_h dst) y0 in
  let ye := clamp_index (b_h dst) y1 in
  let xs := clamp_index (b_w dst) x0 in
  let xe := clamp_index (b_w dst) x1 in
  if broadcastable (b_h src) (Z.max 0 (ye - ys)) && broadcastable (b_w src) (Z.max 0 (xe - xs))
  then Success (mkBuf (b_h dst) (b_w dst) (fun y x =>
         if (ys <=? y) && (y <? ye) && (xs <=? x) && (x <? xe)
         then b_px src (bcast (b_h src) (y - ys)) (bcast (b_w src) (x - xs))
         else b_px dst y x))
  else Failure ValueError.

(** An integer index [i] into an axis of length [n]: negative indices
    count from the end; out of range is [IndexError] ([None]). *)
Definition np_index (n i : Z) : option Z :=
  let j := if i <? 0 then i + n else i in
  if (0 <=? j) && (j <? n) then Some j else None.

End Numpy.

(** ** [get_drawable_image] *)

(** A paint rectangle holds the pixel at row [y], column [x]. *)
Definition in_rect (r : rect) (y x : Z) : bool :=
  let '(x0, y0, x1, y1) := r in (x0 <=? x) && (x <? x1) && (y0 <=? y) && (y <? y1).

Section Render.
Context `{N : PyNum}.

(** The values of each image's array. *)
Variable raster : image -> Z -> Z -> pixel.

(** [Image.get_drawable_image] (image.py 53-54): the image's own array. *)
Definition image_drawable_image (im : image) : buffer := mkBuf (img_h im) (img_w im) (raster im).

(** [Image.get_pixel_color] (image.py 49-50): [self._image[y][x]]. *)
Definition get_pixel_color (im : image) (x_coordinate y_coordinate : Z) : result pixel :=
  match Numpy.np_index (img_h im) y_coordinate with
  | None => Failure IndexError
  | Some j =>
      match Numpy.np_index (img_w im) x_coordinate with
      | None => Failure IndexError
      | Some i => Success (raster im j i)
      end
  end.

(** [ImageFrameContainer.get_drawable_image] (image_frame_container.py
    88-108): the background, and the image at the top-left corner its
    layout logic computes. *)
Definition frame_drawable_image (fa : cattrs) (im : image) : result buffer :=
  let? img := Numpy.full (c_height fa) (c_width fa) (bgr (c_background_color fa)) in
  match FrameLogic.layout_coordinates fa im with
  | [] => Failure IndexError
  | (x0, y0) :: _ =>
      let image_to_draw := image_drawable_image im in
      Numpy.assign_slice img y0 (y0 + b_h image_to_draw) x0 (x0 + b_w image_to_draw) image_to_draw
  end.

(** The loop of [LayoutContainer.get_drawable_image] (153-155): for each
    child, pop the next rectangle ([IndexError] when none is left),
    render the child, assign it to the rectangle. *)
Fixpoint paint (draw : item -> result buffer) (img : buffer) (coordinates : list rect)
    (its : list item) {struct its} : result buffer :=
  match its with
  | [] => Success img
  | it :: rest =>
      match coordinates with
      | [] => Failure IndexError
      | (x_origin, y_origin, x_end, y_end) :: cs =>
          let? src := draw it in
          let? img' := Numpy.assign_slice img y_origin y_end x_origin x_end src in
          paint draw img' cs rest
      end
  end.

(** [get_drawable_image] of every item, containers rendering their
    children first (layout_container.py 146-156). *)
Fixpoint get_drawable_image (x : item) : result buffer :=
  match x with
  | IImage im => Success (image_drawable_image im)
  | IFrame _ fa im => frame_drawable_image fa im
  | ILayout _ k a its =>
      let? img := Numpy.full (c_height a) (c_width a) (bgr (c_background_color a)) in
      paint get_drawable_image img (layout_coordinates k a its) its
  end.

(** ** The picture a tree stands for *)

(** The pixel at [(y, x)] of a composition: that of the first child whose
    rectangle holds it, read at the offset into the rectangle, or the
    default. *)
Fixpoint hit (f : item -> Z -> Z -> pixel) (dflt : Z -> Z -> pixel) (cs : list rect)
    (its : list item) (y x : Z) {struct its} : pixel :=
  match its, cs with
  | it :: rest, r :: cs' =>
      if in_rect r y x then let '(x0, y0, _, _) := r in f it (y - y0) (x - x0)
      else hit f dflt cs' rest y x
  | _, _ => dflt y x
  end.

(** The rectangle of a frame's image. *)
Definition frame_rects (fa : cattrs) (im : image) : list rect :=
  match FrameLogic.layout_coordinates fa im with
  | [] => []
  | (x0, y0) :: _ => [(x0, y0, x0 + img_w im, y0 + img_h im)]
  end.

Fixpoint pixel_spec (x : item) : Z -> Z -> pixel :=
  match x with
  | IImage im => raster im
  | IFrame _ fa im => hit (fun _ => raster im) (fun _ _ => bgr (c_background_color fa)) (frame_rects fa im) [IImage im]
  | ILayout _ k a its => hit pixel_spec (fun _ _ => bgr (c_background_color a)) (layout_coordinates k a its) its
  end.

Definition spec_buffer (x : item) : buffer := mkBuf (item_height x) (item_width x) (pixel_spec x).

(** A tree the renderer can draw: sizes in range; a frame's image inside
    its padded interior; every container's children placed by its
    strategy, and drawable in turn. *)
Fixpoint drawable (x : item) : Prop :=
  match x with
  | IImage im => 0 <= img_w im /\ 0 <= img_h im
  | IFrame _ fa im => attrs_ok fa /\ fits (max_drawable_width fa) (max_drawable_height fa) (IImage im)
  | ILayout _ k a its =>
      attrs_ok a /\ well_placed a its (layout_coordinates k a its) /\
      (fix all (l : list item) : Prop :=
         match l with [] => True | y :: ys => drawable y /\ all ys end) its
  end.

End Render.

(** ** Buffers up to [buf_eq] *)

#[export] Instance buf_eq_Equivalence : Equivalence buf_eq.
Proof.
  split.
  - intros b. repeat split; auto.
  - intros b1 b2 (Hh & Hw & Hp). repeat split; auto. intros y x Hy Hx. symmetry. apply Hp; lia.
  - intros b1 b2 b3 (H1 & W1 & P1) (H2 & W2 & P2). repeat split; try congruence.
    intros y x Hy Hx. rewrite P1 by lia. apply P2; lia.
Qed.

#[export] Instance result_rel_Equivalence {A} (R : A -> A -> Prop) `{!Equivalence R} :
  Equivalence (result_rel R).
Proof.
  split.
  - intros [a|e]; simpl; reflexivity.
  - intros [a1|e1] [a2|e2]; simpl; intros; try contradiction; symmetry; auto.
  - intros [a1|e1] [a2|e2] [a3|e3]; simpl; intros; try contradiction; etransitivity; eauto.
Qed.

(** A broadcast index into the source stays inside it. *)
Lemma bcast_range s b e i :
  Numpy.broadcastable s (Z.max 0 (e - b)) = true -> b <= i < e -> 0 <= Numpy.bcast s (i - b) < s.
Proof.
  unfold Numpy.broadcastable, Numpy.bcast. rewrite orb_true_iff, !Z.eqb_eq. intros Hs Hi. zcmp; lia.
Qed.

(** The slice assignment reads the source and the destination only in
    range, so equivalent arrays give equivalent results. *)
#[export] Instance assign_slice_Proper :
  Proper (buf_eq ==> eq ==> eq ==> eq ==> eq ==> buf_eq ==> result_rel buf_eq) Numpy.assign_slice.
Proof.
  intros d1 d2 (Hh & Hw & Hp) y0 ? <- y1 ? <- x0 ? <- x1 ? <- s1 s2 (Sh & Sw & Sp).
  unfold Numpy.assign_slice. rewrite <- Hh, <- Hw, <- Sh, <- Sw.
  destruct (Numpy.broadcastable (b_h s1) _) eqn:Bh; [|reflexivity].
  destruct (Numpy.broadcastable (b_w s1) _) eqn:Bw; [|reflexivity].
  simpl. repeat split; auto. intros y x Hy Hx. cbn [b_px b_h b_w] in *.
  destruct (Z.leb_spec (Numpy.clamp_index (b_h d1) y0) y), (Z.ltb_spec y (Numpy.clamp_index (b_h d1) y1)),
    (Z.leb_spec (Numpy.clamp_index (b_w d1) x0) x), (Z.ltb_spec x (Numpy.clamp_index (b_w d1) x1));
    simpl; try (apply Hp; lia).
  apply Sp; eapply bcast_range; eauto.
Qed.

Lemma clamp_index_id n i : 0 <= i <= n -> Numpy.clamp_index n i = i.
Proof. intros H. unfold Numpy.clamp_index. zcmp; lia. Qed.

Lemma full_Success h w p b : Numpy.full h w p = Success b -> b = mkBuf h w (fun _ _ => p).
Proof. unfold Numpy.full. destruct (_ || _); intros H; inversion H; reflexivity. Qed.

Lemma full_nonneg h w p : 0 <= h -> 0 <= w -> Numpy.full h w p = Success (mkBuf h w (fun _ _ => p)).
Proof. intros. unfold Numpy.full. zcmp; [lia..|reflexivity]. Qed.

Lemma assign_slice_shape dst y0 y1 x0 x1 src b :
  Numpy.assign_slice dst y0 y1 x0 x1 src = Success b -> b_h b = b_h dst /\ b_w b = b_w dst.
Proof. unfold Numpy.assign_slice. destruct (_ && _); intros H; inversion H; auto. Qed.

(** A source placed wholly inside the destination is copied into its
    rectangle, unbroadcast. *)
Lemma assign_slice_exact dst src y0 x0 :
  0 <= y0 -> 0 <= x0 -> 0 <= b_h src -> 0 <= b_w src ->
  y0 + b_h src <= b_h dst -> x0 + b_w src <= b_w dst ->
  exists b, Numpy.assign_slice dst y0 (y0 + b_h src) x0 (x0 + b_w src) src = Success b /\
    buf_eq b (mkBuf (b_h dst) (b_w dst) (fun y x =>
      if in_rect (x0, y0, x0 + b_w src, y0 + b_h src) y x then b_px src (y - y0) (x - x0)
      else b_px dst y x)).
Proof.
  intros. unfold Numpy.assign_slice. rewrite !clamp_index_id by lia.
  replace (Z.max 0 (y0 + b_h src - y0)) with (b_h src) by lia.
  replace (Z.max 0 (x0 + b_w src - x0)) with (b_w src) by lia.
  unfold Numpy.broadcastable. rewrite !Z.eqb_refl. simpl.
  eexists; split; [reflexivity|]. repeat split; simpl; auto. intros y x Hy Hx. cbn [b_px b_h b_w] in *.
  unfold in_rect, Numpy.bcast.
  destruct (Z.leb_spec y0 y), (Z.ltb_spec y (y0 + b_h src)), (Z.leb_spec x0 x), (Z.ltb_spec x (x0 + b_w src));
    simpl; auto.
  destruct (Z.eqb_spec (b_h src) 1), (Z.eqb_spec (b_w src) 1); f_equal; lia.
Qed.

(** ** Painting *)

Lemma paint_shape draw img cs its b :
  paint draw img cs its = Success b -> b_h b = b_h img /\ b_w b = b_w img.
Proof.
  revert img cs. induction its as [|it rest IH]; intros img cs H; simpl in H; [inversion H; auto|].
  destruct cs as [|[[[x0 y0] x1] y1] cs]; [discriminate|].
  destruct (draw it) as [src|]; simpl in H; [|discriminate].
  match type of H with context [Numpy.assign_slice ?d ?a ?b ?c ?e src] =>
    destruct (Numpy.assign_slice d a b c e src) as [img'|] eqn:A end; simpl in H; [|discriminate].
  apply assign_slice_shape in A. apply IH in H. lia.
Qed.

(** The loop depends on the canvas only up to [buf_eq]. *)
#[export] Instance paint_Proper draw : Proper (buf_eq ==> eq ==> eq ==> result_rel buf_eq) (paint draw).
Proof.
  intros i1 i2 Hi cs ? <- its ? <-. revert i1 i2 Hi cs.
  induction its as [|it rest IH]; intros i1 i2 Hi [|[[[x0 y0] x1] y1] cs]; simpl; auto.
  destruct (draw it) as [src|e]; simpl; [|reflexivity].
  match goal with |- context [Numpy.assign_slice i1 ?a ?b ?c ?d src] =>
    pose proof (assign_slice_Proper i1 i2 Hi a a eq_refl b b eq_refl c c eq_refl d d eq_refl
                  src src (reflexivity src)) as HA end.
  destruct (Numpy.assign_slice i1 _ _ _ _ src), (Numpy.assign_slice i2 _ _ _ _ src);
    simpl in HA; try contradiction; simpl; auto.
Qed.

(** ** The composition read pixel by pixel *)

Lemma disjoint_in_rect r1 r2 y x : disjoint r1 r2 -> in_rect r1 y x = true -> in_rect r2 y x = false.
Proof.
  destruct r1 as [[[a0 b0] a1] b1], r2 as [[[c0 d0] c1] d1]; simpl. intros Hd.
  zcmp; first [reflexivity | lia].
Qed.

Lemma hit_outside f d cs its y x :
  Forall (fun r => in_rect r y x = false) cs -> hit f d cs its y x = d y x.
Proof.
  revert cs. induction its as [|it rest IH]; intros [|r cs] H; simpl; auto.
  inversion H; subst. rewrite H2. apply IH; assumption.
Qed.

Lemma hit_default_ext f d1 d2 cs its y x :
  d1 y x = d2 y x -> hit f d1 cs its y x = hit f d2 cs its y x.
Proof.
  revert cs. induction its as [|it rest IH]; intros [|r cs] H; simpl; auto.
  destruct (in_rect r y x); auto.
Qed.

(** Reading [well_placed] one child at a time. *)
Lemma well_placed_cons a it its r cs :
  well_placed a (it :: its) (r :: cs) -> placed a it r /\ Forall (disjoint r) cs /\ well_placed a its cs.
Proof.
  intros (Hl & Hp & Hd). simpl in Hl. split; [apply (Hp 0%nat); reflexivity|]. split.
  - apply Forall_forall. intros r' Hr'. apply In_nth_error in Hr' as [k Hk].
    apply (Hd 0%nat (S k)); simpl; auto; lia.
  - split; [lia|split].
    + intros k it' r' H1 H2. apply (Hp (S k)); assumption.
    + intros k1 k2 r1 r2 Hlt H1 H2. apply (Hd (S k1) (S k2)); simpl; auto; lia.
Qed.

Lemma drawable_layout_iff `{N : PyNum} lid k a its :
  drawable (ILayout lid k a its) <-> attrs_ok a /\ well_placed a its (layout_coordinates k a its) /\ Forall drawable its.
Proof.
  cbn [drawable]. split; intros [Ha [Hw Hall]]; refine (conj Ha (conj Hw _)); clear Ha Hw.
  - induction its as [|it rest IH]; constructor; [apply Hall | apply IH, Hall].
  - induction Hall; simpl; auto.
Qed.

Lemma drawable_nonneg `{N : PyNum} x : drawable x -> 0 <= item_width x /\ 0 <= item_height x.
Proof.
  destruct x as [im|fid fa im|lid k a its]; simpl; unfold attrs_ok, in_range; tauto.
Qed.

(** The loop paints each child's picture into its rectangle over the
    canvas. *)
Lemma paint_spec draw f a img cs its :
  attrs_ok a -> b_h img = c_height a -> b_w img = c_width a -> well_placed a its cs ->
  Forall (fun it => 0 <= item_width it /\ 0 <= item_height it /\
            exists b, draw it = Success b /\ buf_eq b (mkBuf (item_height it) (item_width it) (f it))) its ->
  exists b, paint draw img cs its = Success b /\
            buf_eq b (mkBuf (c_height a) (c_width a) (hit f (b_px img) cs its)).
Proof.
  revert img cs. induction its as [|it rest IH]; intros img cs Ha Hh Hw Hwp Hd.
  - exists img. split; [reflexivity|]. destruct img; simpl in *; subst. reflexivity.
  - destruct cs as [|r cs]; [destruct Hwp as [Hl _]; discriminate|].
    apply well_placed_cons in Hwp as (Hp & Hdis & Hwp).
    inversion Hd as [|? ? (Wn & Hn & src & Hsrc & Sh & Sw & Sp) Hd']; subst; simpl in Sh, Sw.
    destruct r as [[[x0 y0] x1] y1]. destruct Hp as ((Il & Ir & It & Ib) & Ew & Eh).
    unfold attrs_ok, in_range in Ha.
    assert (x1 = x0 + b_w src) as -> by lia. assert (y1 = y0 + b_h src) as -> by lia.
    destruct (assign_slice_exact img src y0 x0) as (img' & Ha' & Heq'); try lia.
    cbn [paint]. rewrite Hsrc. cbn [rbind]. rewrite Ha'. cbn [rbind].
    set (X := mkBuf _ _ _) in Heq'.
    destruct (IH X cs) as (b & Hb & Hbeq); auto.
    pose proof (paint_Proper draw img' X Heq' cs cs eq_refl rest rest eq_refl) as HP.
    rewrite Hb in HP. destruct (paint draw img' cs rest) as [b'|]; simpl in HP; [|contradiction].
    exists b'. split; [reflexivity|]. rewrite HP, Hbeq.
    repeat split; auto. intros y x Hy Hx. cbn [b_px b_h b_w] in *. unfold X. cbn [b_px hit].
    destruct (in_rect (x0, y0, x0 + b_w src, y0 + b_h src) y x) eqn:Hin.
    + rewrite hit_outside.
      * rewrite Hin. unfold in_rect in Hin. rewrite !andb_true_iff, !Z.leb_le, !Z.ltb_lt in Hin.
        apply Sp; lia.
      * eapply Forall_impl; [|exact Hdis]. intros r' Hr'. eapply disjoint_in_rect; eauto.
    + apply hit_default_ext. rewrite Hin. reflexivity.
Qed.

Section Refinement.
Context `{N : PyNum} `{NL : !PyNumLaws N}.
Variable raster : image -> Z -> Z -> pixel.

(** A frame whose image lies in its padded interior draws the image
    centred on the background. *)
Lemma frame_refines fid fa im :
  attrs_ok fa -> fits (max_drawable_width fa) (max_drawable_height fa) (IImage im) ->
  exists b, frame_drawable_image raster fa im = Success b /\ buf_eq b (spec_buffer raster (IFrame fid fa im)).
Proof.
  intros Ha [Fw Fh]. simpl in Fw, Fh. unfold attrs_ok, in_range, max_drawable_width, max_drawable_height in *.
  unfold frame_drawable_image, spec_buffer. rewrite full_nonneg by lia. simpl.
  unfold frame_rects, FrameLogic.layout_coordinates, max_drawable_width, max_drawable_height.
  set (gx := py_div (c_width fa - c_padding_left fa - c_padding_right fa - img_w im) 2).
  set (gy := py_div (c_height fa - c_padding_top fa - c_padding_bottom fa - img_h im) 2).
  pose proof (half_gap (c_width fa - c_padding_left fa - c_padding_right fa - img_w im) ltac:(lia)).
  pose proof (half_gap (c_height fa - c_padding_top fa - c_padding_bottom fa - img_h im) ltac:(lia)).
  fold gx gy in H, H0.
  destruct (assign_slice_exact (mkBuf (c_height fa) (c_width fa) (fun _ _ => bgr (c_background_color fa)))
              (image_drawable_image raster im) (c_padding_top fa + gy) (c_padding_left fa + gx))
    as (b & Hb & Heq); simpl; try lia.
  exists b. split; [exact Hb|]. rewrite Heq. reflexivity.
Qed.

(** C6: The paint loop refines the picture: a drawable tree renders, and
    its buffer is, up to [buf_eq], the abstract picture in which every
    pixel shows the child whose paint rectangle holds it and the
    background elsewhere. *)
Theorem get_drawable_image_refines x :
  drawable x -> exists b, get_drawable_image raster x = Success b /\ buf_eq b (spec_buffer raster x).
Proof.
  induction x as [im|fid fa im|lid k a its IH] using item_ind'.
  - intros _. exists (image_drawable_image raster im). split; reflexivity.
  - intros [Ha Hf]. apply frame_refines; assumption.
  - intros Hd. apply drawable_layout_iff in Hd as (Ha & Hwp & Hall).
    pose proof Ha as Ha'. unfold attrs_ok, in_range in Ha'.
    simpl. rewrite full_nonneg by lia. simpl.
    destruct (paint_spec (get_drawable_image raster) (pixel_spec raster) a
                (mkBuf (c_height a) (c_width a) (fun _ _ => bgr (c_background_color a)))
                (layout_coordinates k a its) its Ha eq_refl eq_refl Hwp) as (b & Hb & Heq).
    + rewrite Forall_forall in *. intros it Hit.
      destruct (drawable_nonneg it (Hall it Hit)). split; [|split]; [assumption | assumption | apply IH; auto].
    + exists b. split; [exact Hb | exact Heq].
Qed.

(** Every array the renderer returns has the item's shape. *)
Lemma drawable_image_shape x b :
  get_drawable_image raster x = Success b -> b_h b = item_height x /\ b_w b = item_width x.
Proof.
  destruct x as [im|fid fa im|lid k a its]; simpl.
  - intros H. inversion H. auto.
  - unfold frame_drawable_image. destruct (Numpy.full _ _ _) eqn:F; simpl; [|intros H; discriminate H].
    apply full_Success in F. subst. intros H. apply assign_slice_shape in H. exact H.
  - destruct (Numpy.full _ _ _) eqn:F; simpl; [|intros H; discriminate H].
    apply full_Success in F. subst. intros H. apply paint_shape in H. exact H.
Qed.

(** C7: Render size invariant: whatever succeeds has the item's shape,
    [height x width]. *)
Theorem get_drawable_image_shape x b :
  get_drawable_image raster x = Success b -> b_h b = item_height x /\ b_w b = item_width x.
Proof. apply drawable_image_shape. Qed.

End Refinement.

(** ** Concrete renders *)

Module RenderRuns.

(** An image's pixel at [(y, x)] records the image and the position. *)
Definition raster0 : image -> Z -> Z -> pixel := fun im y x => (Z.of_nat (img_id im), y, x).

(** A 100 x 200 column with padding 10 and gutter 10 holding a 60 x 60
    frame (padding 5 around a 50 x 50 image) and an 80 x 60 image. *)
Definition frame1 : item := IFrame 2 (mkAttrs 60 60 1 5 5 5 5 0 0 (235, 235, 235) 50 50) (mkImage 3 50 50).
Definition col1 : item :=
  ILayout 1 Vertical (mkAttrs 100 200 2 10 10 10 10 10 0 (255, 255, 255) 50 50)
    [frame1; IImage (mkImage 4 80 60)].

Lemma col1_drawable : @drawable exact_num col1.
Proof.
  apply drawable_layout_iff. split; [|split].
  - concrete.
  - apply (@layout_coordinates_well_placed exact_num exact_num_laws); concrete.
  - repeat constructor; concrete.
Qed.

Lemma get_drawable_image_refines_witness :
  exists b, @get_drawable_image exact_num raster0 col1 = Success b /\ buf_eq b (@spec_buffer exact_num raster0 col1).
Proof. exact (@get_drawable_image_refines exact_num exact_num_laws raster0 col1 col1_drawable). Defined.

Lemma get_drawable_image_shape_witness :
  match @get_drawable_image exact_num raster0 col1 with
  | Success b => b_h b = 200 /\ b_w b = 100
  | Failure _ => False
  end.
Proof.
  destruct (@get_drawable_image exact_num raster0 col1) as [b|e] eqn:E.
  - exact (@get_drawable_image_shape exact_num raster0 col1 b E).
  - vm_compute in E. discriminate E.
Defined.

End RenderRuns.
