(* ===== verification/ItemApi.v ===== *)
(** The [ContainerItem] abstract class (layout/container_item.py 18-76)
    as an interface: the record of the methods every placeable item
    implements ([get_drawable_image], [get_width], [get_height],
    [resize_by_width], [resize_by_height]) and its template method
    [resize_to_limit], written once against the record as the class
    writes it once against [self].

    [item_api] implements the record for the item tree, each kind of item
    with its own methods ([Image], [Frame], [Container.Layout],
    [Render]).  The recursive [Layout.resize_to_limit] that [Container]
    uses is proved to be the template method applied through this
    interface: every kind of item inherits [resize_to_limit] from
    [ContainerItem] and overrides only the two resize methods. *)

From Stdlib Require Import ZArith List.
From S2P Require Import Prelude PyNum Image Items Logic Frame Container Render.
Import ListNotations.
Open Scope Z_scope.

Import Image (image, img_w, img_h).

Module ContainerItemApi.

(** The abstract methods of [ContainerItem] (28-50). *)
Record ContainerItem (T : Type) : Type := {
  get_drawable_image : T -> result buffer;
  get_width : T -> Z;
  get_height : T -> Z;
  resize_by_width : T -> Z -> exc T;
  resize_by_height : T -> Z -> exc T
}.

Arguments get_drawable_image {T}.
Arguments get_width {T}.
Arguments get_height {T}.
Arguments resize_by_width {T}.
Arguments resize_by_height {T}.

Section Api.
Context `{N : PyNum}.
Variable raster : image -> Z -> Z -> pixel.

(** [ContainerItem.resize_to_limit] (52-76) against the interface. *)
Definition resize_to_limit {T} (ci : ContainerItem T) (x : T) (width_limit height_limit : Z) : exc T :=
  ContainerItem.resize_to_limit (get_width ci x) (get_height ci x)
    (resize_by_width ci x) (resize_by_height ci x) x width_limit height_limit.

(** [item.resize_by_width(width)] for every kind of item: [Image]'s
    (image.py 20-33), [ImageFrameContainer]'s (image_frame_container.py
    30-52) and [LayoutContainer]'s (layout_container.py 122-132). *)
Definition item_resize_by_width (x : item) (width : Z) : exc item :=
  match x with
  | IImage im => exc_map IImage (Image.resize_by_width im width)
  | IFrame fid fa im => exc_map (fun p => IFrame fid (fst p) (snd p)) (Frame.resize_by_width fa im width)
  | ILayout lid k a its => exc_map to_item (Layout.resize_by_width (mkLayout lid k a its) width)
  end.

(** [item.resize_by_height(height)], likewise. *)
Definition item_resize_by_height (x : item) (height : Z) : exc item :=
  match x with
  | IImage im => exc_map IImage (Image.resize_by_height im height)
  | IFrame fid fa im => exc_map (fun p => IFrame fid (fst p) (snd p)) (Frame.resize_by_height fa im height)
  | ILayout lid k a its => exc_map to_item (Layout.resize_by_height (mkLayout lid k a its) height)
  end.

(** The item tree as a [ContainerItem]. *)
Definition item_api : ContainerItem item := {|
  get_drawable_image := Render.get_drawable_image raster;
  get_width := item_width;
  get_height := item_height;
  resize_by_width := item_resize_by_width;
  resize_by_height := item_resize_by_height
|}.

End Api.

(** The template method commutes with relabelling its result. *)
Lemma resize_to_limit_map `{PyNum} {S T} (f : S -> T) w h (A B : Z -> exc S) s wl hl :
  exc_map f (ContainerItem.resize_to_limit w h A B s wl hl) =
  ContainerItem.resize_to_limit w h (fun v => exc_map f (A v)) (fun v => exc_map f (B v)) (f s) wl hl.
Proof.
  unfold ContainerItem.resize_to_limit.
  destruct (h =? 0); [reflexivity|]. destruct (w =? 0); [reflexivity|].
  destruct (py_ratio_gt _ _ _ _); reflexivity.
Qed.

Lemma exc_map_compose {S T U} (f : S -> T) (g : T -> U) r : exc_map g (exc_map f r) = exc_map (fun x => g (f x)) r.
Proof. destruct r; reflexivity. Qed.

Section Inherit.
Context `{N : PyNum}.
Variable raster : image -> Z -> Z -> pixel.

(** Every kind of item inherits [resize_to_limit] from
    [ContainerItem]: the resize over the item tree that containers use
    for their children is the template method of container_item.py
    applied, through the interface, to the item's own [get_width],
    [get_height], [resize_by_width] and [resize_by_height]. *)
Theorem resize_to_limit_inherited x wl hl :
  Layout.resize_to_limit x wl hl = resize_to_limit (item_api raster) x wl hl.
Proof.
  unfold resize_to_limit; destruct x as [im|fid fa im|lid k a its]; cbn [Layout.resize_to_limit item_api
    get_width get_height resize_by_width resize_by_height item_width item_height].
  - unfold Image.resize_to_limit. apply resize_to_limit_map.
  - unfold Frame.resize_to_limit. rewrite resize_to_limit_map. reflexivity.
  - unfold ContainerItem.resize_to_limit, item_resize_by_width, item_resize_by_height,
      Layout.resize_by_width, Layout.resize_by_height.
    destruct (c_height a =? 0); [reflexivity|]. destruct (c_width a =? 0); [reflexivity|].
    destruct (py_ratio_gt _ _ _ _); rewrite exc_map_compose; reflexivity.
Qed.

End Inherit.

End ContainerItemApi.
