(* ===== verification/Factory.v ===== *)
(** Construction: [LayoutContainer.__init__] with its validating setters
    (layout_container.py 20-61 and 164-349), the subclass constructors and
    layout_containers_factory.py.

    The constructors receive Python values: padding, gutters and colour are
    meant to be tuples of ints, and the validators check the shape and the
    values at run time.  [pyval] is the part of Python's values they can
    tell apart: ints, bools (which [isinstance(n, int)] accepts), floats,
    [None], tuples and other sequences.  A constructor either returns the
    new object or raises; the object of a raising constructor is never
    seen, so the result is [Built] or [Failed]. *)

From Stdlib Require Import ZArith List Lia Bool.
From S2P Require Import Prelude PyNum Image Items Logic Frame Container.
Import ListNotations.
Open Scope Z_scope.
Open Scope bool_scope.

Import Image (image, mkImage, img_id, img_w, img_h).

#[warnings="-register-all"]
Inductive pyval : Type :=
| PyInt (z : Z)
| PyBool (b : bool)
| PyFloat (z : Z)          (** a float; [z] is its integral part *)
| PyNone
| PyTuple (l : list pyval)
| PyList (l : list pyval)  (** a sequence that is not a tuple *)
| PyObject.                (** any other object, such as the class [int] *)

Inductive built (A : Type) : Type :=
| Built (a : A)
| Failed (e : exn).
Arguments Built {A} a.
Arguments Failed {A} e.

Module Construct.

(** [isinstance(n, int)]: a bool is an int. *)
Definition int_value (v : pyval) : option Z :=
  match v with
  | PyInt z => Some z
  | PyBool b => Some (if b then 1 else 0)
  | _ => None
  end.

(** [isinstance(t, tuple) and len(t) == n and all(ok(x) for x in t)]. *)
Definition tuple_of (n : nat) (ok : Z -> bool) (v : pyval) : option (list Z) :=
  match v with
  | PyTuple l =>
      if Nat.eqb (length l) n then
        fold_right (fun x acc =>
          match int_value x, acc with
          | Some z, Some zs => if ok z then Some (z :: zs) else None
          | _, _ => None
          end) (Some []) l
      else None
  | _ => None
  end.

(** [is_padding_valid] (303-317) and [set_padding] (164-176). *)
Definition is_padding_valid (v : pyval) : option (list Z) := tuple_of 4 (fun n => 0 <=? n) v.
(** [is_item_gutters_valid] (319-333) and [set_item_gutters] (185-196). *)
Definition is_item_gutters_valid (v : pyval) : option (list Z) := tuple_of 2 (fun n => 0 <=? n) v.
(** [is_background_color_valid] (335-349) and [set_background_color]
    (205-214). *)
Definition is_background_color_valid (v : pyval) : option (list Z) :=
  tuple_of 3 (fun n => (0 <=? n) && (n <=? 255)) v.

(** The attributes with the padding, the gutters or the colour replaced. *)
Definition with_padding (a : cattrs) (pt pr pb pl : Z) : cattrs :=
  {| c_width := c_width a; c_height := c_height a; c_capacity := c_capacity a;
     c_padding_top := pt; c_padding_right := pr; c_padding_bottom := pb; c_padding_left := pl;
     c_gutter_horizontal := c_gutter_horizontal a; c_gutter_vertical := c_gutter_vertical a;
     c_background_color := c_background_color a;
     c_min_content_width := c_min_content_width a; c_min_content_height := c_min_content_height a |}.

Definition with_gutters (a : cattrs) (gh gv : Z) : cattrs :=
  {| c_width := c_width a; c_height := c_height a; c_capacity := c_capacity a;
     c_padding_top := c_padding_top a; c_padding_right := c_padding_right a;
     c_padding_bottom := c_padding_bottom a; c_padding_left := c_padding_left a;
     c_gutter_horizontal := gh; c_gutter_vertical := gv;
     c_background_color := c_background_color a;
     c_min_content_width := c_min_content_width a; c_min_content_height := c_min_content_height a |}.

Definition with_background_color (a : cattrs) (c : Z * Z * Z) : cattrs :=
  {| c_width := c_width a; c_height := c_height a; c_capacity := c_capacity a;
     c_padding_top := c_padding_top a; c_padding_right := c_padding_right a;
     c_padding_bottom := c_padding_bottom a; c_padding_left := c_padding_left a;
     c_gutter_horizontal := c_gutter_horizontal a; c_gutter_vertical := c_gutter_vertical a;
     c_background_color := c;
     c_min_content_width := c_min_content_width a; c_min_content_height := c_min_content_height a |}.

(** [set_padding] (164-176): raise unless valid, then store
    [int(padding[i])] of each validated int. *)
Definition set_padding (a : cattrs) (padding : pyval) : exc cattrs :=
  match is_padding_valid padding with
  | Some [pt; pr; pb; pl] => Ok (with_padding a pt pr pb pl)
  | _ => Raise LayoutException a
  end.

(** [set_item_gutters] (185-196). *)
Definition set_item_gutters (a : cattrs) (item_gutter : pyval) : exc cattrs :=
  match is_item_gutters_valid item_gutter with
  | Some [gh; gv] => Ok (with_gutters a gh gv)
  | _ => Raise LayoutException a
  end.

(** [set_background_color] (205-214): the tuple is stored as given (a
    bool stays a bool, equal to 0 or 1 in arithmetic). *)
Definition set_background_color (a : cattrs) (background_color : pyval) : exc cattrs :=
  match is_background_color_valid background_color with
  | Some [r; g; b] => Ok (with_background_color a (r, g, b))
  | _ => Raise LayoutException a
  end.

(** [get_padding] (178-183), [get_item_gutters] (198-203),
    [get_background_color] (216-221). *)
Definition get_padding (a : cattrs) : Z * Z * Z * Z :=
  (c_padding_top a, c_padding_right a, c_padding_bottom a, c_padding_left a).
Definition get_item_gutters (a : cattrs) : Z * Z := (c_gutter_horizontal a, c_gutter_vertical a).
Definition get_background_color (a : cattrs) : Z * Z * Z := c_background_color a.

(** The default arguments of the setters: [padding=(0, 0, 0, 0)] and
    [item_gutter=(int, int)], a tuple of two classes. *)
Definition padding_default : pyval := PyTuple [PyInt 0; PyInt 0; PyInt 0; PyInt 0].
Definition item_gutter_default : pyval := PyTuple [PyObject; PyObject].

(** [LayoutContainer.__init__] (20-61): the colour is set first, then the
    gutters, then the padding; the first invalid one raises. *)
Definition init_attrs (width height capacity : Z) (padding background_color item_gutters : pyval)
    (min_content_width min_content_height : Z) : built cattrs :=
  match is_background_color_valid background_color with
  | Some [r; g; b] =>
      match is_item_gutters_valid item_gutters with
      | Some [gh; gv] =>
          match is_padding_valid padding with
          | Some [pt; pr; pb; pl] =>
              Built {| c_width := width; c_height := height;
                       c_capacity := if 0 <? capacity then capacity else 1;
                       c_padding_top := pt; c_padding_right := pr;
                       c_padding_bottom := pb; c_padding_left := pl;
                       c_gutter_horizontal := gh; c_gutter_vertical := gv;
                       c_background_color := (r, g, b);
                       c_min_content_width :=
                         if ContainerItem.DEFAULT_MINIMUM_CONTENT_WIDTH <? min_content_width
                         then min_content_width else ContainerItem.DEFAULT_MINIMUM_CONTENT_WIDTH;
                       c_min_content_height :=
                         if ContainerItem.DEFAULT_MINIMUM_CONTENT_HEIGHT <? min_content_height
                         then min_content_height else ContainerItem.DEFAULT_MINIMUM_CONTENT_HEIGHT |}
          | _ => Failed LayoutException
          end
      | _ => Failed LayoutException
      end
  | _ => Failed LayoutException
  end.

Definition set_capacity (a : cattrs) (cap : Z) : cattrs :=
  {| c_width := c_width a; c_height := c_height a; c_capacity := cap;
     c_padding_top := c_padding_top a; c_padding_right := c_padding_right a;
     c_padding_bottom := c_padding_bottom a; c_padding_left := c_padding_left a;
     c_gutter_horizontal := c_gutter_horizontal a; c_gutter_vertical := c_gutter_vertical a;
     c_background_color := c_background_color a;
     c_min_content_width := c_min_content_width a;
     c_min_content_height := c_min_content_height a |}.

Section Ctors.
Context `{N : PyNum}.

(** [VerticalContainer.__init__] (vertical_container.py 8-12): the
    attributes of [LayoutContainer.__init__] and the vertical strategy;
    [id] is the identity of the new object. *)
Definition VerticalContainer_init (id : nat) (width height capacity : Z)
    (padding background_color item_gutters : pyval) (min_w min_h : Z) : built layout :=
  match init_attrs width height capacity padding background_color item_gutters min_w min_h with
  | Built a => Built (mkLayout id Vertical a [])
  | Failed e => Failed e
  end.

(** [create_vertical_container] (layout_containers_factory.py 15-21). *)
Definition create_vertical_container (id : nat) (width height capacity : Z)
    (padding background_color item_gutters : pyval) (min_w min_h : Z) : built layout :=
  VerticalContainer_init id width height capacity padding background_color item_gutters min_w min_h.

(** [create_horizontal_container]: the factory of
    layout_containers_factory.py 6-12, with the constructor spec.md
    describes (the class file is not in the repository). *)
Definition create_horizontal_container (id : nat) (width height capacity : Z)
    (padding background_color item_gutters : pyval) (min_w min_h : Z) : built layout :=
  match init_attrs width height capacity padding background_color item_gutters min_w min_h with
  | Built a => Built (mkLayout id Horizontal a [])
  | Failed e => Failed e
  end.

(** [GridContainer.__init__] (grid_container.py 10-25): the capacity is
    [rows * columns] whatever its sign, and [resize_items] computes the
    cells, raising [ZeroDivisionError] for zero columns or rows. *)
Definition GridContainer_init (id : nat) (width height rows columns : Z)
    (padding background_color item_gutters : pyval) (min_w min_h : Z) : built layout :=
  match init_attrs width height (rows * columns) padding background_color item_gutters min_w min_h with
  | Built a =>
      match Layout.resize_items (mkLayout id (Grid rows columns 0 0) (set_capacity a (rows * columns)) []) with
      | Ok c => Built c
      | Raise e _ => Failed e
      end
  | Failed e => Failed e
  end.

(** [create_grid_container] (layout_containers_factory.py 31-38). *)
Definition create_grid_container (id : nat) (width height rows columns : Z)
    (padding background_color item_gutters : pyval) (min_w min_h : Z) : built layout :=
  GridContainer_init id width height rows columns padding background_color item_gutters min_w min_h.

(** [ImageFrameContainer.__init__] (image_frame_container.py 16-22): the
    frame is the image plus its padding. *)
Definition ImageFrameContainer_init (id : nat) (im : image)
    (padding background_color : pyval) (min_w min_h : Z) : built item :=
  match init_attrs 1 1 1 padding background_color (PyTuple [PyInt 0; PyInt 0]) min_w min_h with
  | Built a =>
      Built (IFrame id (set_size a (img_w im + c_padding_left a + c_padding_right a)
                                  (img_h im + c_padding_top a + c_padding_bottom a)) im)
  | Failed e => Failed e
  end.

(** [create_image_frame_container] (layout_containers_factory.py 24-29). *)
Definition create_image_frame_container (id : nat) (im : image)
    (padding background_color : pyval) (min_w min_h : Z) : built item :=
  ImageFrameContainer_init id im padding background_color min_w min_h.

End Ctors.

(** The tuples the program passes: [(t, r, b, l)], [(h, v)], [(r, g, b)]. *)
Definition ints (l : list Z) : pyval := PyTuple (map PyInt l).

(** ** Construction-time validation *)

Lemma tuple_of_spec n ok v zs :
  tuple_of n ok v = Some zs -> length zs = n /\ Forall (fun z => ok z = true) zs.
Proof.
  destruct v as [| | | |l| |]; simpl; try discriminate.
  destruct (Nat.eqb_spec (length l) n) as [<-|]; [|discriminate].
  revert zs; induction l as [|x xs IH]; simpl; intros zs E; [inversion E; auto|].
  destruct (int_value x) as [z|]; [|discriminate].
  destruct (fold_right _ _ xs) as [zs'|]; [|discriminate].
  destruct (ok z) eqn:Oz; [|discriminate]. inversion E; subst.
  destruct (IH zs' eq_refl) as [L F]. simpl. auto.
Qed.


(** The constructor stores the size it is given. *)
Lemma init_attrs_size w h cap p bg g mw mh a :
  init_attrs w h cap p bg g mw mh = Built a -> c_width a = w /\ c_height a = h.
Proof.
  unfold init_attrs.
  destruct (is_background_color_valid bg) as [[|r [|gr [|b [|]]]]|]; try discriminate.
  destruct (is_item_gutters_valid g) as [[|gh [|gv [|]]]|]; try discriminate.
  destruct (is_padding_valid p) as [[|pt [|pr [|pb [|pl [|]]]]]|]; try discriminate.
  intros E; inversion E; auto.
Qed.

(** The bounds the validators guarantee. *)
Lemma init_attrs_bounds w h cap p bg g mw mh a :
  init_attrs w h cap p bg g mw mh = Built a ->
  0 < c_capacity a /\
  0 <= c_padding_top a /\ 0 <= c_padding_right a /\ 0 <= c_padding_bottom a /\ 0 <= c_padding_left a /\
  0 <= c_gutter_horizontal a /\ 0 <= c_gutter_vertical a /\
  (let '(r, gr, b) := c_background_color a in 0 <= r <= 255 /\ 0 <= gr <= 255 /\ 0 <= b <= 255) /\
  50 <= c_min_content_width a /\ 50 <= c_min_content_height a.
Proof.
  unfold init_attrs.
  destruct (is_background_color_valid bg) as [[|r [|gr [|b [|]]]]|] eqn:Ec; try discriminate.
  destruct (is_item_gutters_valid g) as [[|gh [|gv [|]]]|] eqn:Eg; try discriminate.
  destruct (is_padding_valid p) as [[|pt [|pr [|pb [|pl [|]]]]]|] eqn:Ep; try discriminate.
  intros E; inversion E; subst; clear E. simpl.
  apply tuple_of_spec in Ec as [_ Fc]. apply tuple_of_spec in Eg as [_ Fg].
  apply tuple_of_spec in Ep as [_ Fp].
  repeat match goal with H : Forall _ (_ :: _) |- _ => inversion H; subst; clear H end.
  repeat match goal with H : _ = true |- _ => apply andb_prop in H as [? ?] end.
  rewrite Z.leb_le in *. unfold ContainerItem.DEFAULT_MINIMUM_CONTENT_WIDTH,
    ContainerItem.DEFAULT_MINIMUM_CONTENT_HEIGHT.
  destruct (Z.ltb_spec 0 cap), (Z.ltb_spec 50 mw), (Z.ltb_spec 50 mh); lia.
Qed.

(** C27: every container the constructor returns has
    a positive capacity, nonnegative padding and gutters, colour bytes in
    [0, 255] and minimum content sizes of at least the 50 x 50 default. *)
Theorem init_attrs_invariant w h cap p bg g mw mh a :
  init_attrs w h cap p bg g mw mh = Built a ->
  0 < c_capacity a /\
  0 <= c_padding_top a /\ 0 <= c_padding_right a /\ 0 <= c_padding_bottom a /\ 0 <= c_padding_left a /\
  0 <= c_gutter_horizontal a /\ 0 <= c_gutter_vertical a /\
  (let '(r, gr, b) := c_background_color a in 0 <= r <= 255 /\ 0 <= gr <= 255 /\ 0 <= b <= 255) /\
  50 <= c_min_content_width a /\ 50 <= c_min_content_height a.
Proof. apply init_attrs_bounds. Qed.

(** C28: construction succeeds exactly when the colour,
    the gutters and the padding are all valid; otherwise it raises
    [LayoutException] and no object is made. *)
Theorem init_attrs_rejects w h cap p bg g mw mh :
  match init_attrs w h cap p bg g mw mh with
  | Built _ => is_background_color_valid bg <> None /\ is_item_gutters_valid g <> None /\
               is_padding_valid p <> None
  | Failed e => e = LayoutException /\
               (is_background_color_valid bg = None \/ is_item_gutters_valid g = None \/
                is_padding_valid p = None)
  end.
Proof.
  unfold init_attrs.
  destruct (is_background_color_valid bg) as [lc|] eqn:Ec; [|auto].
  destruct (is_item_gutters_valid g) as [lg|] eqn:Eg;
  destruct (is_padding_valid p) as [lp|] eqn:Ep;
  pose proof Ec as Ec'; unfold is_background_color_valid in Ec'; apply tuple_of_spec in Ec' as [Lc _];
  destruct lc as [|r [|gr [|b [|]]]]; simpl in Lc; try discriminate; auto;
  pose proof Eg as Eg'; unfold is_item_gutters_valid in Eg'; apply tuple_of_spec in Eg' as [Lg _];
  destruct lg as [|gh [|gv [|]]]; simpl in Lg; try discriminate; auto;
  pose proof Ep as Ep'; unfold is_padding_valid in Ep'; apply tuple_of_spec in Ep' as [Lp _];
  destruct lp as [|pt [|pr [|pb [|pl [|]]]]]; simpl in Lp; try discriminate;
  repeat split; congruence.
Qed.

(** [__init__] as the code writes it (20-61): the placeholder values of
    lines 29-45 with the size and capacity, then [set_background_color],
    [set_item_gutters] and [set_padding] in that order, then the minimum
    content sizes. *)
Definition init_defaults (width height capacity : Z) : cattrs :=
  mkAttrs width height (if 0 <? capacity then capacity else 1) 0 0 0 0 0 0 (-1, -1, -1)
    ContainerItem.DEFAULT_MINIMUM_CONTENT_WIDTH ContainerItem.DEFAULT_MINIMUM_CONTENT_HEIGHT.

Lemma init_attrs_by_setters w h cap p bg g mw mh :
  init_attrs w h cap p bg g mw mh =
  match (let* a1 := set_background_color (init_defaults w h cap) bg in
         let* a2 := set_item_gutters a1 g in
         set_padding a2 p) with
  | Ok a =>
      Built {| c_width := c_width a; c_height := c_height a; c_capacity := c_capacity a;
               c_padding_top := c_padding_top a; c_padding_right := c_padding_right a;
               c_padding_bottom := c_padding_bottom a; c_padding_left := c_padding_left a;
               c_gutter_horizontal := c_gutter_horizontal a; c_gutter_vertical := c_gutter_vertical a;
               c_background_color := c_background_color a;
               c_min_content_width :=
                 if ContainerItem.DEFAULT_MINIMUM_CONTENT_WIDTH <? mw then mw else c_min_content_width a;
               c_min_content_height :=
                 if ContainerItem.DEFAULT_MINIMUM_CONTENT_HEIGHT <? mh then mh else c_min_content_height a |}
  | Raise e _ => Failed e
  end.
Proof.
  unfold init_attrs, set_background_color, set_item_gutters, set_padding.
  destruct (is_background_color_valid bg) as [[|r [|gr [|b [|]]]]|]; simpl; try reflexivity.
  destruct (is_item_gutters_valid g) as [[|gh [|gv [|]]]|]; simpl; try reflexivity.
  destruct (is_padding_valid p) as [[|pt [|pr [|pb [|pl [|]]]]]|]; reflexivity.
Qed.

(** C29: [set_padding] and [get_padding] are a lens: after a
    successful [set_padding], [get_padding] returns the four ints the
    validator read; passing them back to [set_padding] changes nothing;
    and nothing but the padding was changed. *)
Theorem set_padding_roundtrip a p a' :
  set_padding a p = Ok a' ->
  (let '(t, r, b, l) := get_padding a' in
   is_padding_valid p = Some [t; r; b; l] /\ set_padding a' (ints [t; r; b; l]) = Ok a') /\
  with_padding a' (c_padding_top a) (c_padding_right a) (c_padding_bottom a) (c_padding_left a) = a.
Proof.
  unfold set_padding. destruct (is_padding_valid p) as [[|pt [|pr [|pb [|pl [|]]]]]|] eqn:Ep;
    intros E; inversion E; subst; clear E.
  apply tuple_of_spec in Ep as E'. destruct E' as [_ F].
  repeat match goal with H : Forall _ (_ :: _) |- _ => inversion H; subst; clear H end.
  cbn [get_padding with_padding c_padding_top c_padding_right c_padding_bottom c_padding_left].
  split; [split; [reflexivity|] | destruct a; reflexivity].
  unfold set_padding, is_padding_valid, ints. simpl.
  repeat match goal with H : (0 <=? _) = true |- _ => rewrite H; clear H end. reflexivity.
Qed.

(** [set_item_gutters] called with its default argument
    [(int, int)], a tuple of two classes rather than ints, always raises
    [LayoutException] and leaves the container as it was. *)
Theorem set_item_gutters_default_raises a :
  set_item_gutters a item_gutter_default = Raise LayoutException a.
Proof. reflexivity. Qed.

End Construct.

(** ** Witnesses *)

Module ConstructRuns.
Import Construct.

(** A 300x100 container asked for capacity 0, padding 5 all round, gutters
    (4, 6) and a minimum content width of 20. *)
Definition built_attrs : built cattrs :=
  init_attrs 300 100 0 (ints [5; 5; 5; 5]) (ints [255; 0; 0]) (ints [4; 6]) 20 60.

Definition attrs_of (b : built cattrs) : cattrs :=
  match b with Built a => a | Failed _ => mkAttrs 0 0 0 0 0 0 0 0 0 (0, 0, 0) 0 0 end.

Lemma init_attrs_invariant_witness :
  let a := attrs_of built_attrs in
  0 < c_capacity a /\
  0 <= c_padding_top a /\ 0 <= c_padding_right a /\ 0 <= c_padding_bottom a /\ 0 <= c_padding_left a /\
  0 <= c_gutter_horizontal a /\ 0 <= c_gutter_vertical a /\
  (let '(r, gr, b) := c_background_color a in 0 <= r <= 255 /\ 0 <= gr <= 255 /\ 0 <= b <= 255) /\
  50 <= c_min_content_width a /\ 50 <= c_min_content_height a.
Proof.
  exact (init_attrs_invariant 300 100 0 (ints [5; 5; 5; 5]) (ints [255; 0; 0]) (ints [4; 6]) 20 60
           (attrs_of built_attrs) ltac:(vm_compute; reflexivity)).
Defined.

(** Padding (1, 2, 3, 4) set on that container and read back. *)
Lemma set_padding_roundtrip_witness :
  let a := attrs_of built_attrs in
  exists a', set_padding a (ints [1; 2; 3; 4]) = Ok a' /\
    (match get_padding a' with
     | (t, r, b, l) =>
         is_padding_valid (ints [1; 2; 3; 4]) = Some [t; r; b; l] /\ set_padding a' (ints [t; r; b; l]) = Ok a'
     end /\
     with_padding a' (c_padding_top a) (c_padding_right a) (c_padding_bottom a) (c_padding_left a) = a).
Proof.
  intros a. eexists. split; [vm_compute; reflexivity|].
  apply (set_padding_roundtrip a (ints [1; 2; 3; 4])). vm_compute. reflexivity.
Defined.

End ConstructRuns.
