(* ===== verification/Tree.v ===== *)
(** The container tree as the store the generator mutates.

    layouts_generator.py holds Python references to containers that are
    already children of other containers ([parent_container],
    [generated_layout], the list [bottom_level_containers]) and mutates
    them through those references; the change is seen by every holder.
    The program only builds trees (a container is added to exactly one
    parent, children never point back), so the store is the main
    container itself and a reference is the path of child indices that
    leads to the container from the main one ([path]).  Reading through a
    reference is [sub_at]; a method called through it is run on the
    subtree and written back with [set_at], which is what makes the
    mutation visible to the ancestors and to every other holder of the
    reference.

    A path stays valid while the containers on it only gain children at
    the end and keep their kind of node: the [skeleton] of a tree (ids,
    capacities and the nesting of containers, not sizes) captures that,
    [sk_le] orders skeletons by "the same nodes, with more children
    appended", and the methods the generator calls move the skeleton up
    in that order.  The tree-wide invariants (every container within its
    capacity, every id below the next fresh id) are functions of the
    skeleton. *)

From Stdlib Require Import ZArith List Lia Bool.
From S2P Require Import Prelude PyNum Image Items Logic Frame Container.
Import ListNotations.
Open Scope Z_scope.

Import Image (image, mkImage, img_id, img_w, img_h).

(** ** References *)

Definition path : Type := list nat.

(** The container a reference designates, when the path leads through
    layout containers only. *)
Fixpoint sub_at (c : layout) (p : path) : option layout :=
  match p with
  | [] => Some c
  | i :: p' =>
      match nth_error (l_items c) i with
      | Some (ILayout lid k a its) => sub_at (mkLayout lid k a its) p'
      | _ => None
      end
  end.

(** The tree after the container at [p] has become [d]. *)
Fixpoint set_at (c : layout) (p : path) (d : layout) : option layout :=
  match p with
  | [] => Some d
  | i :: p' =>
      match nth_error (l_items c) i with
      | Some (ILayout lid k a its) =>
          option_map (fun d' => with_items c (set_nth (l_items c) i (to_item d')))
            (set_at (mkLayout lid k a its) p' d)
      | _ => None
      end
  end.

(** ** Skeletons *)

#[warnings="-register-all"]
Inductive sk : Type :=
| SLeaf (id : nat)
| SNode (id : nat) (cap : Z) (children : list sk).

Section SkInd.
Variable P : sk -> Prop.
Hypothesis P_leaf : forall id, P (SLeaf id).
Hypothesis P_node : forall id cap l, Forall P l -> P (SNode id cap l).

Fixpoint sk_ind' (s : sk) : P s :=
  match s with
  | SLeaf id => P_leaf id
  | SNode id cap l =>
      P_node id cap l
        ((fix go (l : list sk) : Forall P l :=
            match l with
            | [] => Forall_nil _
            | t :: ts => Forall_cons _ (sk_ind' t) (go ts)
            end) l)
  end.
End SkInd.

Fixpoint skel (x : item) : sk :=
  match x with
  | IImage im => SLeaf (img_id im)
  | IFrame fid _ _ => SLeaf fid
  | ILayout lid _ a its => SNode lid (c_capacity a) (map skel its)
  end.

Definition lskel (c : layout) : sk := skel (to_item c).

(** [l] is, element by element, below a prefix of [m]. *)
Fixpoint prefix2 {A B} (r : A -> B -> bool) (l : list A) (m : list B) : bool :=
  match l, m with
  | [], _ => true
  | x :: l', y :: m' => r x y && prefix2 r l' m'
  | _ :: _, [] => false
  end.

(** The same nodes, each container with possibly more children appended. *)
Fixpoint sk_le (s t : sk) : bool :=
  match s, t with
  | SLeaf i, SLeaf j => Nat.eqb i j
  | SNode i c l, SNode j d m => Nat.eqb i j && Z.eqb c d && prefix2 sk_le l m
  | _, _ => false
  end.

(** A path the skeleton can follow. *)
Fixpoint sk_valid (s : sk) (p : path) : bool :=
  match p with
  | [] => true
  | i :: p' =>
      match s with
      | SNode _ _ l =>
          match nth_error l i with
          | Some (SNode _ _ _ as t) => sk_valid t p'
          | _ => false
          end
      | SLeaf _ => false
      end
  end.

(** The number of leaves (images and frames). *)
Fixpoint sk_leaves (s : sk) : nat :=
  match s with
  | SLeaf _ => 1
  | SNode _ _ l => list_sum (map sk_leaves l)
  end.

(** A property of every node. *)
Fixpoint sk_all (P : sk -> bool) (s : sk) : bool :=
  P s && match s with SLeaf _ => true | SNode _ _ l => forallb (sk_all P) l end.

Definition sk_root (s : sk) : nat := match s with SLeaf i | SNode i _ _ => i end.

(** Every container holds at most its capacity. *)
Definition node_cap_ok (s : sk) : bool :=
  match s with SLeaf _ => true | SNode _ cap l => Z.of_nat (length l) <=? cap end.
Definition sk_caps : sk -> bool := sk_all node_cap_ok.

(** Every object of the tree is older than the next fresh id. *)
Definition ids_below (n : nat) : sk -> bool := sk_all (fun s => Nat.ltb (sk_root s) n).

(** ** References and skeletons *)

Lemma nth_error_map_skel its i :
  nth_error (map skel its) i = option_map skel (nth_error its i).
Proof. apply nth_error_map. Qed.

Lemma lskel_mk lid k a its : lskel (mkLayout lid k a its) = SNode lid (c_capacity a) (map skel its).
Proof. reflexivity. Qed.

Lemma sub_at_valid c p : sub_at c p <> None <-> sk_valid (lskel c) p = true.
Proof.
  revert c; induction p as [|i p IH]; intros c; simpl; [split; congruence|].
  destruct c as [lid k a its]. simpl. rewrite nth_error_map_skel.
  destruct (nth_error its i) as [[im|fid fa im|lid' k' a' its']|]; simpl; try (split; congruence).
  apply IH.
Qed.

Lemma set_at_defined c p d : sub_at c p <> None -> exists c', set_at c p d = Some c'.
Proof.
  revert c; induction p as [|i p IH]; intros c H; simpl in *; eauto.
  destruct (nth_error (l_items c) i) as [[| |lid k a its]|]; try congruence.
  destruct (IH _ H) as [c' ->]. simpl. eauto.
Qed.

(** Reading back what was written. *)
Lemma sub_set_same c p d c' : set_at c p d = Some c' -> sub_at c' p = Some d.
Proof.
  revert c c'; induction p as [|i p IH]; intros c c' E; simpl in *; [congruence|].
  destruct (nth_error (l_items c) i) as [[| |lid k a its]|] eqn:Ei; try discriminate.
  destruct (set_at _ p d) as [d'|] eqn:Ed; simpl in E; [|discriminate]. inversion E; subst. simpl.
  erewrite nth_error_set_nth_eq by eauto. destruct d' as [lid' k' a' its']. simpl.
  eapply IH. exact Ed.
Qed.

(** Writing back what was read changes nothing. *)
Lemma set_sub_same c p d : sub_at c p = Some d -> set_at c p d = Some c.
Proof.
  revert c; induction p as [|i p IH]; intros c E; simpl in *; [congruence|].
  destruct (nth_error (l_items c) i) as [[| |lid k a its]|] eqn:Ei; try discriminate.
  rewrite (IH _ E). simpl. f_equal. unfold to_item. simpl.
  rewrite (set_nth_nth_error _ _ _ Ei). destruct c; reflexivity.
Qed.

#[export] Hint Resolve sub_set_same set_sub_same : layout.

(** Following a path in two steps. *)
Lemma sub_at_app c p q :
  sub_at c (p ++ q) = match sub_at c p with Some d => sub_at d q | None => None end.
Proof.
  revert c; induction p as [|i p IH]; intros c; simpl; [reflexivity|].
  destruct (nth_error (l_items c) i) as [[| |lid k a its]|]; auto.
Qed.

Lemma lskel_unfold c : lskel c = SNode (l_id c) (c_capacity (l_attrs c)) (map skel (l_items c)).
Proof. destruct c; reflexivity. Qed.

Lemma skel_node x j cap l : skel x = SNode j cap l -> exists k a its, x = ILayout j k a its.
Proof. destruct x; simpl; try discriminate. intros E; inversion E; subst; eauto. Qed.

(** A reference to a child container of the container at [p]. *)
Lemma sk_valid_last c p d i j cap l :
  sub_at c p = Some d -> nth_error (map skel (l_items d)) i = Some (SNode j cap l) ->
  sk_valid (lskel c) (p ++ [i]) = true.
Proof.
  intros Hp Hi. apply sub_at_valid. rewrite sub_at_app, Hp. simpl.
  rewrite nth_error_map_skel in Hi. destruct (nth_error (l_items d) i) as [x|]; [|discriminate].
  inversion Hi as [Hx]. apply skel_node in Hx as (k & a & its & ->). discriminate.
Qed.

(** ** The order on skeletons *)

Lemma prefix2_nth {A B} (r : A -> B -> bool) l m i x :
  prefix2 r l m = true -> nth_error l i = Some x -> exists y, nth_error m i = Some y /\ r x y = true.
Proof.
  revert m i; induction l as [|z l IH]; intros [|y m] [|i] H E; simpl in *; try discriminate.
  - inversion E; subst. apply andb_prop in H as [H _]. eauto.
  - apply andb_prop in H as [_ H]. eauto.
Qed.

Lemma prefix2_refl {A} (r : A -> A -> bool) l : (forall x, In x l -> r x x = true) -> prefix2 r l l = true.
Proof. induction l as [|x l IH]; intros H; simpl; auto. rewrite H, IH; simpl; auto; intros; apply H; simpl; auto. Qed.

Lemma prefix2_app {A B} (r : A -> B -> bool) l m extra :
  prefix2 r l m = true -> prefix2 r l (m ++ extra) = true.
Proof. revert m; induction l as [|x l IH]; intros [|y m] H; simpl in *; try discriminate; auto.
  apply andb_prop in H as [H1 H2]. rewrite H1, IH; auto. Qed.

Lemma prefix2_set_nth {A} (r : A -> A -> bool) l i x y :
  (forall z, In z l -> r z z = true) -> nth_error l i = Some x -> r x y = true ->
  prefix2 r l (set_nth l i y) = true.
Proof.
  revert i; induction l as [|z l IH]; intros [|i] Hr E Hxy; simpl in *; try discriminate.
  - inversion E; subst. rewrite Hxy. apply prefix2_refl. auto.
  - rewrite Hr by auto. simpl. apply IH; auto.
Qed.

Lemma prefix2_trans {A} (r : A -> A -> bool) l m n :
  (forall x, In x l -> forall y z, r x y = true -> r y z = true -> r x z = true) ->
  prefix2 r l m = true -> prefix2 r m n = true -> prefix2 r l n = true.
Proof.
  revert m n; induction l as [|x l IH]; intros [|y m] [|z n] Ht H1 H2; simpl in *; try discriminate; auto.
  apply andb_prop in H1 as [H1 H1']. apply andb_prop in H2 as [H2 H2'].
  rewrite (Ht x (or_introl eq_refl) y z H1 H2). simpl. eapply IH; eauto.
Qed.

Lemma sk_le_refl s : sk_le s s = true.
Proof.
  induction s as [i|i c l IH] using sk_ind'; simpl; rewrite ?Nat.eqb_refl, ?Z.eqb_refl; simpl; auto.
  apply prefix2_refl. rewrite Forall_forall in IH. auto.
Qed.

Lemma sk_le_trans s t u : sk_le s t = true -> sk_le t u = true -> sk_le s u = true.
Proof.
  revert t u; induction s as [i|i c l IH] using sk_ind'; intros [j|j d m] [k|k e n] H1 H2;
    simpl in *; try discriminate.
  - apply Nat.eqb_eq in H1, H2. subst. apply Nat.eqb_refl.
  - apply andb_prop in H1 as [H1 P1]. apply andb_prop in H1 as [I1 C1].
    apply andb_prop in H2 as [H2 P2]. apply andb_prop in H2 as [I2 C2].
    apply Nat.eqb_eq in I1, I2. apply Z.eqb_eq in C1, C2. subst.
    rewrite Nat.eqb_refl, Z.eqb_refl. simpl. eapply prefix2_trans; eauto.
    rewrite Forall_forall in IH. intros x Hx y z. apply IH. exact Hx.
Qed.

Lemma sk_le_append i c l extra : sk_le (SNode i c l) (SNode i c (l ++ extra)) = true.
Proof.
  simpl. rewrite Nat.eqb_refl, Z.eqb_refl. simpl. apply prefix2_app, prefix2_refl.
  intros; apply sk_le_refl.
Qed.

#[export] Hint Resolve sk_le_refl sk_le_append : layout.

(** A reference that was valid stays valid when the tree grows. *)
Lemma sk_valid_mono s t p : sk_le s t = true -> sk_valid s p = true -> sk_valid t p = true.
Proof.
  revert s t; induction p as [|i p IH]; intros [j|j c l] [k|k d m] Hle Hv; simpl in *; auto; try discriminate.
  apply andb_prop in Hle as [_ Hp].
  destruct (nth_error l i) as [[|j' c' l']|] eqn:E; try discriminate.
  destruct (prefix2_nth _ _ _ _ _ Hp E) as ([k'|k' d' m'] & -> & H); [discriminate|].
  eapply IH; eauto.
Qed.

(** ** Writing through a reference *)

Lemma set_at_le c p old d c' :
  sub_at c p = Some old -> sk_le (lskel old) (lskel d) = true -> set_at c p d = Some c' ->
  sk_le (lskel c) (lskel c') = true.
Proof.
  revert c c'; induction p as [|i p IH]; intros c c' Hs Hle E; simpl in *.
  - congruence.
  - destruct (nth_error (l_items c) i) as [[| |lid k a its]|] eqn:Ei; try discriminate.
    destruct (set_at _ p d) as [d'|] eqn:Ed; simpl in E; [|discriminate]. inversion E; subst.
    destruct c as [cid ck ca citems]. unfold lskel, with_items. simpl.
    rewrite Nat.eqb_refl, Z.eqb_refl. simpl. rewrite map_set_nth.
    apply prefix2_set_nth with (x := skel (ILayout lid k a its)).
    + intros; apply sk_le_refl.
    + rewrite nth_error_map_skel. simpl in Ei. now rewrite Ei.
    + exact (IH _ _ Hs Hle Ed).
Qed.

(** Replacing the container at [p] changes the leaf count of the whole
    tree by the change at [p]. *)
Lemma set_at_leaves m p c c' m' :
  sub_at m p = Some c -> set_at m p c' = Some m' ->
  (sk_leaves (lskel m') + sk_leaves (lskel c) = sk_leaves (lskel m) + sk_leaves (lskel c'))%nat.
Proof.
  revert m m'; induction p as [|i p IH]; intros m m' Hs E; simpl in *.
  { inversion Hs; inversion E; subst. lia. }
  destruct (nth_error (l_items m) i) as [[| |lid k a its]|] eqn:Ei; try discriminate.
  destruct (set_at _ p c') as [d'|] eqn:Ed; simpl in E; [|discriminate]. inversion E; subst.
  specialize (IH _ _ Hs Ed). destruct m as [mid mk ma mitems]. unfold lskel, with_items in *. simpl in *.
  rewrite map_set_nth, map_set_nth.
  assert (Hn : nth_error (map sk_leaves (map skel mitems)) i = Some (sk_leaves (skel (ILayout lid k a its))))
    by (rewrite nth_error_map, nth_error_map_skel, Ei; reflexivity).
  pose proof (list_sum_set_nth _ _ _ (sk_leaves (skel (to_item d'))) Hn) as S. simpl in *. lia.
Qed.

Section All.
Variable P : sk -> bool.
(** The property of a node depends on its children only through their
    number. *)
Hypothesis P_len : forall i c l l', length l = length l' -> P (SNode i c l) = P (SNode i c l').

Lemma sk_all_sub c p d : sk_all P (lskel c) = true -> sub_at c p = Some d -> sk_all P (lskel d) = true.
Proof.
  revert c; induction p as [|i p IH]; intros c H E; cbn [sub_at] in E; [congruence|].
  destruct (nth_error (l_items c) i) as [[| |lid k a its]|] eqn:Ei; try discriminate.
  apply (IH (mkLayout lid k a its)); auto.
  destruct c as [cid ck ca citems]. unfold lskel in H. simpl in H.
  apply andb_prop in H as [_ H]. rewrite forallb_forall in H. apply (H (skel (ILayout lid k a its))).
  apply in_map. simpl in Ei. eapply nth_error_In; eauto.
Qed.

Lemma sk_all_set c p d c' :
  sk_all P (lskel c) = true -> sk_all P (lskel d) = true -> set_at c p d = Some c' ->
  sk_all P (lskel c') = true.
Proof.
  revert c c'; induction p as [|i p IH]; intros c c' H Hd E; cbn [set_at] in E; [congruence|].
  destruct (nth_error (l_items c) i) as [[| |lid k a its]|] eqn:Ei; try discriminate.
  destruct (set_at _ p d) as [d'|] eqn:Ed; simpl in E; [|discriminate]. inversion E; subst.
  specialize (IH (mkLayout lid k a its) d').
  destruct c as [cid ck ca citems]. unfold lskel, with_items in *. simpl in H, Ei |- *.
  apply andb_prop in H as [Hr H]. rewrite forallb_forall in H.
  assert (Hchild : sk_all P (skel (ILayout lid k a its)) = true) by (apply H, in_map; eapply nth_error_In; eauto).
  rewrite map_set_nth. apply andb_true_intro. split.
  - rewrite <- Hr. apply P_len. rewrite length_set_nth. reflexivity.
  - apply forallb_forall. intros y Hy.
    destruct (In_nth_error _ _ Hy) as [j Ej].
    destruct (Nat.eq_dec i j) as [<-|Hne].
    + erewrite nth_error_set_nth_eq in Ej by (rewrite nth_error_map_skel, Ei; reflexivity).
      inversion Ej; subst. exact (IH Hchild Hd Ed).
    + rewrite nth_error_set_nth_neq in Ej by exact Hne. apply H. eapply nth_error_In; eauto.
Qed.

End All.

Lemma sk_all_impl (P P' : sk -> bool) t :
  (forall s, P s = true -> P' s = true) -> sk_all P t = true -> sk_all P' t = true.
Proof.
  intros HP. induction t as [id|id cap l IH] using sk_ind'; simpl; intros H;
    apply andb_prop in H as [H1 H2]; rewrite (HP _ H1); simpl; [reflexivity|].
  rewrite forallb_forall in *. rewrite Forall_forall in IH. auto.
Qed.

Lemma ids_below_mono n n' t : (n <= n')%nat -> ids_below n t = true -> ids_below n' t = true.
Proof.
  intros Hn. apply sk_all_impl. intros s H. apply Nat.ltb_lt in H. apply Nat.ltb_lt. lia.
Qed.

Lemma node_cap_ok_len i c l l' : length l = length l' -> node_cap_ok (SNode i c l) = node_cap_ok (SNode i c l').
Proof. simpl. intros ->. reflexivity. Qed.

Lemma root_below_len n i c l l' : length l = length l' ->
  Nat.ltb (sk_root (SNode i c l)) n = Nat.ltb (sk_root (SNode i c l')) n.
Proof. reflexivity. Qed.

(** ** The methods and the skeleton *)

Lemma sk_root_skel x : sk_root (skel x) = item_id x.
Proof. destruct x; reflexivity. Qed.

(** An object younger than every node of a container is none of its
    children, as [list.remove]'s identity test sees it. *)
Lemma ids_below_fresh n c x :
  ids_below n (lskel c) = true -> (n <= item_id x)%nat ->
  Forall (fun y => same_object x y = false) (l_items c).
Proof.
  intros H Hx. destruct c as [cid ck ca citems]. unfold ids_below, lskel in H. simpl in H.
  apply andb_prop in H as [_ H]. rewrite forallb_forall in H. apply Forall_forall. intros y Hy.
  specialize (H (skel y) (in_map _ _ _ Hy)). destruct (skel y) eqn:Ey; simpl in H;
    apply andb_prop in H as [H _]; apply Nat.ltb_lt in H;
    pose proof (sk_root_skel y) as R; rewrite Ey in R; simpl in R;
    unfold same_object; apply Nat.eqb_neq; lia.
Qed.

Section Methods.
Context `{N : PyNum}.

(** [ContainerItem.resize_to_limit] ends in the state of one of its two
    resize methods, or in the state it started from. *)
Lemma resize_to_limit_state_inv {S} (P : S -> Prop) w h bw bh (s : S) wl hl :
  P s -> (forall W, P (exc_state (bw W))) -> (forall H, P (exc_state (bh H))) ->
  P (exc_state (ContainerItem.resize_to_limit w h bw bh s wl hl)).
Proof.
  intros Hs Hw Hh. unfold ContainerItem.resize_to_limit.
  repeat match goal with |- context [if ?b then _ else _] => destruct b end; simpl; auto.
Qed.

Section Loop.
Variables (rl : Z -> Z -> exc (list item)) (its : list item).
Hypothesis rl_skel : forall mw mh, map skel (exc_state (rl mw mh)) = map skel its.

Lemma resize_items_with_skel k a : map skel (snd (exc_state (Layout.resize_items_with rl k a its))) = map skel its.
Proof.
  unfold Layout.resize_items_with. destruct k as [| |rows cols cw ch].
  1-2: Layout.destr_budget; rewrite exc_state_map; apply rl_skel.
  destruct (cols =? 0), (rows =? 0); simpl; rewrite ?exc_state_map; simpl; auto.
Qed.

Definition triple_skel (a : cattrs) (t : kind * cattrs * list item) : Prop :=
  c_capacity (snd (fst t)) = c_capacity a /\ map skel (snd t) = map skel its.

Lemma resize_by_width_with_skel k a W : triple_skel a (exc_state (Layout.resize_by_width_with rl k a its W)).
Proof.
  unfold Layout.resize_by_width_with, triple_skel.
  destruct (W =? c_width a), (c_width a =? 0); simpl; auto.
  rewrite exc_state_map. simpl. auto using resize_items_with_skel.
Qed.

Lemma resize_by_height_with_skel k a H : triple_skel a (exc_state (Layout.resize_by_height_with rl k a its H)).
Proof.
  unfold Layout.resize_by_height_with, triple_skel.
  destruct (H =? c_height a), (c_height a =? 0); simpl; auto.
  rewrite exc_state_map. simpl. auto using resize_items_with_skel.
Qed.

End Loop.

(** Resizing an item, whatever its outcome, keeps its skeleton: sizes
    change, ids, capacities and children do not. *)
Lemma resize_to_limit_skel x : forall wl hl, skel (exc_state (Layout.resize_to_limit x wl hl)) = skel x.
Proof.
  induction x as [im|fid fa im|lid k a its IH] using item_ind'; intros wl hl; simpl;
    rewrite exc_state_map; simpl.
  - now rewrite Image.resize_to_limit_id.
  - reflexivity.
  - set (rl := fun mw mh => map_exc (fun y => Layout.resize_to_limit y mw mh) its).
    assert (Hrl : forall mw mh, map skel (exc_state (rl mw mh)) = map skel its).
    { intros mw mh. apply map_exc_state_map. intros y Hy. rewrite Forall_forall in IH. now apply IH. }
    pose proof (resize_to_limit_state_inv (triple_skel its a) (c_width a) (c_height a)
      (Layout.resize_by_width_with rl k a its) (Layout.resize_by_height_with rl k a its) (k, a, its) wl hl
      (conj eq_refl eq_refl) (resize_by_width_with_skel rl its Hrl k a)
      (resize_by_height_with_skel rl its Hrl k a)) as [Hc Hl].
    rewrite Hc, Hl. reflexivity.
Qed.

Lemma resize_children_skel its mw mh : map skel (exc_state (Layout.resize_children its mw mh)) = map skel its.
Proof. apply map_exc_state_map. intros y _. apply resize_to_limit_skel. Qed.

Lemma resize_items_skel c : lskel (exc_state (Layout.resize_items c)) = lskel c.
Proof.
  destruct c as [cid ck ca citems]. unfold Layout.resize_items, lskel. rewrite exc_state_map. simpl.
  rewrite (resize_items_with_skel _ citems (resize_children_skel citems)). reflexivity.
Qed.

(** [add_item] of an object that is not a child: either refused, the
    container untouched, or appended below capacity. *)
Lemma add_item_skel c x :
  Forall (fun y => same_object x y = false) (l_items c) ->
  lskel (exc_state (Layout.add_item c x)) = lskel c \/
  (count (l_items c) < c_capacity (l_attrs c) /\
   lskel (exc_state (Layout.add_item c x)) =
   SNode (l_id c) (c_capacity (l_attrs c)) (map skel (l_items c) ++ [skel x])).
Proof.
  intros Hf. pose proof (Layout.probe_fresh_pure c x Hf) as Hp.
  pose proof (Layout.probe_true_not_full c x) as Hn.
  unfold Layout.add_item. destruct (Layout.can_next_item_fit c x) as [[|] c1]; simpl in Hp, Hn; subst c1.
  - right. split; [auto|]. rewrite resize_items_skel. unfold lskel. simpl. now rewrite map_app.
  - left. reflexivity.
Qed.

(** [add_item] of an object that is not a child, when it returns: the
    object was appended below capacity. *)
Lemma add_item_skel_ok c x c' :
  Forall (fun y => same_object x y = false) (l_items c) -> Layout.add_item c x = Ok c' ->
  count (l_items c) < c_capacity (l_attrs c) /\
  lskel c' = SNode (l_id c) (c_capacity (l_attrs c)) (map skel (l_items c) ++ [skel x]).
Proof.
  intros Hf E. pose proof (Layout.probe_fresh_pure c x Hf) as Hp.
  pose proof (Layout.probe_true_not_full c x) as Hn.
  unfold Layout.add_item in E. destruct (Layout.can_next_item_fit c x) as [[|] c1]; simpl in Hp, Hn;
    subst c1; [|discriminate].
  split; [auto|]. pose proof (resize_items_skel (with_items c (l_items c ++ [x]))) as R.
  rewrite E in R. simpl in R. rewrite R. unfold lskel. simpl. now rewrite map_app.
Qed.

(** Whatever its outcome, [add_item] keeps the container's attributes. *)
Lemma add_item_attrs c x : l_attrs (exc_state (Layout.add_item c x)) = l_attrs c.
Proof.
  pose proof (Layout.probe_state c x) as (_ & _ & Ha & _).
  unfold Layout.add_item. destruct (Layout.can_next_item_fit c x) as [[|] c1]; simpl in *;
    [rewrite Layout.resize_items_attrs|]; exact Ha.
Qed.

End Methods.

(** Writing a container with the attributes it had back into the tree
    keeps the attributes of the root. *)
Lemma set_at_root_attrs m p c c' m' :
  sub_at m p = Some c -> set_at m p c' = Some m' -> l_attrs c' = l_attrs c -> l_attrs m' = l_attrs m.
Proof.
  destruct p as [|i p]; simpl; intros Hs Hset Ha.
  - inversion Hs; inversion Hset; subst. exact Ha.
  - destruct (nth_error (l_items m) i) as [[| |lid k a its]|]; try discriminate.
    destruct (set_at _ p c') as [d'|]; simpl in Hset; [|discriminate]. inversion Hset. reflexivity.
Qed.
