(* ===== verification/Heuristics.v ===== *)
(** The generator's tables and its two classifiers (layouts_generator.py
    13-139, 217-223, 369-399).

    [layout_type] names the three heuristic dictionaries, listed in the
    order of [LAYOUT_HEURISTICS.values()]; the fields the generator reads
    are functions of it.  [aspect] names the keys of
    [ASPECT_RATIO_RANGES], whose ranges are the float literals of the
    source.  [get_aspect_ratio_dict_key] and the image sorting run on
    binary64 floats as CPython does; [get_list_of_eligible_layouts]
    compares ints with [main_width * fraction] through [py_frac_ge]. *)

From Stdlib Require Import ZArith List Lia Bool Floats.
From S2P Require Import Prelude PyNum Image.
Import ListNotations.
Open Scope Z_scope.

Import Image (image, mkImage, img_id, img_w, img_h).

Set Warnings "-inexact-float".

(** ** Tables *)

Inductive layout_type : Type := HorizontalLayout | VerticalLayout | GridLayout.

Definition layout_type_eqb (s t : layout_type) : bool :=
  match s, t with
  | HorizontalLayout, HorizontalLayout | VerticalLayout, VerticalLayout
  | GridLayout, GridLayout => true
  | _, _ => false
  end.

(** [LAYOUT_HEURISTICS.values()], in insertion order. *)
Definition LAYOUT_HEURISTICS : list layout_type := [HorizontalLayout; VerticalLayout; GridLayout].

(** ["minimum_width"] and ["minimum_height"] as the fractions their
    literals denote: [0.25] and [0.3]. *)
Definition minimum_width (t : layout_type) : Z * Z :=
  match t with HorizontalLayout | VerticalLayout => (1, 4) | GridLayout => (3, 10) end.
Definition minimum_height (t : layout_type) : Z * Z :=
  match t with HorizontalLayout | VerticalLayout => (1, 4) | GridLayout => (3, 10) end.

(** ["minimum_capacity_for_child_containers"], ["maximum_..."]. *)
Definition child_containers_range (t : layout_type) : Z * Z :=
  match t with HorizontalLayout | VerticalLayout => (2, 3) | GridLayout => (0, 0) end.

(** ["minimum_capacity"], ["maximum_capacity"] of the row and column
    heuristics; the grid's rows and columns. *)
Definition capacity_range : Z * Z := (1, 3).
Definition grid_rows_range : Z * Z := (2, 3).
Definition grid_columns_range : Z * Z := (2, 3).

(** [GENERAL_SETTINGS["max_levels_to_nest"]]. *)
Definition max_levels_to_nest : Z := 2.

(** [SCREEN_RESOLUTIONS["1080p"]], the only resolution used. *)
Definition resolution_1080p : Z * Z := (1920, 1080).

(** The [PADDINGS], [GUTTERS] and [COLORS] entries the generator uses. *)
Definition padding_small : list Z := [10; 10; 10; 10].
Definition padding_medium : list Z := [20; 20; 20; 20].
Definition gutters_small : list Z := [10; 10].
Definition gutters_medium : list Z := [20; 20].
Definition color_white : list Z := [255; 255; 255].

Inductive aspect : Type := SquareIsh | PortraitIsh | LandscapeIsh | UltraWide | UltraNarrow.

Definition aspect_eqb (s t : aspect) : bool :=
  match s, t with
  | SquareIsh, SquareIsh | PortraitIsh, PortraitIsh | LandscapeIsh, LandscapeIsh
  | UltraWide, UltraWide | UltraNarrow, UltraNarrow => true
  | _, _ => false
  end.

Lemma aspect_eqb_eq s t : aspect_eqb s t = true <-> s = t.
Proof. destruct s, t; simpl; split; congruence. Qed.

(** [ASPECT_RATIO_RANGES], in insertion order. *)
Definition ASPECT_RATIO_RANGES : list (aspect * (float * float)) :=
  [(SquareIsh, (0.751, 1.250)%float); (PortraitIsh, (1.251, 1.800)%float);
   (LandscapeIsh, (0.561, 0.750)%float); (UltraWide, (1.801, 3.000)%float);
   (UltraNarrow, (0.333, 0.560)%float)].

(** ["aspect_ratio_preference_order"]. *)
Definition aspect_ratio_preference_order (t : layout_type) : list aspect :=
  match t with
  | HorizontalLayout => [LandscapeIsh; SquareIsh; UltraWide; PortraitIsh; UltraNarrow]
  | VerticalLayout => [PortraitIsh; SquareIsh; UltraNarrow; LandscapeIsh; UltraWide]
  | GridLayout => [SquareIsh; PortraitIsh; LandscapeIsh]
  end.

(** ** Aspect-ratio classification *)

(** [get_aspect_ratio(width, height)]: [width / height]. *)
Definition get_aspect_ratio (width height : Z) : float :=
  PrimFloat.div (Ieee.of_Z width) (Ieee.of_Z height).

Fixpoint first_range (r : float) (rs : list (aspect * (float * float))) : option aspect :=
  match rs with
  | [] => None
  | (k, (lo, hi)) :: rest =>
      if PrimFloat.leb lo r && PrimFloat.leb r hi then Some k else first_range r rest
  end.

(** [get_aspect_ratio_dict_key]: the first key whose inclusive range
    holds the ratio. *)
Definition get_aspect_ratio_dict_key (r : float) : option aspect :=
  first_range r ASPECT_RATIO_RANGES.

(** [get_image_width_and_height] (387-388): [image.shape[1], image.shape[0]]. *)
Definition get_image_width_and_height (im : image) : Z * Z := (img_w im, img_h im).

(** The dict of image lists by key, as a function of the key. *)
Definition pool : Type := aspect -> list image.

Definition empty_pool : pool := fun _ => [].

Definition pool_set (pl : pool) (k : aspect) (l : list image) : pool :=
  fun k' => if aspect_eqb k k' then l else pl k'.

(** The sorting loop of [create_aspect_ratio_sorted_list_of_images_from_directory]
    (369-384), after the directory walk: each file that decodes
    ([Some]) is appended to the list of its key, unless unclassified; an
    image of height 0 raises in [width / height]. *)
Fixpoint sort_images (pl : pool) (files : list (option image)) : exc pool :=
  match files with
  | [] => Ok pl
  | None :: rest => sort_images pl rest
  | Some im :: rest =>
      let '(width, height) := get_image_width_and_height im in
      if height =? 0 then Raise ZeroDivisionError pl
      else match get_aspect_ratio_dict_key (get_aspect_ratio width height) with
           | Some k => sort_images (pool_set pl k (pl k ++ [im])) rest
           | None => sort_images pl rest
           end
  end.

Definition create_aspect_ratio_sorted_list_of_images (files : list (option image)) : exc pool :=
  sort_images empty_pool files.

(** ** Layout eligibility *)

Section Eligible.
Context `{N : PyNum}.

Definition eligible_for (proposed_width proposed_height main_width main_height : Z)
    (t : layout_type) : bool :=
  let '(pw, qw) := minimum_width t in
  let '(ph, qh) := minimum_height t in
  py_frac_ge proposed_width main_width pw qw && py_frac_ge proposed_height main_height ph qh.

(** [get_list_of_eligible_layouts] (217-223). *)
Definition get_list_of_eligible_layouts (proposed_width proposed_height main_width main_height : Z)
    : list layout_type :=
  filter (eligible_for proposed_width proposed_height main_width main_height) LAYOUT_HEURISTICS.

End Eligible.

(** ** Properties *)

Section EligibleProps.
Context `{N : PyNum} `{NL : !PyNumLaws N}.

Definition thresholds_ok (pw ph mw mh : Z) : Prop :=
  0 <= pw <= 2 ^ 16 /\ 0 <= ph <= 2 ^ 16 /\ 0 <= mw <= 2 ^ 16 /\ 0 <= mh <= 2 ^ 16.

Lemma frac_true_le x m p q :
  0 <= x <= 2 ^ 16 -> 0 <= m <= 2 ^ 16 -> 0 < p <= 2 ^ 8 -> 0 < q <= 2 ^ 8 ->
  py_frac_ge x m p q = true -> p * m <= q * x.
Proof.
  intros Hx Hm Hp Hq E. destruct (Z.le_gt_cases (p * m) (q * x)) as [|Hlt]; [assumption|].
  rewrite (proj2 (py_frac_ge_sound x m p q Hx Hm Hp Hq)) in E by lia. discriminate.
Qed.

Lemma frac_lt_true x m p q :
  0 <= x <= 2 ^ 16 -> 0 <= m <= 2 ^ 16 -> 0 < p <= 2 ^ 8 -> 0 < q <= 2 ^ 8 ->
  p * m < q * x -> py_frac_ge x m p q = true.
Proof. intros Hx Hm Hp Hq. apply (py_frac_ge_sound x m p q Hx Hm Hp Hq). Qed.

Lemma eligible_for_sound pw ph mw mh t :
  thresholds_ok pw ph mw mh -> eligible_for pw ph mw mh t = true ->
  fst (minimum_width t) * mw <= snd (minimum_width t) * pw /\
  fst (minimum_height t) * mh <= snd (minimum_height t) * ph.
Proof.
  intros (R1 & R2 & R3 & R4) E.
  destruct t; cbn [eligible_for minimum_width minimum_height fst snd] in *;
    apply andb_prop in E as [E1 E2]; split; eapply frac_true_le; eauto; lia.
Qed.

Lemma eligible_for_complete pw ph mw mh t :
  thresholds_ok pw ph mw mh ->
  fst (minimum_width t) * mw < snd (minimum_width t) * pw ->
  fst (minimum_height t) * mh < snd (minimum_height t) * ph ->
  eligible_for pw ph mw mh t = true.
Proof.
  intros (R1 & R2 & R3 & R4) Hw Hh.
  destruct t; cbn [eligible_for minimum_width minimum_height fst snd] in *;
    rewrite (frac_lt_true pw mw), (frac_lt_true ph mh); auto; lia.
Qed.

(** C19: a layout type is eligible for a proposed
    box when the box reaches the type's fraction of the main container on
    both axes: every eligible type does (up to the rounding of the float
    product on an exact tie), and every type it strictly exceeds is
    eligible. *)
Theorem eligible_layouts_spec pw ph mw mh t :
  thresholds_ok pw ph mw mh ->
  (In t (get_list_of_eligible_layouts pw ph mw mh) ->
   fst (minimum_width t) * mw <= snd (minimum_width t) * pw /\
   fst (minimum_height t) * mh <= snd (minimum_height t) * ph) /\
  (fst (minimum_width t) * mw < snd (minimum_width t) * pw ->
   fst (minimum_height t) * mh < snd (minimum_height t) * ph ->
   In t (get_list_of_eligible_layouts pw ph mw mh)).
Proof.
  intros R. unfold get_list_of_eligible_layouts. split.
  - intros Hin. apply filter_In in Hin as [_ E]. exact (eligible_for_sound _ _ _ _ _ R E).
  - intros Hw Hh. apply filter_In. split; [destruct t; simpl; auto|].
    exact (eligible_for_complete _ _ _ _ _ R Hw Hh).
Qed.

(** the horizontal and the vertical heuristics
    share their thresholds and the grid's are higher, so the eligible
    list is always empty, the two row and column layouts, or all three:
    a box never offers the grid alone. *)
Theorem eligible_layouts_shape pw ph mw mh :
  thresholds_ok pw ph mw mh -> 0 < mw -> 0 < mh ->
  let l := get_list_of_eligible_layouts pw ph mw mh in
  l = [] \/ l = [HorizontalLayout; VerticalLayout] \/ l = LAYOUT_HEURISTICS.
Proof.
  intros R Hmw Hmh l. subst l. unfold get_list_of_eligible_layouts, LAYOUT_HEURISTICS. simpl.
  assert (Hhv : eligible_for pw ph mw mh VerticalLayout = eligible_for pw ph mw mh HorizontalLayout)
    by reflexivity.
  rewrite Hhv. destruct (eligible_for pw ph mw mh GridLayout) eqn:G.
  - apply eligible_for_sound in G as [Gw Gh]; [|exact R].
    cbn [minimum_width minimum_height fst snd] in Gw, Gh.
    rewrite (eligible_for_complete pw ph mw mh HorizontalLayout R)
      by (cbn [minimum_width minimum_height fst snd]; lia). auto.
  - destruct (eligible_for pw ph mw mh HorizontalLayout); auto.
Qed.

End EligibleProps.

(** C20: [get_aspect_ratio_dict_key] returns a key whose
    range holds the ratio, with every earlier range missing it, and
    returns [None] exactly when no range holds it. *)
Theorem aspect_key_spec r :
  match get_aspect_ratio_dict_key r with
  | Some k => exists pre lo hi post,
      ASPECT_RATIO_RANGES = pre ++ (k, (lo, hi)) :: post /\
      PrimFloat.leb lo r = true /\ PrimFloat.leb r hi = true /\
      Forall (fun e => PrimFloat.leb (fst (snd e)) r && PrimFloat.leb r (snd (snd e)) = false) pre
  | None => Forall (fun e => PrimFloat.leb (fst (snd e)) r && PrimFloat.leb r (snd (snd e)) = false)
              ASPECT_RATIO_RANGES
  end.
Proof.
  unfold get_aspect_ratio_dict_key. generalize ASPECT_RATIO_RANGES as rs.
  induction rs as [|[k [lo hi]] rs IH]; simpl; [constructor|].
  destruct (PrimFloat.leb lo r && PrimFloat.leb r hi) eqn:E.
  - apply andb_prop in E as [E1 E2]. exists [], lo, hi, rs. simpl. auto.
  - destruct (first_range r rs) as [k'|].
    + destruct IH as (pre & lo' & hi' & post & -> & H1 & H2 & H3).
      exists ((k, (lo, hi)) :: pre), lo', hi', post. simpl. auto.
    + constructor; auto.
Qed.

(** Sorting keeps, in each list, images of that key in input order. *)
Lemma sort_images_sound pl files pl' :
  (forall k im, In im (pl k) -> img_h im <> 0 /\
     get_aspect_ratio_dict_key (get_aspect_ratio (img_w im) (img_h im)) = Some k) ->
  sort_images pl files = Ok pl' ->
  forall k im, In im (pl' k) -> In im (pl k) \/
    (In (Some im) files /\ img_h im <> 0 /\
     get_aspect_ratio_dict_key (get_aspect_ratio (img_w im) (img_h im)) = Some k).
Proof.
  revert pl; induction files as [|[im|] rest IH]; intros pl Hpl E k x Hx; simpl in E.
  - inversion E; subst. auto.
  - destruct (Z.eqb_spec (img_h im) 0) as [|Hh]; [discriminate|].
    destruct (get_aspect_ratio_dict_key _) as [k0|] eqn:Ek.
    + assert (Hpl' : forall k im', In im' (pool_set pl k0 (pl k0 ++ [im]) k) -> img_h im' <> 0 /\
        get_aspect_ratio_dict_key (get_aspect_ratio (img_w im') (img_h im')) = Some k).
      { intros k' im' Hin. unfold pool_set in Hin. destruct (aspect_eqb k0 k') eqn:Eq.
        - apply aspect_eqb_eq in Eq. subst k'. apply in_app_or in Hin as [Hin|[<-|[]]]; auto.
        - auto. }
      destruct (IH _ Hpl' E k x Hx) as [Hin|(Hin & H2)]; [|simpl; auto].
      unfold pool_set in Hin. destruct (aspect_eqb k0 k) eqn:Eq.
      * apply aspect_eqb_eq in Eq. subst k. apply in_app_or in Hin as [Hin|[<-|[]]]; simpl; auto.
      * auto.
    + destruct (IH _ Hpl E k x Hx) as [|(? & ?)]; simpl; auto.
  - destruct (IH _ Hpl E k x Hx) as [|(? & ?)]; simpl; auto.
Qed.

(** C21: after the directory is sorted, every list
    of the dict holds only images that decoded, have a nonzero height and
    classify under that list's key. *)
Theorem sort_images_classifies files pl :
  create_aspect_ratio_sorted_list_of_images files = Ok pl ->
  forall k im, In im (pl k) -> In (Some im) files /\ img_h im <> 0 /\
    get_aspect_ratio_dict_key (get_aspect_ratio (img_w im) (img_h im)) = Some k.
Proof.
  intros E k im Hin. destruct (sort_images_sound empty_pool files pl ltac:(intros ? ? [])  E k im Hin)
    as [[]|H]; exact H.
Qed.

(** the ratio is width over height,
    so a 1500 x 1000 photograph (wider than tall) is sorted as
    ["portrait-ish"] and a 1000 x 1500 one (taller than wide) as
    ["landscape-ish"]; a vertical container, which asks for portrait-ish
    images first, is offered wide ones. *)
Theorem portrait_bucket_holds_wide_images :
  get_aspect_ratio_dict_key (get_aspect_ratio 1500 1000) = Some PortraitIsh /\
  get_aspect_ratio_dict_key (get_aspect_ratio 1000 1500) = Some LandscapeIsh /\
  hd_error (aspect_ratio_preference_order VerticalLayout) = Some PortraitIsh.
Proof. vm_compute. auto. Qed.

(** ** Concrete inputs *)

Module HeuristicsRuns.

Lemma eligible_layouts_spec_witness :
  (In HorizontalLayout (@get_list_of_eligible_layouts exact_num 500 300 1880 1040) ->
   fst (minimum_width HorizontalLayout) * 1880 <= snd (minimum_width HorizontalLayout) * 500 /\
   fst (minimum_height HorizontalLayout) * 1040 <= snd (minimum_height HorizontalLayout) * 300) /\
  (fst (minimum_width HorizontalLayout) * 1880 < snd (minimum_width HorizontalLayout) * 500 ->
   fst (minimum_height HorizontalLayout) * 1040 < snd (minimum_height HorizontalLayout) * 300 ->
   In HorizontalLayout (@get_list_of_eligible_layouts exact_num 500 300 1880 1040)).
Proof.
  apply (@eligible_layouts_spec exact_num exact_num_laws 500 300 1880 1040 HorizontalLayout).
  unfold thresholds_ok. lia.
Defined.

Lemma eligible_layouts_shape_witness :
  let l := @get_list_of_eligible_layouts exact_num 600 400 1880 1040 in
  l = [] \/ l = [HorizontalLayout; VerticalLayout] \/ l = LAYOUT_HEURISTICS.
Proof.
  apply (@eligible_layouts_shape exact_num exact_num_laws 600 400 1880 1040); [unfold thresholds_ok | |]; lia.
Defined.

Definition files1 : list (option image) := [Some (mkImage 1 1500 1000); None; Some (mkImage 2 1000 1000)].
Definition sorted1 : pool := match create_aspect_ratio_sorted_list_of_images files1 with Ok pl => pl | Raise _ _ => empty_pool end.

Lemma sort_images_classifies_witness :
  In (Some (mkImage 1 1500 1000)) files1 /\ img_h (mkImage 1 1500 1000) <> 0 /\
  get_aspect_ratio_dict_key (get_aspect_ratio 1500 1000) = Some PortraitIsh.
Proof.
  apply (sort_images_classifies files1 sorted1); [vm_compute; reflexivity | vm_compute; auto].
Defined.

End HeuristicsRuns.
