(* ===== verification/Directory.v ===== *)
(** The directory side of the image sorting (layouts_generator.py 58-62
    and 365-425): which files of a directory walk are taken as images,
    how their paths are formed, and the sorting of what they decode to.

    [os.walk] and [cv2.imread] are input: the walk is the list of its
    [(root, files)] pairs in the order [os.walk] yields them, and
    [open_image_file] is a function from paths to decoded images
    ([None] for a file cv2 cannot decode), an image standing for its
    path in the dict.  Strings are ASCII; [str.lower] is modelled on
    ASCII letters, which is all it changes in ASCII text. *)

From Stdlib Require Import List String Ascii Bool Lia.
From S2P Require Import Prelude PyNum Image Heuristics.
Import ListNotations.
Open Scope string_scope.

Import Image (image).

(** [SUPPORTED_IMAGE_EXTENSIONS] (58-62); a set, tested by membership. *)
Definition SUPPORTED_IMAGE_EXTENSIONS : list string := ["jpg"; "jpeg"; "png"].

(** [str.lower] on one ASCII character. *)
Definition lower_char (c : ascii) : ascii :=
  let n := nat_of_ascii c in
  if Nat.leb 65 n && Nat.leb n 90 then ascii_of_nat (n + 32) else c.

Fixpoint lower (s : string) : string :=
  match s with
  | EmptyString => EmptyString
  | String c s' => String (lower_char c) (lower s')
  end.

(** [s.split(sep)]: the pieces between the separators; there is always
    at least one. *)
Fixpoint split (sep : ascii) (s : string) : list string :=
  match s with
  | EmptyString => [EmptyString]
  | String c s' =>
      let rest := split sep s' in
      if Ascii.eqb c sep then EmptyString :: rest
      else match rest with
           | w :: ws => String c w :: ws
           | [] => [String c EmptyString]
           end
  end.

(** The test of line 409:
    [file.split(".")[-1].lower() in SUPPORTED_IMAGE_EXTENSIONS]. *)
Definition is_supported (file : string) : bool :=
  existsb (String.eqb (lower (last (split "." file) EmptyString))) SUPPORTED_IMAGE_EXTENSIONS.

Definition starts_with_slash (s : string) : bool :=
  match s with
  | String c _ => Ascii.eqb c "/"
  | EmptyString => false
  end.

Fixpoint ends_with_slash (s : string) : bool :=
  match s with
  | EmptyString => false
  | String c EmptyString => Ascii.eqb c "/"
  | String _ s' => ends_with_slash s'
  end.

(** [os.path.join(root, file)]: posixpath's [join] of two parts. *)
Definition path_join (a b : string) : string :=
  if starts_with_slash b then b
  else if String.eqb a "" || ends_with_slash a then a ++ b
  else a ++ "/" ++ b.

(** [get_list_of_images_from_directory] (402-418): for each directory of
    the walk, in order, the joined paths of its supported files. *)
Definition get_list_of_images_from_directory (walk : list (string * list string)) : list string :=
  flat_map (fun rf => map (path_join (fst rf)) (filter is_supported (snd rf))) walk.

(** [create_aspect_ratio_sorted_list_of_images_from_directory]
    (369-384): the paths of the walk, each read by [open_image_file]
    (422-425), sorted into the dict. *)
Definition create_aspect_ratio_sorted_list_of_images_from_directory
    (walk : list (string * list string)) (open_image_file : string -> option image) : exc pool :=
  create_aspect_ratio_sorted_list_of_images (map open_image_file (get_list_of_images_from_directory walk)).

(** ** Which files are taken *)

(** A path is listed exactly when it joins the root of a directory of the
    walk with one of its files that passes the extension test. *)
Theorem get_list_of_images_from_directory_spec walk p :
  In p (get_list_of_images_from_directory walk) <->
  exists root files file, In (root, files) walk /\ In file files /\ is_supported file = true /\
                          p = path_join root file.
Proof.
  unfold get_list_of_images_from_directory. rewrite in_flat_map. split.
  - intros ([root files] & Hw & Hp). apply in_map_iff in Hp as (file & <- & Hf).
    apply filter_In in Hf as [Hf Hs]. exists root, files, file. auto.
  - intros (root & files & file & Hw & Hf & Hs & ->). exists (root, files). split; [exact Hw|].
    apply in_map. apply filter_In. auto.
Qed.

(** The last piece of a name without a dot is the whole name. *)
Lemma split_no_dot s : (forall c, In c (list_ascii_of_string s) -> c <> "."%char) -> split "." s = [s].
Proof.
  induction s as [|c s IH]; intros H; simpl; [reflexivity|].
  rewrite IH by (intros d Hd; apply H; simpl; auto).
  destruct (Ascii.eqb_spec c "."); [exfalso; apply (H c); simpl; auto | reflexivity].
Qed.

(** A file whose whole name is [jpg], [jpeg] or [png] in any case, with no
    extension at all, is taken for an image. *)
Theorem extensionless_name_is_supported file :
  (forall c, In c (list_ascii_of_string file) -> c <> "."%char) ->
  In (lower file) SUPPORTED_IMAGE_EXTENSIONS -> is_supported file = true.
Proof.
  intros Hd Hin. unfold is_supported. rewrite split_no_dot by exact Hd. cbn [last].
  apply existsb_exists. exists (lower file). split; [exact Hin | apply String.eqb_refl].
Qed.

Module DirectoryRuns.

(** A walk of a directory with a subdirectory. *)
Definition walk1 : list (string * list string) :=
  [("test_images_3", ["a.JPG"; "notes.txt"; "png"; "b.png.bak"]); ("test_images_3/sub/", ["c.jpeg"])].

Example get_list_of_images_walk1 :
  get_list_of_images_from_directory walk1 = ["test_images_3/a.JPG"; "test_images_3/png"; "test_images_3/sub/c.jpeg"].
Proof. reflexivity. Qed.

Lemma extensionless_name_is_supported_witness : is_supported "PNG" = true.
Proof.
  apply extensionless_name_is_supported.
  - simpl. intros c [<-|[<-|[<-|[]]]]; discriminate.
  - simpl. auto.
Defined.

End DirectoryRuns.
