(* ===== verification/PyDict.v ===== *)
(** Python dicts with string keys, as association lists in insertion
    order ([dict_set], [dict_get]) built from a dict display
    ([dict_literal]); and the [COLORS] dict of layouts_generator.py
    (13-36), the first of the three copies of that display in the
    repository, of which the generator reads only ["white"]. *)

From Stdlib Require Import ZArith List String.
From S2P Require Import Prelude Heuristics.
Import ListNotations.
Open Scope Z_scope.

(** [d[k] = v]: replaces the value of a present key in place, appends a
    new key at the end (dicts keep insertion order). *)
Fixpoint dict_set {V} (k : string) (v : V) (d : list (string * V)) : list (string * V) :=
  match d with
  | [] => [(k, v)]
  | (k', v') :: d' => if String.eqb k k' then (k, v) :: d' else (k', v') :: dict_set k v d'
  end.

(** [d[k]]; [None] is [KeyError]. *)
Fixpoint dict_get {V} (k : string) (d : list (string * V)) : option V :=
  match d with
  | [] => None
  | (k', v) :: d' => if String.eqb k k' then Some v else dict_get k d'
  end.

(** A dict display [{k1: v1, k2: v2, ...}]: the pairs stored left to
    right, so a repeated key keeps its first position and its last
    value. *)
Definition dict_literal {V} (l : list (string * V)) : list (string * V) :=
  fold_left (fun d kv => dict_set (fst kv) (snd kv) d) l [].

Module LayoutsGeneratorColors.

(** [COLORS] (13-36), as written: "white" and "black" appear twice. *)
Definition COLORS_literal : list (string * (Z * Z * Z)) :=
  [("white", (255, 255, 255)); ("black", (0, 0, 0)); ("red", (255, 0, 0));
   ("orange", (255, 165, 0)); ("yellow", (255, 255, 0)); ("green", (0, 128, 0));
   ("blue", (0, 0, 255)); ("purple", (128, 0, 128)); ("pink", (255, 192, 203));
   ("brown", (165, 42, 42)); ("white", (255, 255, 255)); ("black", (0, 0, 0));
   ("gray", (128, 128, 128)); ("maroon", (128, 0, 0)); ("olive", (128, 128, 0));
   ("teal", (0, 128, 128)); ("navy", (0, 0, 128)); ("aqua", (0, 255, 255));
   ("fuchsia", (255, 0, 255)); ("lime", (0, 255, 0)); ("silver", (192, 192, 192));
   ("gold", (255, 215, 0))]%string.

Definition COLORS : list (string * (Z * Z * Z)) := dict_literal COLORS_literal.

End LayoutsGeneratorColors.

Lemma dict_get_set_eq {V} k (v : V) d : dict_get k (dict_set k v d) = Some v.
Proof.
  induction d as [|[k' v'] d IH]; simpl; [now rewrite String.eqb_refl|].
  destruct (String.eqb_spec k k') as [<-|Hne]; simpl; [now rewrite String.eqb_refl|].
  apply String.eqb_neq in Hne. now rewrite Hne.
Qed.

Lemma dict_get_set_ne {V} k k' (v : V) d : k' <> k -> dict_get k' (dict_set k v d) = dict_get k' d.
Proof.
  intros Hne. apply String.eqb_neq in Hne.
  induction d as [|[k0 v0] d IH]; simpl; [now rewrite Hne|].
  destruct (String.eqb_spec k k0) as [<-|_]; simpl; [now rewrite Hne|].
  now rewrite IH.
Qed.

(** [COLORS["white"]], which the generator passes as every container's
    background (201, 275), is the colour [Heuristics] uses: the second
    "white" of the display rewrites the first with the same value. *)
Lemma generator_white :
  match dict_get "white"%string LayoutsGeneratorColors.COLORS with
  | Some (r, g, b) => [r; g; b]
  | None => []
  end = color_white.
Proof. reflexivity. Qed.
