(* ===== verification/GenMonad.v ===== *)
(** The effects of layouts_generator.py: a state, exception and fuel monad.

    The state [gstate] is what the generator's functions share: the main
    container (the store its references point into, see [Tree]), the
    dict of image paths sorted by aspect ratio, the position on the
    random tape, and the next fresh object identity.  A computation ends
    normally ([Done]), raises with the state reached ([Thrown]: Python
    keeps every mutation made before the raise), or runs out of fuel
    ([OutOfFuel]), which only the bounded recursion of the generator
    uses.

    Randomness is an oracle [nat -> Z] fixed for a run: the [n]-th call
    of [random.randint(a, b)] returns [a + oracle n mod (b - a + 1)] and
    the [n]-th call of [random.choice(l)] the element at
    [oracle n mod len(l)].  Every theorem quantifies over the oracle, so
    it holds for every sequence of values the random module can return.

    Container methods called through a reference ([probe_at], [add_at])
    read the container at the path, run the method of [Container] on it
    and write the resulting state back, also when the method raises.

    Reasoning: [total] and [approx] (a computation with more fuel agrees
    wherever one with less has a result) for the fuel, and a Hoare logic
    [hoare P m Q E] (normal results satisfy [Q], raises [E]) with rules
    for the binds, consequence, naming the current state, and each
    primitive. *)

From Stdlib Require Import ZArith List Lia Bool.
From S2P Require Import Prelude PyNum Image Items Logic Frame Container Tree Heuristics.
Import ListNotations.
Open Scope Z_scope.

Record gstate : Type := mkG {
  g_main : layout;
  g_pool : pool;
  g_tape : nat;
  g_fresh : nat
}.

Inductive outcome (A : Type) : Type :=
| Done (a : A) (s : gstate)
| Thrown (e : exn) (s : gstate)
| OutOfFuel.
Arguments Done {A} a s.
Arguments Thrown {A} e s.
Arguments OutOfFuel {A}.

Definition G (A : Type) : Type := gstate -> outcome A.

Definition gret {A} (a : A) : G A := fun s => Done a s.

Definition gbind {A B} (m : G A) (k : A -> G B) : G B :=
  fun s => match m s with
           | Done a s' => k a s'
           | Thrown e s' => Thrown e s'
           | OutOfFuel => OutOfFuel
           end.

Definition throw {A} (e : exn) : G A := fun s => Thrown e s.

Declare Scope gen_scope.
Delimit Scope gen_scope with gen.
Notation "x <- m ;; k" := (gbind m (fun x => k))
  (at level 61, m at next level, right associativity) : gen_scope.
Notation "m ;; k" := (gbind m (fun _ => k))
  (at level 61, right associativity) : gen_scope.
Open Scope gen_scope.

(** ** State *)

Definition with_main (s : gstate) (c : layout) : gstate :=
  mkG c (g_pool s) (g_tape s) (g_fresh s).
Definition with_pool (s : gstate) (pl : pool) : gstate :=
  mkG (g_main s) pl (g_tape s) (g_fresh s).
Definition tick (s : gstate) : gstate :=
  mkG (g_main s) (g_pool s) (S (g_tape s)) (g_fresh s).

(** A new object: its identity. *)
Definition fresh_id : G nat :=
  fun s => Done (g_fresh s) (mkG (g_main s) (g_pool s) (g_tape s) (S (g_fresh s))).

Definition get_pool : G pool := fun s => Done (g_pool s) s.
Definition put_pool (pl : pool) : G unit := fun s => Done tt (with_pool s pl).

(** Reading and writing through a reference; a path that leads nowhere
    would be an [IndexError], which the generator never meets
    ([Generator.generate_random_layouts_paths_valid]). *)
Definition get_at (p : path) : G layout :=
  fun s => match sub_at (g_main s) p with
           | Some c => Done c s
           | None => Thrown IndexError s
           end.

Definition put_at (p : path) (c : layout) : G unit :=
  fun s => match set_at (g_main s) p c with
           | Some m => Done tt (with_main s m)
           | None => Thrown IndexError s
           end.

Section Oracle.
Context `{N : PyNum}.
Variable oracle : nat -> Z.

(** [random.randint(a, b)]. *)
Definition randint (a b : Z) : G Z :=
  fun s => if b <? a then Thrown ValueError s
           else Done (a + oracle (g_tape s) mod (b - a + 1)) (tick s).

(** [random.choice(l)]. *)
Definition choice {A} (l : list A) : G A :=
  fun s => match nth_error l (Z.to_nat (oracle (g_tape s) mod Z.of_nat (length l))) with
           | Some x => Done x (tick s)
           | None => Thrown IndexError s
           end.

End Oracle.

Section Methods.
Context `{N : PyNum}.

(** [container.can_next_item_fit(x)] through a reference. *)
Definition probe_at (p : path) (x : item) : G bool :=
  c <- get_at p ;;
  let '(b, c') := Layout.can_next_item_fit c x in
  put_at p c' ;; gret b.

(** [container.add_item(x)] through a reference. *)
Definition add_at (p : path) (x : item) : G unit :=
  c <- get_at p ;;
  match Layout.add_item c x with
  | Ok c' => put_at p c'
  | Raise e c' => put_at p c' ;; throw e
  end.

End Methods.

(** ** Reasoning about computations *)

(** A property of the final state, when there is one. *)
Definition out_holds {A} (P : gstate -> Prop) (o : outcome A) : Prop :=
  match o with
  | Done _ s' | Thrown _ s' => P s'
  | OutOfFuel => True
  end.


(** ** Fuel *)

(** [m] never runs out of fuel. *)
Definition total {A} (m : G A) : Prop := forall s, m s <> OutOfFuel.

(** [m'] agrees with [m] wherever [m] has enough fuel: the order of the
    fuel-indexed approximations. *)
Definition approx {A} (m m' : G A) : Prop := forall s, m s <> OutOfFuel -> m' s = m s.

Lemma total_ret {A} (a : A) : total (gret a).
Proof. intros s; discriminate. Qed.

Lemma total_throw {A} e : total (@throw A e).
Proof. intros s; discriminate. Qed.

Lemma total_bind {A B} (m : G A) (k : A -> G B) :
  total m -> (forall a, total (k a)) -> total (gbind m k).
Proof.
  intros Hm Hk s. unfold gbind. specialize (Hm s).
  destruct (m s); [apply Hk | discriminate | contradiction].
Qed.

Lemma total_fresh_id : total fresh_id.
Proof. intros s; discriminate. Qed.

Lemma total_get_pool : total get_pool.
Proof. intros s; discriminate. Qed.

Lemma total_put_pool pl : total (put_pool pl).
Proof. intros s; discriminate. Qed.

Lemma total_get_at p : total (get_at p).
Proof. intros s. unfold get_at. destruct (sub_at _ _); discriminate. Qed.

Lemma total_put_at p c : total (put_at p c).
Proof. intros s. unfold put_at. destruct (set_at _ _ _); discriminate. Qed.

Lemma total_randint `{PyNum} o a b : total (randint o a b).
Proof. intros s. unfold randint. destruct (b <? a); discriminate. Qed.

Lemma total_choice `{PyNum} {A} o (l : list A) : total (choice o l).
Proof. intros s. unfold choice. destruct (nth_error _ _); discriminate. Qed.

Create HintDb gen.
#[export] Hint Resolve total_ret total_throw total_fresh_id total_get_pool total_put_pool
  total_get_at total_put_at total_randint total_choice : gen.

(** Proves [total] of a program built from total primitives. *)
Ltac total_tac :=
  repeat match goal with
         | |- total (gbind _ _) => apply total_bind; [|intros]
         | |- total (if ?b then _ else _) => destruct b
         | |- total (match ?x with _ => _ end) => destruct x
         end; auto with gen.

Lemma total_probe_at `{PyNum} p x : total (probe_at p x).
Proof. unfold probe_at. total_tac. Qed.

Lemma total_add_at `{PyNum} p x : total (add_at p x).
Proof. unfold add_at. total_tac. Qed.

#[export] Hint Resolve total_probe_at total_add_at : gen.

Lemma approx_refl {A} (m : G A) : approx m m.
Proof. intros s _; reflexivity. Qed.

Lemma approx_bind {A B} (m m' : G A) (k k' : A -> G B) :
  approx m m' -> (forall a, approx (k a) (k' a)) -> approx (gbind m k) (gbind m' k').
Proof.
  intros Hm Hk s D. unfold gbind in *.
  destruct (m s) as [a s'|e s'|] eqn:E; [| |contradiction].
  - rewrite Hm by congruence. rewrite E. exact (Hk a s' D).
  - rewrite Hm by congruence. rewrite E. reflexivity.
Qed.


#[export] Hint Resolve approx_refl : gen.

(** [random.randint(a, b)] returns a value of [[a, b]]. *)
Lemma randint_range `{PyNum} o a b s v s' :
  randint o a b s = Done v s' -> a <= v <= b /\ s' = tick s.
Proof.
  unfold randint. destruct (Z.ltb_spec b a); intros E; inversion E; subst.
  pose proof (Z.mod_pos_bound (o (g_tape s)) (b - a + 1) ltac:(lia)). split; [lia | reflexivity].
Qed.

Lemma total_bind_randint `{PyNum} {B} o a b (k : Z -> G B) :
  (forall v, a <= v <= b -> total (k v)) -> total (gbind (randint o a b) k).
Proof.
  intros Hk s. unfold gbind. destruct (randint o a b s) as [v s'|e s'|] eqn:E; try discriminate.
  - apply (randint_range o a b s v s') in E as [R _]. apply Hk; exact R.
  - exfalso; exact (total_randint o a b s E).
Qed.

(** ** A Hoare logic for the generator

    [hoare P m Q E]: from a state satisfying [P], [m] ends normally in a
    state satisfying [Q] of its result, or raises in a state satisfying
    [E]; running out of fuel is allowed (termination is proved apart). *)

Definition post {A} (Q : A -> gstate -> Prop) (E : gstate -> Prop) (o : outcome A) : Prop :=
  match o with
  | Done a s' => Q a s'
  | Thrown _ s' => E s'
  | OutOfFuel => True
  end.

Definition hoare {A} (P : gstate -> Prop) (m : G A) (Q : A -> gstate -> Prop) (E : gstate -> Prop) : Prop :=
  forall s, P s -> post Q E (m s).

Section Hoare.
Context {A B : Type}.
Implicit Types (P : gstate -> Prop) (E : gstate -> Prop).

Lemma hoare_ret P (Q : A -> gstate -> Prop) E a : (forall s, P s -> Q a s) -> hoare P (gret a) Q E.
Proof. intros H s Hs. exact (H s Hs). Qed.

Lemma hoare_throw P (Q : A -> gstate -> Prop) E e : (forall s, P s -> E s) -> hoare P (throw e) Q E.
Proof. intros H s Hs. exact (H s Hs). Qed.

Lemma hoare_bind P (R : A -> gstate -> Prop) (Q : B -> gstate -> Prop) E m k :
  hoare P m R E -> (forall a, hoare (R a) (k a) Q E) -> hoare P (gbind m k) Q E.
Proof.
  intros Hm Hk s Hs. specialize (Hm s Hs). unfold gbind.
  destruct (m s) as [a s'|e s'|]; simpl in *; auto. exact (Hk a s' Hm).
Qed.

Lemma hoare_conseq P P' (m : G A) Q Q' E E' :
  hoare P' m Q' E' -> (forall s, P s -> P' s) -> (forall a s, Q' a s -> Q a s) -> (forall s, E' s -> E s) ->
  hoare P m Q E.
Proof.
  intros H HP HQ HE s Hs. specialize (H s (HP s Hs)).
  destruct (m s); simpl in *; auto.
Qed.

(** Naming the state a precondition holds in. *)
Lemma hoare_snap P (m : G A) Q E :
  (forall s0, P s0 -> hoare (fun s => s = s0) m Q E) -> hoare P m Q E.
Proof. intros H s Hs. exact (H s Hs s eq_refl). Qed.

(** A computation that is an equation on the state. *)
Lemma hoare_eq P (m : G A) Q E (f : gstate -> A) :
  (forall s, P s -> m s = Done (f s) s /\ Q (f s) s) -> hoare P m Q E.
Proof. intros H s Hs. destruct (H s Hs) as [-> HQ]. exact HQ. Qed.

(** A fact of the precondition that does not depend on the state. *)
Lemma hoare_pure (F : Prop) P (m : G A) Q E : (F -> hoare P m Q E) -> hoare (fun s => F /\ P s) m Q E.
Proof. intros H s [HF Hs]. exact (H HF s Hs). Qed.

End Hoare.

(** The primitives, for assertions on the store and the fresh counter
    (the random tape and the image pool are framed away). *)
Section Prims.
Context `{PyNum}.
Variable J : layout -> nat -> Prop.
Local Abbreviation Js := (fun s => J (g_main s) (g_fresh s)).
Variable E : gstate -> Prop.
Hypothesis HE : forall s, J (g_main s) (g_fresh s) -> E s.

Lemma hoare_randint o a b : hoare Js (randint o a b) (fun v s => a <= v <= b /\ J (g_main s) (g_fresh s)) E.
Proof.
  intros s Hs. destruct (randint o a b s) as [v s'|e s'|] eqn:R; simpl; auto.
  - apply randint_range in R as [R ->]. auto.
  - unfold randint in R. destruct (b <? a); inversion R; subst; auto.
Qed.

Lemma hoare_choice {A} o (l : list A) : hoare Js (choice o l) (fun x s => In x l /\ J (g_main s) (g_fresh s)) E.
Proof.
  intros s Hs. unfold choice. destruct (nth_error l _) eqn:R; simpl; auto.
  split; [eapply nth_error_In; eauto | exact Hs].
Qed.

Lemma hoare_fresh_id : hoare Js fresh_id (fun n s => g_fresh s = S n /\ J (g_main s) n) E.
Proof. intros s Hs. simpl. auto. Qed.

Lemma hoare_get_at p :
  hoare Js (get_at p) (fun c s => sub_at (g_main s) p = Some c /\ J (g_main s) (g_fresh s)) E.
Proof. intros s Hs. unfold get_at. destruct (sub_at (g_main s) p) eqn:R; simpl; auto. Qed.

End Prims.

Lemma hoare_put_at P p c :
  hoare P (put_at p c) (fun _ s' => exists s, P s /\ set_at (g_main s) p c = Some (g_main s') /\
                                     g_fresh s' = g_fresh s) P.
Proof. intros s Hs. unfold put_at. destruct (set_at _ p c) eqn:E; simpl; eauto. Qed.

(** The primitives for assertions on the whole state, for code that
    reads and writes the image pool. *)
Section StatePrims.
Context `{PyNum}.
Variable P : gstate -> Prop.
Variable E : gstate -> Prop.
Hypothesis HE : forall s, P s -> E s.

Lemma hoare_get_pool : hoare P get_pool (fun pl s => g_pool s = pl /\ P s) E.
Proof. intros s Hs. simpl. auto. Qed.

Lemma hoare_put_pool pl : hoare P (put_pool pl) (fun _ s' => exists s, P s /\ s' = with_pool s pl) E.
Proof. intros s Hs. simpl. eauto. Qed.

(** A drawing keeps an assertion that ignores the random tape. *)
Lemma hoare_choice_tick {A} o (l : list A) :
  (forall s, P s -> P (tick s)) -> hoare P (choice o l) (fun x s => In x l /\ P s) E.
Proof.
  intros Ht s Hs. unfold choice. destruct (nth_error l _) eqn:R; simpl; auto.
  split; [eapply nth_error_In; eauto | auto].
Qed.

Lemma hoare_randint_tick o a b :
  (forall s, P s -> P (tick s)) -> hoare P (randint o a b) (fun v s => a <= v <= b /\ P s) E.
Proof.
  intros Ht s Hs. destruct (randint o a b s) as [v s'|e s'|] eqn:R; simpl; auto.
  - apply randint_range in R as [R ->]. auto.
  - unfold randint in R. destruct (b <? a); inversion R; subst; auto.
Qed.

End StatePrims.
