(* ===== verification/Generator.v ===== *)
(** The layout-tree generator (layouts_generator.py 189-362).

    [generate_random_layouts] builds the 1080p main container and calls
    [generate_random_sub_layouts], which picks an eligible layout type,
    creates a container of it, probes and adds it to the current parent
    and, while nesting levels remain, proposes child boxes with
    [generate_random_sub_dimensions] (the best of 50 jittered partitions)
    and recurses into the new container for each box.  It returns the
    references of the bottom-level containers.

    The recursion of [generate_random_sub_layouts] decreases
    [nesting_level]; it is written with fuel ([OutOfFuel] when the fuel
    is spent) and [generate_random_layouts_terminates] shows that the
    fuel [max_levels_to_nest] never runs out.  The loops over
    [range(number_of_children - 1)] and [range(50)] are structural.
    Every Python reference to a container is a path into the main
    container (see [Tree]); the main container's own attributes never
    change during generation (only its children do), so its drawable
    size is passed as a value. *)

From Stdlib Require Import ZArith List Lia Bool.
From S2P Require Import Prelude PyNum Image Items Logic Frame Container Factory Tree Heuristics GenMonad.
Import ListNotations.
Open Scope Z_scope.
Open Scope gen_scope.

Import Image (image, mkImage, img_id, img_w, img_h).

(** A proposed child box with its eligible layout types. *)
Definition info : Type := (Z * Z * list layout_type)%type.

Section Generator.
Context `{N : PyNum}.
Variable oracle : nat -> Z.

Local Abbreviation randint := (randint oracle).
Local Abbreviation choice := (choice oracle).

(** A factory call: the new object, or the exception of its constructor. *)
Definition built_layout (b : built layout) : G layout :=
  match b with Built c => gret c | Failed e => throw e end.

(** [create_layout_from_type] (272-300): medium padding and gutters, a
    white background, the default minimum content size; a random
    capacity for rows and columns, random rows and columns for a grid. *)
Definition create_layout_from_type (t : layout_type) (proposed_width proposed_height : Z) : G layout :=
  match t with
  | HorizontalLayout =>
      capacity <- randint (fst capacity_range) (snd capacity_range) ;;
      id <- fresh_id ;;
      built_layout (Construct.create_horizontal_container id proposed_width proposed_height capacity
        (Construct.ints padding_medium) (Construct.ints color_white) (Construct.ints gutters_medium)
        ContainerItem.DEFAULT_MINIMUM_CONTENT_WIDTH ContainerItem.DEFAULT_MINIMUM_CONTENT_HEIGHT)
  | VerticalLayout =>
      capacity <- randint (fst capacity_range) (snd capacity_range) ;;
      id <- fresh_id ;;
      built_layout (Construct.create_vertical_container id proposed_width proposed_height capacity
        (Construct.ints padding_medium) (Construct.ints color_white) (Construct.ints gutters_medium)
        ContainerItem.DEFAULT_MINIMUM_CONTENT_WIDTH ContainerItem.DEFAULT_MINIMUM_CONTENT_HEIGHT)
  | GridLayout =>
      rows <- randint (fst grid_rows_range) (snd grid_rows_range) ;;
      columns <- randint (fst grid_columns_range) (snd grid_columns_range) ;;
      id <- fresh_id ;;
      built_layout (Construct.create_grid_container id proposed_width proposed_height rows columns
        (Construct.ints padding_medium) (Construct.ints color_white) (Construct.ints gutters_medium)
        ContainerItem.DEFAULT_MINIMUM_CONTENT_WIDTH ContainerItem.DEFAULT_MINIMUM_CONTENT_HEIGHT)
  end.

(** The loop [for i in range(number_of_children - 1)] (330-336): a
    width and a height jitter per round, [int(r / 100 * share)], and the
    box appended twice. *)
Fixpoint jitter (k : nat) (width_for_each_child height_for_each_child : Z) : G (list (Z * Z)) :=
  match k with
  | O => gret []
  | S k' =>
      rw <- randint 80 120 ;;
      rh <- randint 80 120 ;;
      let d := (py_scale width_for_each_child rw 100, py_scale height_for_each_child rh 100) in
      rest <- jitter k' width_for_each_child height_for_each_child ;;
      gret (d :: d :: rest)
  end.

(** The loop over [children_dimensions] (344-350): the boxes with at
    least one eligible layout type. *)
Definition eligible_dims (main_width main_height : Z) (dims : list (Z * Z)) : list info :=
  flat_map (fun d =>
    match get_list_of_eligible_layouts (fst d) (snd d) main_width main_height with
    | [] => []
    | l => [(fst d, snd d, l)]
    end) dims.

(** [generate_eligible_layouts_for_dimensions] (319-351): the parent's
    drawable box shared by [number_of_children] with [int(x / n)]. *)
Definition generate_eligible_layouts_for_dimensions (parent_width parent_height number_of_children : Z)
    (main_width main_height : Z) : G (list info) :=
  if number_of_children =? 0 then throw ZeroDivisionError
  else
    dims <- jitter (Z.to_nat (number_of_children - 1))
              (py_div parent_width number_of_children) (py_div parent_height number_of_children) ;;
    gret (eligible_dims main_width main_height dims).

(** [get_unused_space_for_eligible_layouts] (354-362). *)
Definition get_unused_space_for_eligible_layouts (infos : list info) (parent_width parent_height : Z) : Z :=
  (parent_width - sumZ (map (fun i => fst (fst i)) infos)) +
  (parent_height - sumZ (map (fun i => snd (fst i)) infos)).

(** The loop [for i in range(50)] of [generate_random_sub_dimensions]:
    a trial replaces the best one only when strictly better. *)
Fixpoint trials (k : nat) (parent_width parent_height number_of_children main_width main_height : Z)
    (lowest_unused_space : Z) (best : list info) : G (list info) :=
  match k with
  | O => gret best
  | S k' =>
      e <- generate_eligible_layouts_for_dimensions parent_width parent_height number_of_children
             main_width main_height ;;
      let unused_space := get_unused_space_for_eligible_layouts e parent_width parent_height in
      if unused_space <? lowest_unused_space
      then trials k' parent_width parent_height number_of_children main_width main_height unused_space e
      else trials k' parent_width parent_height number_of_children main_width main_height
             lowest_unused_space best
  end.

(** [generate_random_sub_dimensions] (303-316): the first bound is the
    main container's drawable width plus height. *)
Definition generate_random_sub_dimensions (parent_width parent_height number_of_children : Z)
    (main_width main_height : Z) : G (list info) :=
  trials 50 parent_width parent_height number_of_children main_width main_height
    (main_width + main_height) [].

(** The loop [for width, height, eligible in ...] (262-267): the
    recursive call on each proposed box, the leaves concatenated. *)
Fixpoint children_loop (rec : Z -> Z -> list layout_type -> G (list path)) (l : list info) : G (list path) :=
  match l with
  | [] => gret []
  | (w, h, el) :: rest =>
      leaves <- rec w h el ;;
      others <- children_loop rec rest ;;
      gret (leaves ++ others)
  end.

(** The body of [generate_random_sub_layouts] (226-269), on the
    container at [p], with [rec] for the recursive call.  The new
    container, appended by [add_item], is the last child of [p]; the
    child boxes are proposed from the drawable size of
    [parent_container], as the code passes it. *)
Definition sub_layouts_body
    (rec : path -> Z -> Z -> Z -> list layout_type -> G (list path))
    (p : path) (proposed_width proposed_height : Z) (main_width main_height : Z)
    (nesting_level : Z) (eligible_layouts : list layout_type) : G (list path) :=
  match eligible_layouts with
  | [] => gret [p]
  | _ =>
      random_layout <- choice eligible_layouts ;;
      generated_layout <- create_layout_from_type random_layout proposed_width proposed_height ;;
      fits <- probe_at p (to_item generated_layout) ;;
      if negb fits then gret [p]
      else
        add_at p (to_item generated_layout) ;;
        parent <- get_at p ;;
        let q := p ++ [pred (length (l_items parent))] in
        let remaining_nesting_levels := nesting_level - 1 in
        if remaining_nesting_levels =? 0 then gret [q]
        else
          n <- randint (fst (child_containers_range random_layout))
                       (snd (child_containers_range random_layout)) ;;
          if n =? 0 then gret [q]
          else
            infos <- generate_random_sub_dimensions (max_drawable_width (l_attrs parent))
                       (max_drawable_height (l_attrs parent)) n main_width main_height ;;
            children_loop (fun w h el => rec q w h remaining_nesting_levels el) infos
  end.

(** [generate_random_sub_layouts], its recursion bounded by [fuel]. *)
Fixpoint generate_random_sub_layouts (fuel : nat) (p : path) (proposed_width proposed_height : Z)
    (main_width main_height : Z) (nesting_level : Z) (eligible_layouts : list layout_type)
    : G (list path) :=
  match fuel with
  | O => fun _ => OutOfFuel
  | S fuel' =>
      sub_layouts_body
        (fun q w h l el => generate_random_sub_layouts fuel' q w h main_width main_height l el)
        p proposed_width proposed_height main_width main_height nesting_level eligible_layouts
  end.

Definition set_main (c : layout) : G unit := fun s => Done tt (with_main s c).

(** [generate_random_layouts] (189-214): the main container becomes the
    store; the result is the list of bottom-level references. *)
Definition generate_random_layouts (fuel : nat) : G (list path) :=
  random_max_levels_to_nest <- randint 1 max_levels_to_nest ;;
  random_capacity <- randint (fst capacity_range) (snd capacity_range) ;;
  id <- fresh_id ;;
  main_container <- built_layout (Construct.create_horizontal_container id
                      (fst resolution_1080p) (snd resolution_1080p) random_capacity
                      (Construct.ints padding_small) (Construct.ints color_white)
                      (Construct.ints gutters_small)
                      ContainerItem.DEFAULT_MINIMUM_CONTENT_WIDTH
                      ContainerItem.DEFAULT_MINIMUM_CONTENT_HEIGHT) ;;
  set_main main_container ;;
  generate_random_sub_layouts fuel [] (max_drawable_width (l_attrs main_container))
    (max_drawable_height (l_attrs main_container))
    (max_drawable_width (l_attrs main_container)) (max_drawable_height (l_attrs main_container))
    random_max_levels_to_nest [HorizontalLayout].

End Generator.

(** ** Termination *)

Section Termination.
Context `{N : PyNum}.
Variable oracle : nat -> Z.

Lemma total_built b : total (built_layout b).
Proof. destruct b; simpl; auto with gen. Qed.

Lemma total_set_main c : total (set_main c).
Proof. intros s; discriminate. Qed.

Lemma total_create t w h : total (create_layout_from_type oracle t w h).
Proof. unfold create_layout_from_type. destruct t; total_tac; apply total_built. Qed.

Lemma total_jitter k w h : total (jitter oracle k w h).
Proof. induction k; simpl; total_tac. Qed.

Lemma total_eligible_dims w h n mw mh : total (generate_eligible_layouts_for_dimensions oracle w h n mw mh).
Proof. unfold generate_eligible_layouts_for_dimensions. destruct (n =? 0); total_tac. apply total_jitter. Qed.

Lemma total_trials k w h n mw mh lo best : total (trials oracle k w h n mw mh lo best).
Proof.
  revert lo best; induction k; intros lo best; simpl; [auto with gen|].
  apply total_bind; [apply total_eligible_dims|]. intros e. cbv beta zeta.
  match goal with |- total (if ?b then _ else _) => destruct b end; auto.
Qed.

#[local] Hint Resolve total_built total_set_main total_create total_jitter total_eligible_dims
  total_trials : gen.

(** With at least [nesting_level >= 1] units of fuel the recursion never
    runs out: each recursive call has one level less, and recursion stops
    at level 1. *)
Lemma generate_random_sub_layouts_total fuel : forall p w h mw mh lvl el,
  1 <= lvl -> (Z.to_nat lvl <= fuel)%nat ->
  total (generate_random_sub_layouts oracle fuel p w h mw mh lvl el).
Proof.
  induction fuel as [|fuel IH]; intros p w h mw mh lvl el H1 H2; [lia|].
  simpl. unfold sub_layouts_body. destruct el as [|t el]; [auto with gen|].
  do 3 (apply total_bind; [auto with gen|intros]). destruct (negb _); [auto with gen|].
  do 2 (apply total_bind; [auto with gen|intros]).
  cbv zeta. destruct (Z.eqb_spec (lvl - 1) 0); [auto with gen|].
  apply total_bind; [auto with gen|intros nc]. destruct (nc =? 0); [auto with gen|].
  apply total_bind; [apply total_trials|]. intros infos.
  induction infos as [|[[cw ch] el'] rest IHr]; simpl; [auto with gen|].
  apply total_bind; [apply IH; lia|]. intros; apply total_bind; [exact IHr|auto with gen].
Qed.

(** More fuel never changes a result that was reached. *)
Lemma sub_layouts_body_approx rec rec' p w h mw mh lvl el :
  (forall q w h l el, approx (rec q w h l el) (rec' q w h l el)) ->
  approx (sub_layouts_body oracle rec p w h mw mh lvl el) (sub_layouts_body oracle rec' p w h mw mh lvl el).
Proof.
  intros Hr. unfold sub_layouts_body. destruct el as [|t el]; [apply approx_refl|].
  repeat (apply approx_bind; [apply approx_refl|intros]).
  destruct (negb _); [apply approx_refl|].
  repeat (apply approx_bind; [apply approx_refl|intros]). cbv zeta.
  destruct (_ =? 0); [apply approx_refl|].
  apply approx_bind; [apply approx_refl|intros]. destruct (_ =? 0); [apply approx_refl|].
  apply approx_bind; [apply approx_refl|]. intros infos.
  induction infos as [|[[cw ch] el'] rest IHr]; simpl; [apply approx_refl|].
  apply approx_bind; [apply Hr|]. intros. apply approx_bind; [exact IHr|intros; apply approx_refl].
Qed.

Lemma generate_random_sub_layouts_approx fuel fuel' : (fuel <= fuel')%nat ->
  forall p w h mw mh lvl el,
  approx (generate_random_sub_layouts oracle fuel p w h mw mh lvl el)
         (generate_random_sub_layouts oracle fuel' p w h mw mh lvl el).
Proof.
  revert fuel'; induction fuel as [|fuel IH]; intros [|fuel'] Hle p w h mw mh lvl el s D;
    simpl in *; try lia; try contradiction.
  revert s D. apply sub_layouts_body_approx. intros. apply IH. lia.
Qed.

Lemma generate_random_layouts_total : total (generate_random_layouts oracle (Z.to_nat max_levels_to_nest)).
Proof.
  unfold generate_random_layouts. apply total_bind_randint. intros v Hv.
  do 4 (apply total_bind; [auto with gen|intros]).
  apply generate_random_sub_layouts_total; [lia|]. apply Z2Nat.inj_le; lia.
Qed.

Lemma generate_random_layouts_approx fuel fuel' : (fuel <= fuel')%nat ->
  approx (generate_random_layouts oracle fuel) (generate_random_layouts oracle fuel').
Proof.
  intros Hle. unfold generate_random_layouts.
  repeat (apply approx_bind; [apply approx_refl|intros]).
  apply generate_random_sub_layouts_approx; exact Hle.
Qed.

(** C2: [generate_random_layouts]
    terminates: with fuel at least [max_levels_to_nest] (2) the bounded
    recursion never runs out of fuel, whatever the random values, and its
    outcome (result, exception and final state) is the same for every
    such fuel. *)
Theorem generate_random_layouts_terminates fuel s :
  (Z.to_nat max_levels_to_nest <= fuel)%nat ->
  generate_random_layouts oracle fuel s <> OutOfFuel /\
  generate_random_layouts oracle fuel s = generate_random_layouts oracle (Z.to_nat max_levels_to_nest) s.
Proof.
  intros Hf. pose proof (generate_random_layouts_total s) as T.
  rewrite (generate_random_layouts_approx _ _ Hf s T). split; [exact T | reflexivity].
Qed.

End Termination.

(** ** The tree the generator builds *)

(** The invariant of the store: every object is older than the next
    fresh identity, and every container holds at most its capacity. *)
Definition ginv (m : layout) (f : nat) : Prop :=
  ids_below f (lskel m) = true /\ sk_caps (lskel m) = true.

(** From [(m0, f0)] to [(m, f)]: the invariant holds at the end, the
    tree only grew and no identity was reused. *)
Definition grows (m0 : layout) (f0 : nat) (m : layout) (f : nat) : Prop :=
  ginv m f /\ sk_le (lskel m0) (lskel m) = true /\ (f0 <= f)%nat /\ l_attrs m = l_attrs m0.

(** A container just made by a factory: its identity, no children, a
    capacity of at least 0. *)
Definition new_container (id : nat) (c : layout) : Prop :=
  l_id c = id /\ l_items c = [] /\ 0 <= c_capacity (l_attrs c).

Lemma grows_refl m f : ginv m f -> grows m f m f.
Proof. intros H. split; [exact H | split; [apply sk_le_refl | split; [lia | reflexivity]]]. Qed.

Lemma grows_trans m0 f0 m1 f1 m2 f2 : grows m0 f0 m1 f1 -> grows m1 f1 m2 f2 -> grows m0 f0 m2 f2.
Proof.
  intros (_ & L1 & F1 & A1) (I2 & L2 & F2 & A2). split; [exact I2|].
  split; [eapply sk_le_trans; eauto | split; [lia | congruence]].
Qed.

Lemma grows_fresh m0 f0 m f f' : grows m0 f0 m f -> (f <= f')%nat -> grows m0 f0 m f'.
Proof.
  intros ((Hi & Hc) & L & F & A) Hf. split; [split; [eapply ids_below_mono; eauto | exact Hc]|].
  split; [exact L | split; [lia | exact A]].
Qed.

#[local] Hint Resolve grows_refl grows_trans : gen.

Lemma sk_all_snoc (P : sk -> bool) i cap l y :
  sk_all P (SNode i cap l) = true -> sk_all P y = true -> P (SNode i cap (l ++ [y])) = true ->
  sk_all P (SNode i cap (l ++ [y])) = true.
Proof.
  simpl. intros H Hy Hn. apply andb_prop in H as [_ H]. rewrite Hn, forallb_app, H. simpl. now rewrite Hy.
Qed.

(** Writing back the container at [p] after [add_item] of a new
    subtree [x] (younger than [f], within its capacities): the invariant
    holds and the tree grew. *)
Lemma ginv_add m f p c c' m' x :
  ginv m f -> sub_at m p = Some c -> ids_below f (skel x) = true -> sk_caps (skel x) = true ->
  (lskel c' = lskel c \/ (count (l_items c) < c_capacity (l_attrs c) /\
     lskel c' = SNode (l_id c) (c_capacity (l_attrs c)) (map skel (l_items c) ++ [skel x]))) ->
  set_at m p c' = Some m' -> ginv m' f /\ sk_le (lskel m) (lskel m') = true.
Proof.
  intros [Hi Hc] Hs Hx1 Hx2 Hc' Hset.
  pose proof (sk_all_sub (fun s => Nat.ltb (sk_root s) f) m p c Hi Hs) as Ci.
  pose proof (sk_all_sub node_cap_ok m p c Hc Hs) as Cc.
  assert (Hle : sk_le (lskel c) (lskel c') = true).
  { destruct Hc' as [-> | [_ ->]]; [apply sk_le_refl | rewrite lskel_unfold; apply sk_le_append]. }
  assert (ids_below f (lskel c') = true /\ sk_caps (lskel c') = true) as [Ci' Cc'].
  { destruct Hc' as [-> | [Hn ->]]; [auto|]. rewrite lskel_unfold in Ci, Cc.
    unfold ids_below, sk_caps in *. split; apply sk_all_snoc; auto; simpl.
    - simpl in Ci. apply andb_prop in Ci as [Ci _]. exact Ci.
    - apply Z.leb_le. unfold count in Hn. rewrite length_app, length_map. simpl. lia. }
  split; [split|].
  - exact (sk_all_set (fun s => Nat.ltb (sk_root s) f) (root_below_len f) m p c' m' Hi Ci' Hset).
  - exact (sk_all_set node_cap_ok node_cap_ok_len m p c' m' Hc Cc' Hset).
  - exact (set_at_le m p c c' m' Hs Hle Hset).
Qed.

(** The factories' new objects. *)
Lemma built_hv_new `{PyNum} id w h cap p bg g mw mh c :
  Construct.create_horizontal_container id w h cap p bg g mw mh = Built c \/
  Construct.create_vertical_container id w h cap p bg g mw mh = Built c -> new_container id c.
Proof.
  unfold Construct.create_horizontal_container, Construct.create_vertical_container,
    Construct.VerticalContainer_init.
  destruct (Construct.init_attrs w h cap p bg g mw mh) as [a|] eqn:Ea;
    intros [E|E]; inversion E; subst; pose proof (Construct.init_attrs_bounds _ _ _ _ _ _ _ _ _ Ea);
    repeat split; simpl; lia.
Qed.

Lemma built_horizontal_size `{PyNum} id w h cap p bg g mw mh c :
  Construct.create_horizontal_container id w h cap p bg g mw mh = Built c ->
  c_width (l_attrs c) = w /\ c_height (l_attrs c) = h.
Proof.
  unfold Construct.create_horizontal_container.
  destruct (Construct.init_attrs w h cap p bg g mw mh) as [a|] eqn:Ea; intros E; inversion E; subst.
  exact (Construct.init_attrs_size _ _ _ _ _ _ _ _ _ Ea).
Qed.

Lemma built_grid_new `{PyNum} id w h r co p bg g mw mh c :
  0 <= r * co -> Construct.create_grid_container id w h r co p bg g mw mh = Built c -> new_container id c.
Proof.
  intros Hrc. unfold Construct.create_grid_container, Construct.GridContainer_init.
  destruct (Construct.init_attrs _ _ _ _ _ _ _ _) as [a|]; [|discriminate].
  set (c0 := mkLayout id (Grid r co 0 0) (Construct.set_capacity a (r * co)) []).
  pose proof (resize_items_skel c0) as S. destruct (Layout.resize_items c0) as [c'|e c']; intros E; inversion E; subst.
  simpl in S. rewrite lskel_unfold in S. unfold c0 in S. rewrite lskel_mk in S. injection S as Hid Hcap Hits.
  unfold new_container. destruct (l_items c); [|discriminate]. rewrite Hcap. auto.
Qed.

Section Steps.
Context `{N : PyNum}.
Variable oracle : nat -> Z.
Variable J : layout -> nat -> Prop.
Variable E : gstate -> Prop.
Hypothesis HE : forall s, J (g_main s) (g_fresh s) -> E s.

(** A call that only draws random numbers keeps the store and the
    fresh counter. *)
Lemma jitter_keeps k w h :
  hoare (fun s => J (g_main s) (g_fresh s)) (jitter oracle k w h)
    (fun _ s => J (g_main s) (g_fresh s)) E.
Proof.
  induction k as [|k IH]; simpl; [apply hoare_ret; auto|].
  eapply hoare_bind; [apply hoare_randint; exact HE|intros rw; apply hoare_pure; intros _].
  eapply hoare_bind; [apply hoare_randint; exact HE|intros rh; apply hoare_pure; intros _].
  eapply hoare_bind; [apply IH|intros rest; apply hoare_ret; auto].
Qed.

Lemma eligible_keeps w h n mw mh :
  hoare (fun s => J (g_main s) (g_fresh s)) (generate_eligible_layouts_for_dimensions oracle w h n mw mh)
    (fun _ s => J (g_main s) (g_fresh s)) E.
Proof.
  unfold generate_eligible_layouts_for_dimensions. destruct (n =? 0); [apply hoare_throw; exact HE|].
  eapply hoare_bind; [apply jitter_keeps|intros; apply hoare_ret; auto].
Qed.

Lemma sub_dimensions_keeps w h n mw mh :
  hoare (fun s => J (g_main s) (g_fresh s)) (generate_random_sub_dimensions oracle w h n mw mh)
    (fun _ s => J (g_main s) (g_fresh s)) E.
Proof.
  unfold generate_random_sub_dimensions. generalize (mw + mh) (@nil info). generalize 50%nat.
  intros k; induction k as [|k IH]; intros lo best; simpl; [apply hoare_ret; auto|].
  eapply hoare_bind; [apply eligible_keeps|intros e]. cbv beta zeta.
  match goal with |- hoare _ (if ?b then _ else _) _ _ => destruct b end; apply IH.
Qed.

(** [create_layout_from_type]: a new container with the next identity,
    the store untouched. *)
Lemma create_layout_spec t w h :
  (forall m f f', (f <= f')%nat -> J m f -> J m f') ->
  hoare (fun s => J (g_main s) (g_fresh s)) (create_layout_from_type oracle t w h)
    (fun gl s => J (g_main s) (l_id gl) /\ g_fresh s = S (l_id gl) /\ new_container (l_id gl) gl) E.
Proof.
  intros Jmono.
  assert (Hb : forall id b, (forall c, b = Built c -> new_container id c) ->
    hoare (fun s => g_fresh s = S id /\ J (g_main s) id) (built_layout b)
      (fun gl s => J (g_main s) (l_id gl) /\ g_fresh s = S (l_id gl) /\ new_container (l_id gl) gl) E).
  { intros id [c|e] Hc s [Hf Hs]; simpl.
    - destruct (Hc c eq_refl) as [Hid _]. rewrite Hid. auto.
    - apply HE. rewrite Hf. apply (Jmono _ id); auto. }
  unfold create_layout_from_type. destruct t.
  1-2: eapply hoare_bind; [apply hoare_randint; exact HE|intros cap; apply hoare_pure; intros _];
    eapply hoare_bind; [apply hoare_fresh_id|intros id];
    apply Hb; intros c Ec; eapply built_hv_new; first [left; exact Ec | right; exact Ec].
  eapply hoare_bind; [apply hoare_randint; exact HE|intros r; apply hoare_pure; intros Hr].
  eapply hoare_bind; [apply hoare_randint; exact HE|intros co; apply hoare_pure; intros Hco].
  eapply hoare_bind; [apply hoare_fresh_id|intros id].
  apply Hb. intros c Ec. eapply built_grid_new; [|exact Ec].
  simpl in Hr, Hco. nia.
Qed.

End Steps.

Section Calls.
Context `{N : PyNum}.

(** [can_next_item_fit] of an object younger than every node of the
    container at [p]: an answer, the store untouched. *)
Lemma probe_at_fresh p x s c :
  sub_at (g_main s) p = Some c -> ids_below (item_id x) (lskel c) = true ->
  probe_at p x s = Done (fst (Layout.can_next_item_fit c x)) s.
Proof.
  intros Hc Hi. unfold probe_at, gbind, get_at. rewrite Hc.
  pose proof (Layout.probe_fresh_pure c x (ids_below_fresh _ c x Hi (le_n _))) as Hp.
  destruct (Layout.can_next_item_fit c x) as [b c'] eqn:E. simpl in Hp |- *. subst c'.
  unfold put_at. rewrite (set_sub_same _ _ _ Hc). destruct s; reflexivity.
Qed.

Lemma probe_at_spec P p x E :
  (forall s, P s -> exists c, sub_at (g_main s) p = Some c /\ ids_below (item_id x) (lskel c) = true) ->
  hoare P (probe_at p x) (fun _ s => P s) E.
Proof.
  intros H s Hs. destruct (H s Hs) as (c & Hc & Hi). rewrite (probe_at_fresh p x s c Hc Hi). exact Hs.
Qed.

(** [add_item] of a new subtree through a valid reference: the store
    keeps its invariant and grows; when it returns, the new object is the
    last child at [p]. *)
Lemma add_at_spec m0 f0 p x :
  ids_below (S (item_id x)) (skel x) = true -> sk_caps (skel x) = true ->
  hoare (fun s => grows m0 f0 (g_main s) (g_fresh s) /\ sk_valid (lskel (g_main s)) p = true /\
                  ids_below (item_id x) (lskel (g_main s)) = true /\ (item_id x < g_fresh s)%nat)
    (add_at p x)
    (fun _ s => grows m0 f0 (g_main s) (g_fresh s) /\
       exists c, sub_at (g_main s) p = Some c /\
                 nth_error (map skel (l_items c)) (pred (length (l_items c))) = Some (skel x))
    (fun s => grows m0 f0 (g_main s) (g_fresh s)).
Proof.
  intros Hx1 Hx2 s (Hg & Hv & Hj & Hf). apply sub_at_valid in Hv.
  pose proof (ids_below_mono _ _ _ Hf Hx1) as Hx1'.
  destruct (sub_at (g_main s) p) as [c|] eqn:Hs; [|congruence].
  assert (Hfr : Forall (fun y => same_object x y = false) (l_items c)).
  { apply (ids_below_fresh (item_id x)); [exact (sk_all_sub _ (g_main s) p c Hj Hs) | lia]. }
  unfold add_at, gbind, get_at. rewrite Hs.
  assert (Hput : forall c', exists m', set_at (g_main s) p c' = Some m') by (intros; apply set_at_defined; congruence).
  pose proof (add_item_attrs c x) as Hat.
  destruct (Layout.add_item c x) as [c'|e c'] eqn:E; destruct (Hput c') as [m' Hm']; unfold put_at; rewrite Hm'; simpl;
    simpl in Hat; pose proof (set_at_root_attrs _ _ _ _ _ Hs Hm' Hat) as Ga.
  - destruct (add_item_skel_ok c x c' Hfr E) as [Hn Hsk].
    destruct (ginv_add (g_main s) (g_fresh s) p c c' m' x (proj1 Hg) Hs Hx1' Hx2
      (or_intror (conj Hn Hsk)) Hm') as [Gi Gl].
    split; [eapply grows_trans; [exact Hg | exact (conj Gi (conj Gl (conj (le_n _) Ga)))]|].
    exists c'. split; [exact (sub_set_same _ _ _ _ Hm')|].
    rewrite lskel_unfold in Hsk. injection Hsk as _ _ Hm.
    assert (L : length (l_items c') = S (length (l_items c)))
      by (rewrite <- (length_map skel), Hm, length_app, length_map; simpl; lia).
    rewrite L, Hm. simpl (pred _). rewrite nth_error_app2 by (rewrite length_map; lia).
    rewrite length_map, Nat.sub_diag. reflexivity.
  - pose proof (add_item_skel c x Hfr) as Hsk. rewrite E in Hsk. simpl in Hsk.
    destruct (ginv_add (g_main s) (g_fresh s) p c c' m' x (proj1 Hg) Hs Hx1' Hx2 Hsk Hm') as [Gi Gl].
    eapply grows_trans; [exact Hg | exact (conj Gi (conj Gl (conj (le_n _) Ga)))].
Qed.

(** [add_item] through a valid reference changes only the store, and
    adds at most the leaves of the new object. *)
Lemma add_at_leaves p x s :
  sk_valid (lskel (g_main s)) p = true -> ids_below (item_id x) (lskel (g_main s)) = true ->
  out_holds (fun s' => g_pool s' = g_pool s /\ g_fresh s' = g_fresh s /\
    (sk_leaves (lskel (g_main s')) <= sk_leaves (lskel (g_main s)) + sk_leaves (skel x))%nat) (add_at p x s).
Proof.
  intros Hv Hj. apply sub_at_valid in Hv.
  destruct (sub_at (g_main s) p) as [c|] eqn:Hs; [|congruence].
  assert (Hfr : Forall (fun y => same_object x y = false) (l_items c))
    by (apply (ids_below_fresh (item_id x)); [exact (sk_all_sub _ (g_main s) p c Hj Hs) | lia]).
  assert (Hc : forall c', lskel c' = lskel c \/ (count (l_items c) < c_capacity (l_attrs c) /\
     lskel c' = SNode (l_id c) (c_capacity (l_attrs c)) (map skel (l_items c) ++ [skel x])) ->
     (sk_leaves (lskel c') <= sk_leaves (lskel c) + sk_leaves (skel x))%nat).
  { intros c' [-> | [_ ->]]; [lia|]. rewrite (lskel_unfold c). simpl.
    rewrite map_app, list_sum_app. simpl. lia. }
  pose proof (Hc _ (add_item_skel c x Hfr)) as Hl.
  unfold add_at, gbind, get_at. rewrite Hs.
  destruct (set_at_defined (g_main s) p (exc_state (Layout.add_item c x)) ltac:(congruence)) as [m' Hm'].
  pose proof (set_at_leaves _ _ _ _ _ Hs Hm') as L.
  destruct (Layout.add_item c x) as [c'|e c']; simpl in *; unfold put_at; rewrite Hm'; simpl;
    repeat split; lia.
Qed.

End Calls.

(** A reference the generator returns from the call on [p] with
    [nesting_level] [lvl]: valid in the store [m], [p] extended by at
    most [lvl] steps. *)
Definition leaf_ok (p : path) (lvl : Z) (m : layout) (q : path) : Prop :=
  sk_valid (lskel m) q = true /\ exists r, q = p ++ r /\ (length r <= Z.to_nat lvl)%nat.

Definition sub_post (m0 : layout) (f0 : nat) (p : path) (lvl : Z) (leaves : list path) (s : gstate) : Prop :=
  grows m0 f0 (g_main s) (g_fresh s) /\ Forall (leaf_ok p lvl (g_main s)) leaves.

Lemma leaf_ok_self p lvl m : sk_valid (lskel m) p = true -> leaf_ok p lvl m p.
Proof. intros H. split; [exact H|]. exists []. rewrite app_nil_r. split; [reflexivity | simpl; lia]. Qed.

Lemma leaf_ok_mono p lvl m m' q : sk_le (lskel m) (lskel m') = true -> leaf_ok p lvl m q -> leaf_ok p lvl m' q.
Proof. intros Hle [V R]. split; [eapply sk_valid_mono; eauto | exact R]. Qed.

Lemma leaf_ok_one p i lvl m : sk_valid (lskel m) (p ++ [i]) = true -> 1 <= lvl -> leaf_ok p lvl m (p ++ [i]).
Proof.
  intros V Hl. split; [exact V|]. exists [i]. split; [reflexivity|].
  change (length [i]) with (Z.to_nat 1). apply Z2Nat.inj_le; lia.
Qed.

Lemma ginv_new id c : new_container id c -> ginv c (S id).
Proof.
  intros (Hid & Hits & Hcap). unfold ginv, ids_below, sk_caps. rewrite lskel_unfold, Hits, Hid.
  cbn [sk_all map forallb]. rewrite !andb_true_r. split; [apply Nat.ltb_lt; simpl; lia | apply Z.leb_le; exact Hcap].
Qed.

Lemma leaf_ok_child p i lvl m q : 1 <= lvl -> leaf_ok (p ++ [i]) (lvl - 1) m q -> leaf_ok p lvl m q.
Proof.
  intros Hl [V (r & -> & L)]. split; [exact V|]. exists (i :: r). rewrite <- app_assoc. split; [reflexivity|].
  rewrite Z2Nat.inj_sub in L by lia. simpl in *. lia.
Qed.

Section Spec.
Context `{N : PyNum}.
Variable oracle : nat -> Z.

(** What the recursive call promises for the container at [q]. *)
Definition rec_spec (rec : Z -> Z -> list layout_type -> G (list path)) (q : path) (lvl : Z) : Prop :=
  forall w h el m f, ginv m f -> sk_valid (lskel m) q = true ->
  hoare (fun s => g_main s = m /\ g_fresh s = f) (rec w h el) (sub_post m f q lvl)
    (fun s => grows m f (g_main s) (g_fresh s)).

Lemma children_loop_spec rec q lvl infos : rec_spec rec q lvl -> forall m0 f0,
  hoare (fun s => grows m0 f0 (g_main s) (g_fresh s) /\ sk_valid (lskel (g_main s)) q = true)
    (children_loop rec infos) (sub_post m0 f0 q lvl) (fun s => grows m0 f0 (g_main s) (g_fresh s)).
Proof.
  intros Hr. induction infos as [|[[w h] el] rest IH]; intros m0 f0; simpl.
  - apply hoare_ret. intros s [Hg _]. split; auto.
  - apply hoare_snap. intros s1 [Hg1 Hv1].
    eapply hoare_bind with (R := fun leaves s => grows m0 f0 (g_main s) (g_fresh s) /\
      sk_valid (lskel (g_main s)) q = true /\ Forall (leaf_ok q lvl (g_main s)) leaves).
    { eapply hoare_conseq; [exact (Hr w h el _ _ (proj1 Hg1) Hv1) | intros s ->; auto | |].
      - intros leaves s [Hg Hl]. split; [eapply grows_trans; eauto|].
        split; [eapply sk_valid_mono; [apply Hg | exact Hv1] | exact Hl].
      - intros s Hg. eapply grows_trans; eauto. }
    intros leaves. apply hoare_snap. intros s2 (Hg2 & Hv2 & Hl2).
    eapply hoare_bind with (R := fun others s => sub_post m0 f0 q lvl (leaves ++ others) s).
    { eapply hoare_conseq; [exact (IH (g_main s2) (g_fresh s2)) | intros s ->; split; [apply grows_refl, Hg2 | exact Hv2] | |].
      - intros others s [Hg Ho]. split; [eapply grows_trans; eauto|].
        apply Forall_app. split; [|exact Ho]. eapply Forall_impl; [|exact Hl2]. intros r. apply leaf_ok_mono, Hg.
      - intros s Hg. eapply grows_trans; eauto. }
    intros others. apply hoare_ret. auto.
Qed.

(** The body on the container at [p], given the recursive call's
    promise one level down. *)
Lemma sub_layouts_body_spec rec p w h mw mh lvl el m0 f0 :
  (1 <= lvl - 1 -> forall q, rec_spec (fun w h el => rec q w h (lvl - 1) el) q (lvl - 1)) ->
  1 <= lvl -> ginv m0 f0 -> sk_valid (lskel m0) p = true ->
  hoare (fun s => g_main s = m0 /\ g_fresh s = f0) (sub_layouts_body oracle rec p w h mw mh lvl el)
    (sub_post m0 f0 p lvl) (fun s => grows m0 f0 (g_main s) (g_fresh s)).
Proof.
  intros Hr Hl Hi Hv.
  set (J0 := fun m f => grows m0 f0 m f /\ sk_valid (lskel m) p = true).
  assert (HE0 : forall s, J0 (g_main s) (g_fresh s) -> grows m0 f0 (g_main s) (g_fresh s)) by (intros s []; auto).
  apply hoare_conseq with (P' := fun s => J0 (g_main s) (g_fresh s)) (Q' := sub_post m0 f0 p lvl)
    (E' := fun s => grows m0 f0 (g_main s) (g_fresh s)); [| intros s [-> ->]; split; [apply grows_refl|]; auto | auto | auto].
  unfold sub_layouts_body. destruct el as [|t el].
  { apply hoare_ret. intros s [Hg Hv']. split; [exact Hg|]. constructor; [apply leaf_ok_self; exact Hv' | constructor]. }
  eapply hoare_bind; [apply hoare_choice; exact HE0|intros t'; apply hoare_pure; intros _].
  eapply hoare_bind; [apply create_layout_spec; [exact HE0|]|intros gl].
  { intros m f f' Hff [Hg Hv']. split; [eapply grows_fresh; eauto | exact Hv']. }
  apply hoare_snap. intros s1 ([Hg1 Hv1] & Hf1 & Hnew).
  pose proof (ginv_new _ _ Hnew) as [Hx1 Hx2]. destruct Hnew as (_ & Hits & Hcap).
  assert (Hsk : skel (to_item gl) = SNode (l_id gl) (c_capacity (l_attrs gl)) [])
    by (change (skel (to_item gl)) with (lskel gl); rewrite lskel_unfold, Hits; reflexivity).
  pose proof (proj1 (proj1 Hg1)) as Hib.
  assert (Hg1' : grows m0 f0 (g_main s1) (g_fresh s1)) by (eapply grows_fresh; [exact Hg1 | lia]).
  eapply hoare_bind; [apply probe_at_spec|intros fits].
  { intros s ->. apply sub_at_valid in Hv1. destruct (sub_at (g_main s1) p) as [c|] eqn:Hc; [|congruence].
    exists c. split; [reflexivity | exact (sk_all_sub _ _ _ _ Hib Hc)]. }
  destruct fits; simpl negb; cbv iota.
  2: { apply hoare_ret. intros s ->. split; [exact Hg1'|]. constructor; [apply leaf_ok_self; exact Hv1 | constructor]. }
  eapply hoare_bind; [eapply hoare_conseq; [apply (add_at_spec m0 f0 p (to_item gl) Hx1 Hx2)
    | intros s Hs; subst s | intros ? ? H; exact H | intros ? H; exact H] | intros u].
  { split; [exact Hg1'|]. split; [exact Hv1|]. split; [exact Hib|]. rewrite Hf1. simpl. lia. }
  eapply hoare_bind; [apply hoare_get_at with (J := fun m f => grows m0 f0 m f /\ exists c, sub_at m p = Some c /\
    nth_error (map skel (l_items c)) (pred (length (l_items c))) = Some (skel (to_item gl)));
    intros s []; assumption | intros parent].
  apply hoare_snap. intros s3 (Hp3 & Hg3 & c & Hc & Hn). rewrite Hp3 in Hc. inversion Hc; subst c.
  rewrite Hsk in Hn. pose proof (sk_valid_last _ _ _ _ _ _ _ Hp3 Hn) as Hq.
  cbv zeta. destruct (Z.eqb_spec (lvl - 1) 0) as [H0|H0].
  { apply hoare_ret. intros s ->. split; [exact Hg3|]. constructor; [apply leaf_ok_one; auto | constructor]. }
  set (q := p ++ [pred (length (l_items parent))]) in *.
  apply hoare_conseq with (P' := fun s => grows m0 f0 (g_main s) (g_fresh s) /\ sk_valid (lskel (g_main s)) q = true)
    (Q' := sub_post m0 f0 p lvl) (E' := fun s => grows m0 f0 (g_main s) (g_fresh s)); [| intros s ->; auto | auto | auto].
  eapply hoare_bind; [apply hoare_randint with (J := fun m f => grows m0 f0 m f /\ sk_valid (lskel m) q = true); intros s []; assumption | intros nc; apply hoare_pure; intros _].
  destruct (nc =? 0).
  { apply hoare_ret. intros s [Hg Hv']. split; [exact Hg|]. constructor; [apply leaf_ok_one; auto | constructor]. }
  eapply hoare_bind; [apply sub_dimensions_keeps with (J := fun m f => grows m0 f0 m f /\ sk_valid (lskel m) q = true);
    intros s []; assumption | intros infos].
  eapply hoare_conseq; [apply (children_loop_spec _ _ _ infos (Hr ltac:(lia) q)) | intros s H; exact H | | auto].
  intros leaves s [Hg Hlv]. split; [exact Hg|]. eapply Forall_impl; [|exact Hlv].
  intros r. apply leaf_ok_child. exact Hl.
Qed.

Lemma generate_random_sub_layouts_spec fuel : forall p w h mw mh lvl el m0 f0,
  1 <= lvl -> ginv m0 f0 -> sk_valid (lskel m0) p = true ->
  hoare (fun s => g_main s = m0 /\ g_fresh s = f0) (generate_random_sub_layouts oracle fuel p w h mw mh lvl el)
    (sub_post m0 f0 p lvl) (fun s => grows m0 f0 (g_main s) (g_fresh s)).
Proof.
  induction fuel as [|fuel IH]; intros p w h mw mh lvl el m0 f0 Hl Hi Hv; [intros s _; exact I|].
  simpl. apply sub_layouts_body_spec; auto. intros Hl' q w' h' el' m f Hi' Hv'. apply IH; auto.
Qed.

End Spec.

Section Main.
Context `{N : PyNum}.
Variable oracle : nat -> Z.

(** [generate_random_layouts], whatever the random draws: the main
    container is a new container, the references returned lead into it,
    and the tree keeps its invariant. *)
Lemma generate_random_layouts_spec fuel :
  hoare (fun _ => True) (generate_random_layouts oracle fuel)
    (fun leaves s => ginv (g_main s) (g_fresh s) /\
       Forall (fun q => sk_valid (lskel (g_main s)) q = true /\ (length q <= Z.to_nat max_levels_to_nest)%nat) leaves /\
       c_width (l_attrs (g_main s)) = fst resolution_1080p /\ c_height (l_attrs (g_main s)) = snd resolution_1080p)
    (fun _ => True).
Proof.
  unfold generate_random_layouts.
  eapply hoare_bind; [apply hoare_randint with (J := fun _ _ => True); auto | intros lvl; apply hoare_pure; intros Hl].
  eapply hoare_bind; [apply hoare_randint with (J := fun _ _ => True); auto | intros cap; apply hoare_pure; intros _].
  eapply hoare_bind; [apply hoare_fresh_id with (J := fun _ _ => True) | intros id].
  destruct (Construct.create_horizontal_container _ _ _ _ _ _ _ _ _) as [c|e] eqn:Ec; cbn [built_layout].
  2: { eapply hoare_bind with (R := fun _ _ => False); [apply hoare_throw; auto | intros a s []]. }
  assert (Hn : new_container id c) by (eapply built_hv_new; left; exact Ec).
  pose proof (built_horizontal_size _ _ _ _ _ _ _ _ _ _ Ec) as [Sw Sh].
  eapply hoare_bind with (R := fun c' s => c' = c /\ g_fresh s = S id);
    [apply hoare_ret; intros s [Hf _]; auto | intros c'; apply hoare_pure; intros ->].
  eapply hoare_bind with (R := fun _ s => g_main s = c /\ g_fresh s = S id);
    [intros s Hf; simpl; split; [reflexivity | exact Hf] | intros u].
  eapply hoare_conseq; [apply (generate_random_sub_layouts_spec oracle fuel [] _ _ _ _ lvl _ c (S id));
    [lia | apply ginv_new, Hn | reflexivity] | auto | | auto].
  intros leaves s [Hg Hlv]. split; [apply Hg|]. split.
  - eapply Forall_impl; [|exact Hlv].
    intros q [V (r & -> & L)]. split; [exact V|]. cbn [app]. apply (Nat.le_trans _ _ _ L). apply Z2Nat.inj_le; lia.
  - destruct Hg as (_ & _ & _ & ->). split; assumption.
Qed.

End Main.

(** ** Proposing child boxes *)

(** Each box listed twice, as the jitter loop appends it. *)
Definition doubled {A} (l : list A) : list A := flat_map (fun d => [d; d]) l.

Section Proposals.
Context `{N : PyNum}.
Variable oracle : nat -> Z.

(** A box drawn by one round of the jitter loop. *)
Definition jittered (w h : Z) (d : Z * Z) : Prop :=
  exists rw rh, 80 <= rw <= 120 /\ 80 <= rh <= 120 /\ d = (py_scale w rw 100, py_scale h rh 100).

Lemma jitter_shape k w h :
  hoare (fun _ => True) (jitter oracle k w h)
    (fun l _ => exists js, length js = k /\ Forall (jittered w h) js /\ l = doubled js) (fun _ => True).
Proof.
  induction k as [|k IH]; simpl.
  { apply hoare_ret. intros; exists []; auto. }
  eapply hoare_bind; [apply hoare_randint with (J := fun _ _ => True); auto | intros rw; apply hoare_pure; intros Hw].
  eapply hoare_bind; [apply hoare_randint with (J := fun _ _ => True); auto | intros rh; apply hoare_pure; intros Hh].
  eapply hoare_bind; [eapply hoare_conseq; [apply IH | auto | intros l s H; exact H | auto] | intros rest].
  apply hoare_ret. intros s (js & L & F & ->).
  exists ((py_scale w rw 100, py_scale h rh 100) :: js). split; [simpl; auto|]. split; [|reflexivity].
  constructor; [exists rw, rh; auto | exact F].
Qed.

(** Drawing [k] candidate partitions, the reference for the trial loop. *)
Fixpoint draws (k : nat) (pw ph n mw mh : Z) : G (list (list info)) :=
  match k with
  | O => gret []
  | S k' => e <- generate_eligible_layouts_for_dimensions oracle pw ph n mw mh ;;
            rest <- draws k' pw ph n mw mh ;; gret (e :: rest)
  end.

End Proposals.

(** Keeping the first candidate strictly below the running bound. *)
Fixpoint select (pw ph lo : Z) (best : list info) (cands : list (list info)) : list info :=
  match cands with
  | [] => best
  | e :: rest =>
      if get_unused_space_for_eligible_layouts e pw ph <? lo
      then select pw ph (get_unused_space_for_eligible_layouts e pw ph) e rest
      else select pw ph lo best rest
  end.

Lemma draws_length `{PyNum} o k pw ph n mw mh :
  hoare (fun _ => True) (draws o k pw ph n mw mh) (fun cs _ => length cs = k) (fun _ => True).
Proof.
  induction k as [|k IH]; simpl; [apply hoare_ret; auto|].
  eapply hoare_bind with (R := fun _ _ => True);
    [apply eligible_keeps with (J := fun _ _ => True); auto | intros e].
  eapply hoare_bind; [apply IH | intros cs].
  apply hoare_ret. intros s Hl. simpl. congruence.
Qed.

Lemma jitter_no_raise `{PyNum} o k w h : forall s e s', jitter o k w h s <> Thrown e s'.
Proof.
  induction k as [|k IH]; intros s e s'; simpl; [discriminate|].
  unfold gbind, randint. simpl.
  destruct (jitter o k w h (tick (tick s))) as [l s2|e2 s2|] eqn:E; [discriminate| |discriminate].
  exfalso. exact (IH _ _ _ E).
Qed.

(** The trial loop from a bound [lo] and a best partition [best]. *)
Lemma trials_select `{PyNum} o k pw ph n mw mh : forall lo best s,
  trials o k pw ph n mw mh lo best s = gbind (draws o k pw ph n mw mh) (fun cs => gret (select pw ph lo best cs)) s.
Proof.
  induction k as [|k IH]; intros lo best s; simpl; [reflexivity|]. unfold gbind.
  destruct (generate_eligible_layouts_for_dimensions o pw ph n mw mh s) as [e s'|ex s'|]; [|reflexivity|reflexivity].
  destruct (_ <? lo) eqn:Eu; rewrite IH; unfold gbind;
    destruct (draws o k pw ph n mw mh s'); simpl; rewrite ?Eu; reflexivity.
Qed.

Lemma select_spec pw ph cs : forall lo best,
  (select pw ph lo best cs = best /\
   Forall (fun c => lo <= get_unused_space_for_eligible_layouts c pw ph) cs) \/
  (In (select pw ph lo best cs) cs /\
   get_unused_space_for_eligible_layouts (select pw ph lo best cs) pw ph < lo /\
   Forall (fun c => get_unused_space_for_eligible_layouts (select pw ph lo best cs) pw ph <=
                    get_unused_space_for_eligible_layouts c pw ph) cs).
Proof.
  induction cs as [|e cs IH]; intros lo best; cbn [select]; [left; auto|].
  set (u := fun c => get_unused_space_for_eligible_layouts c pw ph) in *.
  change (get_unused_space_for_eligible_layouts e pw ph) with (u e).
  destruct (Z.ltb_spec (u e) lo) as [Hlt|Hge].
  - right. destruct (IH (u e) e) as [[E F]|(Hin & Hl & F)]; [rewrite E|].
    + split; [left; auto|]. split; [exact Hlt|]. constructor; [unfold u in *; lia | exact F].
    + split; [right; exact Hin|]. split; [unfold u in *; lia|]. constructor; [unfold u in *; lia | exact F].
  - destruct (IH lo best) as [[E F]|(Hin & Hl & F)]; [rewrite E|].
    + left. split; [reflexivity|]. constructor; [exact Hge | exact F].
    + right. split; [right; exact Hin|]. split; [exact Hl|]. constructor; [unfold u in *; lia | exact F].
Qed.

(** ** What the generator guarantees *)

Section Claims.
Context `{N : PyNum}.
Variable oracle : nat -> Z.

(** C1: every reference
    [generate_random_layouts] returns designates a container of the
    final tree (no dangling reference, whatever the random draws), at
    most [max_levels_to_nest] levels below the main container. *)
Theorem generate_random_layouts_paths_valid fuel s leaves s' :
  generate_random_layouts oracle fuel s = Done leaves s' ->
  Forall (fun q => sub_at (g_main s') q <> None /\ (length q <= Z.to_nat max_levels_to_nest)%nat) leaves.
Proof.
  intros E. pose proof (generate_random_layouts_spec oracle fuel s I) as H. rewrite E in H.
  destruct H as [_ [H _]]. eapply Forall_impl; [|exact H]. intros q [V L]. split; [apply sub_at_valid; exact V | exact L].
Qed.

(** C8: in the tree
    [generate_random_layouts] builds, no container holds more children
    than its capacity. *)
Theorem generate_random_layouts_within_capacity fuel s leaves s' :
  generate_random_layouts oracle fuel s = Done leaves s' -> sk_caps (lskel (g_main s')) = true.
Proof.
  intros E. pose proof (generate_random_layouts_spec oracle fuel s I) as H. rewrite E in H. apply H.
Qed.

(** C16:
    [generate_eligible_layouts_for_dimensions] raises
    [ZeroDivisionError] exactly for zero children; otherwise it draws
    [number_of_children - 1] jittered boxes and proposes each of them
    twice (filtered by eligibility): the remaining width and height it
    computes are never proposed. *)
Theorem generate_eligible_layouts_for_dimensions_doubles pw ph n mw mh s :
  match generate_eligible_layouts_for_dimensions oracle pw ph n mw mh s with
  | Done e _ => n <> 0 /\ exists js, length js = Z.to_nat (n - 1) /\
                  Forall (jittered (py_div pw n) (py_div ph n)) js /\ e = eligible_dims mw mh (doubled js)
  | Thrown ex _ => n = 0 /\ ex = ZeroDivisionError
  | OutOfFuel => False
  end.
Proof.
  unfold generate_eligible_layouts_for_dimensions. destruct (Z.eqb_spec n 0) as [->|Hn]; [simpl; auto|].
  pose proof (jitter_shape oracle (Z.to_nat (n - 1)) (py_div pw n) (py_div ph n) s I) as H.
  pose proof (jitter_no_raise oracle (Z.to_nat (n - 1)) (py_div pw n) (py_div ph n) s) as R.
  pose proof (total_jitter oracle (Z.to_nat (n - 1)) (py_div pw n) (py_div ph n) s) as T.
  unfold gbind. destruct (jitter _ _ _ _ s) as [l s'|e s'|]; simpl in *.
  - destruct H as (js & L & F & ->). eauto 6.
  - destruct (R e s' eq_refl).
  - exact (T eq_refl).
Qed.

(** C17: the loop
    [for i in range(50)] of [generate_random_sub_dimensions] is the same
    computation as drawing the 50 candidate partitions first and then
    keeping the first one whose unused space is strictly below the
    running bound, starting from the main container's width plus
    height. *)
Theorem generate_random_sub_dimensions_draws_then_selects pw ph n mw mh s :
  generate_random_sub_dimensions oracle pw ph n mw mh s =
  gbind (draws oracle 50 pw ph n mw mh) (fun cs => gret (select pw ph (mw + mh) [] cs)) s.
Proof. apply trials_select. Qed.

(** C18: the partition
    [generate_random_sub_dimensions] returns is one of its 50 candidates
    with the least unused space, when that is below the main
    container's width plus height; otherwise it is the empty list. *)
Theorem generate_random_sub_dimensions_least_unused pw ph n mw mh s e s' :
  generate_random_sub_dimensions oracle pw ph n mw mh s = Done e s' ->
  exists cs, length cs = 50%nat /\
  ((e = [] /\ Forall (fun c => mw + mh <= get_unused_space_for_eligible_layouts c pw ph) cs) \/
   (In e cs /\ get_unused_space_for_eligible_layouts e pw ph < mw + mh /\
    Forall (fun c => get_unused_space_for_eligible_layouts e pw ph <= get_unused_space_for_eligible_layouts c pw ph) cs)).
Proof.
  unfold generate_random_sub_dimensions. rewrite trials_select. unfold gbind.
  pose proof (draws_length oracle 50 pw ph n mw mh s I) as L.
  destruct (draws oracle 50 pw ph n mw mh s) as [cs s2| |]; simpl in *; try discriminate.
  intros E. inversion E; subst. exists cs. split; [exact L | apply select_spec].
Qed.

End Claims.

(** ** Concrete runs (IEEE arithmetic, every random draw 1) *)

Module GenRuns.

Definition a0 : cattrs := mkAttrs 0 0 1 0 0 0 0 0 0 (0, 0, 0) 50 50.
Definition s0 : gstate := mkG (mkLayout 0 Horizontal a0 []) (fun _ => []) 0 1.
Definition draw1 : nat -> Z := fun _ => 1.

Definition out1 : outcome (list path) := Eval vm_compute in @generate_random_layouts ieee_num draw1 2 s0.
Definition leaves1 : list path := match out1 with Done l _ => l | _ => [] end.
Definition s1 : gstate := match out1 with Done _ s => s | _ => s0 end.

Lemma out1_eq : @generate_random_layouts ieee_num draw1 2 s0 = Done leaves1 s1.
Proof. vm_compute. reflexivity. Qed.

Definition dims1 : outcome (list info) :=
  Eval vm_compute in @generate_random_sub_dimensions ieee_num draw1 1900 1000 2 1900 1040 s0.
Definition best1 : list info := match dims1 with Done e _ => e | _ => [] end.
Definition sd1 : gstate := match dims1 with Done _ s => s | _ => s0 end.

Lemma generate_random_layouts_terminates_witness :
  @generate_random_layouts ieee_num draw1 3 s0 <> OutOfFuel /\
  @generate_random_layouts ieee_num draw1 3 s0 =
  @generate_random_layouts ieee_num draw1 (Z.to_nat max_levels_to_nest) s0.
Proof. apply (generate_random_layouts_terminates (N := ieee_num) draw1 3 s0). vm_compute. repeat constructor. Defined.

Lemma generate_random_layouts_paths_valid_witness :
  Forall (fun q => sub_at (g_main s1) q <> None /\ (length q <= Z.to_nat max_levels_to_nest)%nat) leaves1.
Proof. apply (generate_random_layouts_paths_valid (N := ieee_num) draw1 2 s0 leaves1 s1). vm_compute. reflexivity. Defined.

Lemma generate_random_layouts_within_capacity_witness : sk_caps (lskel (g_main s1)) = true.
Proof. apply (generate_random_layouts_within_capacity (N := ieee_num) draw1 2 s0 leaves1 s1). vm_compute. reflexivity. Defined.

Lemma generate_random_sub_dimensions_least_unused_witness :
  exists cs, length cs = 50%nat /\
  ((best1 = [] /\ Forall (fun c => 1900 + 1040 <= get_unused_space_for_eligible_layouts c 1900 1000) cs) \/
   (In best1 cs /\ get_unused_space_for_eligible_layouts best1 1900 1000 < 1900 + 1040 /\
    Forall (fun c => get_unused_space_for_eligible_layouts best1 1900 1000 <=
                     get_unused_space_for_eligible_layouts c 1900 1000) cs)).
Proof.
  apply (generate_random_sub_dimensions_least_unused (N := ieee_num) draw1 1900 1000 2 1900 1040 s0 best1 sd1).
  vm_compute. reflexivity.
Defined.

(** the list of
    "bottom-level" containers is not a list of leaves: with every random
    draw 1, the container at [[0]] is returned twice (its two later
    child boxes do not fit) although its two children [[0; 0]] and
    [[0; 1]] are returned as well. *)
Example generate_random_layouts_returns_inner_containers :
  exists leaves s', @generate_random_layouts ieee_num draw1 2 s0 = Done leaves s' /\
    ~ NoDup leaves /\ In [0%nat] leaves /\ In [0%nat; 0%nat] leaves /\
    sub_at (g_main s') [0%nat; 0%nat] <> None.
Proof.
  exists leaves1, s1. split; [exact out1_eq|]. vm_compute. split.
  - intros H. apply NoDup_cons_iff in H as [_ H]. apply NoDup_cons_iff in H as [_ H].
    apply NoDup_cons_iff in H as [H _]. apply H. left. reflexivity.
  - split; [auto 6|]. split; [auto 6 | discriminate].
Qed.

End GenRuns.
