(* ===== verification/Populate.v ===== *)
(** Filling the bottom-level containers with framed images
    (layouts_generator.py 144-183 and 437-440).

    [populate_bottom_level_containers] visits the references the
    generator returned.  For each container it looks up the heuristic of
    its class and, for [range(container.get_capacity())] slots, tries
    the aspect-ratio buckets of the dict of images in the heuristic's
    preference order: from the first nonempty bucket it draws a random
    image path and removes it ([get_random_item_from_list_then_remove]),
    opens the image, frames it with no padding on a (235, 235, 235)
    background, and adds the frame when [can_next_item_fit] accepts it,
    which fills the slot ([break]).  An image that does not fit is
    dropped and the next bucket is tried; when no bucket gives a fitting
    image (the inner [for] ends without [break]) the container is left
    ([else: break]).

    The dict of images is the pool of the state; opening a path is the
    image the pool holds for it.  [run_iteration] is one round of
    [run] (144-154) without the file output: a file name drawn, the
    dict deep-copied, a tree generated and populated, the copy dropped.

    Theorems: population keeps the tree invariant of [Generator] and
    every reference valid, and never places more frames than it took
    images from the dict; a round of [run] leaves the dict as it found
    it; and a concrete run in which an image is taken from the dict and
    thrown away. *)

From Stdlib Require Import ZArith List Lia Bool Permutation.
From S2P Require Import Prelude PyNum Image Items Logic Frame Container Render Factory Tree Heuristics Directory GenMonad Generator.
Import ListNotations.
Open Scope Z_scope.
Open Scope gen_scope.

Import Image (image, mkImage, img_id, img_w, img_h).

(** The class of a container, as the [isinstance] chain (162-167) sees it. *)
Definition heuristic_of (k : kind) : layout_type :=
  match k with
  | Horizontal => HorizontalLayout
  | Vertical => VerticalLayout
  | Grid _ _ _ _ => GridLayout
  end.

Section Populate.
Context `{N : PyNum}.
Variable oracle : nat -> Z.

Local Abbreviation choice := (choice oracle).
Local Abbreviation randint := (randint oracle).

(** [get_random_item_from_list_then_remove] (437-440): [random.choice],
    then [list.remove] of the first equal path; the shortened list is
    what the caller's dict entry becomes. *)
Definition get_random_item_from_list_then_remove (items : list image) : G (image * list image) :=
  item <- choice items ;;
  match remove_first (fun y => Nat.eqb (img_id y) (img_id item)) items with
  | Some items' => gret (item, items')
  | None => throw ValueError
  end.

(** [random_open_x_images] (428-434): up to [x] paths drawn and removed
    from the caller's list, which the loop mutates in place (its final
    contents are the second component), each opened into an image. *)
Fixpoint random_open_x_images (x : nat) (image_paths : list image) : G (list image * list image) :=
  match x with
  | O => gret ([], image_paths)
  | S x' =>
      if (0 <? length image_paths)%nat then
        r <- get_random_item_from_list_then_remove image_paths ;;
        let '(image, remaining) := r in
        p <- random_open_x_images x' remaining ;;
        gret (image :: fst p, snd p)
      else random_open_x_images x' image_paths
  end.

(** A factory call for an item. *)
Definition built_item (b : built item) : G item :=
  match b with Built x => gret x | Failed e => throw e end.

(** [Image(open_image_file(image_path))] framed by
    [create_image_frame_container(image, (0, 0, 0, 0), (235, 235, 235))]
    (175-176). *)
Definition frame_for (im : image) : G item :=
  fid <- fresh_id ;;
  built_item (Construct.create_image_frame_container fid im (Construct.ints [0; 0; 0; 0])
                (Construct.ints [235; 235; 235])
                ContainerItem.DEFAULT_MINIMUM_CONTENT_WIDTH ContainerItem.DEFAULT_MINIMUM_CONTENT_HEIGHT).

(** The inner loop [for aspect_ratio_type in ...] (172-181): [true] when
    it ends by [break] (a frame was added), [false] when it runs out. *)
Fixpoint try_aspects (q : path) (order : list aspect) : G bool :=
  match order with
  | [] => gret false
  | aspect_ratio_type :: rest =>
      dict_of_images <- get_pool ;;
      if (0 <? length (dict_of_images aspect_ratio_type))%nat then
        r <- get_random_item_from_list_then_remove (dict_of_images aspect_ratio_type) ;;
        let '(image_path, remaining) := r in
        put_pool (pool_set dict_of_images aspect_ratio_type remaining) ;;
        image_frame <- frame_for image_path ;;
        fits <- probe_at q image_frame ;;
        if fits then add_at q image_frame ;; gret true
        else try_aspects q rest
      else try_aspects q rest
  end.

(** The outer loop [for i in range(capacity)] (170-183): its [else:
    break] leaves the container at the first slot nothing fills. *)
Fixpoint fill_slots (q : path) (order : list aspect) (k : nat) : G unit :=
  match k with
  | O => gret tt
  | S k' =>
      placed <- try_aspects q order ;;
      if placed then fill_slots q order k' else gret tt
  end.

(** One bottom-level container (161-183). *)
Definition populate_container (q : path) : G unit :=
  container <- get_at q ;;
  let heuristic := heuristic_of (l_kind container) in
  fill_slots q (aspect_ratio_preference_order heuristic) (Z.to_nat (c_capacity (l_attrs container))).

(** [populate_bottom_level_containers] (156-183). *)
Fixpoint populate_bottom_level_containers (bottom_level_containers : list path) : G unit :=
  match bottom_level_containers with
  | [] => gret tt
  | container :: rest => populate_container container ;; populate_bottom_level_containers rest
  end.

(** A read-only call that may raise, run in the monad. *)
Definition of_result {A} (r : result A) : G A :=
  match r with
  | Success a => gret a
  | Failure e => throw e
  end.

(** The values of the images' arrays, for rendering. *)
Variable raster : image -> Z -> Z -> pixel.

(** One round of [run] (148-154): a file name drawn, the dict
    deep-copied, a tree generated and populated from the copy (the copy
    is dropped: the original dict is put back), and the main container
    rendered for [cv2.imwrite], which receives the array returned; the
    file itself is not modelled. *)
Definition run_iteration (fuel : nat) : G buffer :=
  _ <- randint 10000 999999 ;;
  dict_of_images <- get_pool ;;
  leaves <- generate_random_layouts oracle fuel ;;
  populate_bottom_level_containers leaves ;;
  put_pool dict_of_images ;;
  main_container <- get_at [] ;;
  of_result (get_drawable_image raster (to_item main_container)).

(** [num_to_generate] (147). *)
Definition num_to_generate : nat := 500.

(** The loop [for i in range(num_to_generate)] (148-154): the arrays
    handed to [cv2.imwrite], in order. *)
Fixpoint run_rounds (fuel n : nat) : G (list buffer) :=
  match n with
  | O => gret []
  | S n' =>
      b <- run_iteration fuel ;;
      bs <- run_rounds fuel n' ;;
      gret (b :: bs)
  end.

(** [run] (144-154): the images of the directory [test_images_3/]
    sorted into the dict, then the rounds; [walk] is what [os.walk]
    yields for the directory and [open_image_file] what [cv2.imread]
    decodes. *)
Definition run (walk : list (String.string * list String.string))
    (open_image_file : String.string -> option image) (fuel : nat) : G (list buffer) :=
  match create_aspect_ratio_sorted_list_of_images_from_directory walk open_image_file with
  | Ok dict_of_images => put_pool dict_of_images ;; run_rounds fuel num_to_generate
  | Raise e _ => throw e
  end.

End Populate.

(** ** Population keeps the tree and spends images *)

(** The number of image paths in the dict, over its keys. *)
Definition pool_total (pl : pool) : nat :=
  list_sum (map (fun k => length (pl k)) (map fst ASPECT_RATIO_RANGES)).

Lemma pool_total_set pl k l : (pool_total (pool_set pl k l) + length (pl k) = pool_total pl + length l)%nat.
Proof. destruct k; unfold pool_total, pool_set; simpl; lia. Qed.

(** The invariant of population, with [k] images taken from the dict
    and not yet placed: the tree invariant, the references valid, and
    the leaves of the tree plus the images of the dict within the
    budget [L0]. *)
Definition pop_inv (m0 : layout) (f0 : nat) (qs : list path) (L0 k : nat) (s : gstate) : Prop :=
  grows m0 f0 (g_main s) (g_fresh s) /\ Forall (fun q => sk_valid (lskel (g_main s)) q = true) qs /\
  (sk_leaves (lskel (g_main s)) + pool_total (g_pool s) + k <= L0)%nat.

Lemma pop_inv_tick m0 f0 qs L0 k s : pop_inv m0 f0 qs L0 k s -> pop_inv m0 f0 qs L0 k (tick s).
Proof. destruct s; exact (fun H => H). Qed.

Lemma pop_inv_slack m0 f0 qs L0 k k' s : (k' <= k)%nat -> pop_inv m0 f0 qs L0 k s -> pop_inv m0 f0 qs L0 k' s.
Proof. intros Hk (G & V & L). split; [exact G|]. split; [exact V | lia]. Qed.

Section PopulateProofs.
Context `{N : PyNum}.
Variable oracle : nat -> Z.

Lemma get_random_spec (P E : gstate -> Prop) l :
  (forall s, P s -> P (tick s)) -> (forall s, P s -> E s) ->
  hoare P (get_random_item_from_list_then_remove oracle l) (fun r s => S (length (snd r)) = length l /\ P s) E.
Proof.
  intros Ht HE. unfold get_random_item_from_list_then_remove.
  eapply hoare_bind; [apply hoare_choice_tick; auto | intros it; apply hoare_pure; intros Hin].
  destruct (remove_first _ l) as [l'|] eqn:R.
  - apply hoare_ret. intros s Hs. split; [exact (remove_first_length _ _ _ R) | exact Hs].
  - apply hoare_throw. auto.
Qed.

(** A new frame: the next identity, one leaf, the store untouched. *)
Lemma frame_for_spec (P E : gstate -> Prop) im :
  (forall s0, P s0 -> E (mkG (g_main s0) (g_pool s0) (g_tape s0) (S (g_fresh s0)))) ->
  hoare P (frame_for im)
    (fun x s => exists s0, P s0 /\ s = mkG (g_main s0) (g_pool s0) (g_tape s0) (S (g_fresh s0)) /\
                skel x = SLeaf (g_fresh s0) /\ item_id x = g_fresh s0) E.
Proof.
  intros HE s Hs. unfold frame_for, gbind, fresh_id, Construct.create_image_frame_container,
    Construct.ImageFrameContainer_init.
  destruct (Construct.init_attrs _ _ _ _ _ _ _ _); simpl; eauto 6.
Qed.

Variables (m0 : layout) (f0 : nat) (qs : list path) (L0 : nat).
Local Abbreviation inv := (pop_inv m0 f0 qs L0).

(** The last step of a fitting try: [add_item] of the frame and [break]. *)
Lemma add_frame_inv q x s2 :
  In q qs -> skel x = SLeaf (item_id x) -> (item_id x < g_fresh s2)%nat ->
  ids_below (item_id x) (lskel (g_main s2)) = true -> inv 1 s2 ->
  post (fun _ => inv 0) (inv 0) ((add_at q x ;; gret true) s2).
Proof.
  intros Hq Hx Hf Hj (G & V & L).
  assert (Vq : sk_valid (lskel (g_main s2)) q = true) by (rewrite Forall_forall in V; auto).
  assert (Hx1 : ids_below (S (item_id x)) (skel x) = true) by (rewrite Hx; unfold ids_below; cbn [sk_all]; apply andb_true_intro; split; [apply Nat.ltb_lt; simpl; lia | reflexivity]).
  assert (Hx2 : sk_caps (skel x) = true) by (rewrite Hx; reflexivity).
  pose proof (add_at_spec (g_main s2) (g_fresh s2) q x Hx1 Hx2 s2
    (conj (grows_refl _ _ (proj1 G)) (conj Vq (conj Hj Hf)))) as A.
  pose proof (add_at_leaves q x s2 Vq Hj) as B. rewrite Hx in B. cbn [sk_leaves] in B.
  unfold gbind. destruct (add_at q x s2) as [u s'|e s'|]; cbn [post out_holds gret] in A, B |- *; auto.
  - destruct A as [Gs _]. destruct B as (Bp & _ & Bl).
    split; [eapply grows_trans; eauto|]. split; [|rewrite Bp; lia].
    eapply Forall_impl; [|exact V]. intros r. apply sk_valid_mono, Gs.
  - destruct B as (Bp & _ & Bl).
    split; [eapply grows_trans; eauto|]. split; [|rewrite Bp; lia].
    eapply Forall_impl; [|exact V]. intros r. apply sk_valid_mono, A.
Qed.

Lemma try_aspects_inv q order : In q qs -> hoare (inv 0) (try_aspects oracle q order) (fun _ => inv 0) (inv 0).
Proof.
  intros Hq. induction order as [|key rest IH]; simpl; [apply hoare_ret; auto|].
  eapply hoare_bind; [apply hoare_get_pool; auto | intros pl].
  destruct (0 <? length (pl key))%nat.
  2: { eapply hoare_conseq; [exact IH | intros s [_ H]; exact H | auto | auto]. }
  eapply hoare_bind; [apply get_random_spec | intros [im rest']; apply hoare_pure; intros Hlen].
  { intros s [Hp H]. split; [destruct s; exact Hp | apply pop_inv_tick, H]. }
  { intros s [_ H]. exact H. }
  cbv iota beta.
  eapply hoare_bind with (R := fun _ => inv 1).
  { eapply hoare_conseq; [apply hoare_put_pool | intros s H; exact H | | intros s H; exact H].
    intros u s' (s & [Hp (G & V & L)] & ->). subst pl. split; [exact G|]. split; [exact V|].
    pose proof (pool_total_set (g_pool s) key rest'). cbn [with_pool g_main g_pool] in *. simpl in Hlen. lia. }
  intros u.
  eapply hoare_bind; [apply frame_for_spec | intros x].
  { intros s0 (G & V & L). split; [eapply grows_fresh; [exact G | simpl; lia]|]. cbn [g_main g_pool g_fresh]. split; [exact V | lia]. }
  apply hoare_snap. intros s2 (s1 & H1 & -> & Hx & Hid).
  eapply hoare_bind; [apply probe_at_spec | intros fits].
  { intros s ->. destruct H1 as (G & V & L). simpl.
    assert (Vq : sk_valid (lskel (g_main s1)) q = true) by (rewrite Forall_forall in V; auto).
    apply sub_at_valid in Vq. destruct (sub_at (g_main s1) q) as [c|] eqn:Hc; [|congruence].
    exists c. split; [reflexivity|]. rewrite Hid. exact (sk_all_sub _ _ _ _ (proj1 (proj1 G)) Hc). }
  destruct fits.
  - intros s ->. apply add_frame_inv; auto; simpl.
    + rewrite Hid. exact Hx.
    + rewrite Hid. lia.
    + rewrite Hid. exact (proj1 (proj1 (proj1 H1))).
    + destruct H1 as (G & V & L). split; [eapply grows_fresh; [exact G | simpl; lia]|]. auto.
  - eapply hoare_conseq; [exact IH | intros s -> | auto | auto].
    destruct H1 as (G & V & L). split; [eapply grows_fresh; [exact G | simpl; lia]|]. cbn [g_main g_pool g_fresh]. split; [exact V | lia].
Qed.

Lemma fill_slots_inv q order k : In q qs -> hoare (inv 0) (fill_slots oracle q order k) (fun _ => inv 0) (inv 0).
Proof.
  intros Hq. induction k as [|k IH]; simpl; [apply hoare_ret; auto|].
  eapply hoare_bind; [apply try_aspects_inv; exact Hq | intros placed].
  destruct placed; [exact IH | apply hoare_ret; auto].
Qed.

Lemma populate_inv leaves :
  incl leaves qs -> hoare (inv 0) (populate_bottom_level_containers oracle leaves) (fun _ => inv 0) (inv 0).
Proof.
  induction leaves as [|q rest IH]; intros Hi; simpl; [apply hoare_ret; auto|].
  eapply hoare_bind; [|intros u; apply IH; intros r Hr; apply Hi; right; exact Hr].
  intros s Hs. unfold populate_container, gbind, get_at.
  destruct (sub_at (g_main s) q); simpl; [|exact Hs].
  apply fill_slots_inv; [apply Hi; left; reflexivity | exact Hs].
Qed.

End PopulateProofs.

Section PopulateClaims.
Context `{N : PyNum}.
Variable oracle : nat -> Z.
Variable raster : image -> Z -> Z -> pixel.

Lemma populate_spec leaves s :
  ginv (g_main s) (g_fresh s) -> Forall (fun q => sk_valid (lskel (g_main s)) q = true) leaves ->
  let inv0 := pop_inv (g_main s) (g_fresh s) leaves (sk_leaves (lskel (g_main s)) + pool_total (g_pool s)) 0 in
  post (fun _ => inv0) inv0 (populate_bottom_level_containers oracle leaves s).
Proof.
  intros Hi Hv inv0. apply (populate_inv oracle _ _ leaves _ leaves (incl_refl _)).
  split; [apply grows_refl, Hi|]. split; [exact Hv | lia].
Qed.

(** C3: populating the
    bottom-level containers, whether it returns or raises, keeps every
    container within its capacity, only adds to the tree, keeps every
    reference valid, and never places more frames than it took images
    from the dict of images. *)
Theorem populate_bottom_level_containers_invariant leaves s :
  ginv (g_main s) (g_fresh s) -> Forall (fun q => sub_at (g_main s) q <> None) leaves ->
  out_holds (fun s' => sk_caps (lskel (g_main s')) = true /\ sk_le (lskel (g_main s)) (lskel (g_main s')) = true /\
     Forall (fun q => sub_at (g_main s') q <> None) leaves /\
     (sk_leaves (lskel (g_main s')) + pool_total (g_pool s') <= sk_leaves (lskel (g_main s)) + pool_total (g_pool s))%nat)
    (populate_bottom_level_containers oracle leaves s).
Proof.
  intros Hi Hv. assert (Hv' : Forall (fun q => sk_valid (lskel (g_main s)) q = true) leaves)
    by (eapply Forall_impl; [|exact Hv]; intros q; apply sub_at_valid).
  pose proof (populate_spec leaves s Hi Hv') as P.
  assert (K : forall s', pop_inv (g_main s) (g_fresh s) leaves (sk_leaves (lskel (g_main s)) + pool_total (g_pool s)) 0 s' ->
    sk_caps (lskel (g_main s')) = true /\ sk_le (lskel (g_main s)) (lskel (g_main s')) = true /\
    Forall (fun q => sub_at (g_main s') q <> None) leaves /\
    (sk_leaves (lskel (g_main s')) + pool_total (g_pool s') <= sk_leaves (lskel (g_main s)) + pool_total (g_pool s))%nat).
  { intros s' (((_ & Hc) & Hl & _) & V & L). split; [exact Hc|]. split; [exact Hl|]. split; [|lia].
    eapply Forall_impl; [|exact V]. intros q; apply sub_at_valid. }
  destruct (populate_bottom_level_containers oracle leaves s); simpl in *; auto.
Qed.

(** What a round of [run] that returns guarantees: the dict as it was,
    the tree within capacity, the main container still the 1920 x 1080
    canvas it was created as, and the array returned its rendering. *)
Lemma run_iteration_spec fuel s b s' :
  run_iteration oracle raster fuel s = Done b s' ->
  g_pool s' = g_pool s /\ sk_caps (lskel (g_main s')) = true /\
  c_width (l_attrs (g_main s')) = fst resolution_1080p /\ c_height (l_attrs (g_main s')) = snd resolution_1080p /\
  get_drawable_image raster (to_item (g_main s')) = Success b.
Proof.
  unfold run_iteration, gbind.
  destruct (randint oracle 10000 999999 s) as [v s1| |] eqn:R; try discriminate.
  apply randint_range in R as [_ ->]. cbn [get_pool].
  pose proof (generate_random_layouts_spec oracle fuel (tick s) I) as Hg.
  destruct (generate_random_layouts oracle fuel (tick s)) as [leaves s2| |]; try discriminate. simpl in Hg.
  destruct Hg as [Hi [Hl [Sw Sh]]].
  assert (Hv : Forall (fun q => sk_valid (lskel (g_main s2)) q = true) leaves)
    by (eapply Forall_impl; [|exact Hl]; intros q [V _]; exact V).
  pose proof (populate_spec leaves s2 Hi Hv) as P.
  destruct (populate_bottom_level_containers oracle leaves s2) as [w s3| |]; try discriminate. simpl in P.
  destruct P as (((_ & Hc) & _ & _ & Ha) & _).
  cbn [put_pool get_at with_pool g_main g_pool sub_at]. unfold of_result.
  destruct (get_drawable_image raster (to_item (g_main s3))) as [b'|e] eqn:Er; intros E; unfold gret, throw in E; [|discriminate E].
  injection E as <- <-. cbn [g_main g_pool with_pool]. rewrite Ha.
  split; [reflexivity|]. split; [exact Hc|]. split; [exact Sw|]. split; [exact Sh | exact Er].
Qed.

(** C4: a round of [run] (a tree
    generated, then populated from a deep copy of the dict of images)
    that returns leaves the dict of images as it found it, and every
    container of the collage within its capacity. *)
Theorem run_iteration_keeps_dict_and_capacity fuel s b s' :
  run_iteration oracle raster fuel s = Done b s' -> g_pool s' = g_pool s /\ sk_caps (lskel (g_main s')) = true.
Proof. intros E. apply run_iteration_spec in E as (P & C & _). split; assumption. Qed.

(** A round that returns hands [cv2.imwrite] the full-HD canvas. *)
Lemma run_iteration_full_hd fuel s b s' :
  run_iteration oracle raster fuel s = Done b s' -> b_h b = 1080 /\ b_w b = 1920.
Proof.
  intros E. apply run_iteration_spec in E as (_ & _ & Sw & Sh & R).
  apply drawable_image_shape in R. simpl in R. rewrite Sw, Sh in R. exact R.
Qed.

(** C5: rounds of [run] that all return hand [cv2.imwrite] one
    array per round, each of exactly 1080 rows of 1920 pixels (the main
    container the generator creates), whatever the random draws and the
    images, and every round starts from the dict the directory was
    sorted into. *)
Theorem run_rounds_full_hd fuel n s bs s' :
  run_rounds oracle raster fuel n s = Done bs s' ->
  length bs = n /\ Forall (fun b => b_h b = 1080 /\ b_w b = 1920) bs /\ g_pool s' = g_pool s.
Proof.
  revert s bs. induction n as [|n IH]; intros s bs E; simpl in E.
  - inversion E; subst. auto.
  - unfold gbind in E. destruct (run_iteration oracle raster fuel s) as [b s1| |] eqn:R; try discriminate.
    pose proof (run_iteration_full_hd _ _ _ _ R) as F. apply run_iteration_spec in R as (P & _).
    destruct (run_rounds oracle raster fuel n s1) as [bs' s2| |] eqn:E'; try discriminate.
    inversion E; subst. destruct (IH _ _ E') as (L & Fs & P'). simpl.
    split; [lia|]. split; [constructor; assumption | congruence].
Qed.

(** [list.remove] takes out one element for which the test holds. *)
Lemma remove_first_perm {A} (p : A -> bool) l l' :
  remove_first p l = Some l' -> exists y, p y = true /\ Permutation l (y :: l').
Proof.
  revert l'; induction l as [|y ys IH]; simpl; intros l' H; [discriminate|].
  destruct (p y) eqn:Hy; [inversion H; subst; eauto|].
  destruct (remove_first p ys) as [l''|] eqn:E; simpl in H; [|discriminate]. inversion H; subst.
  destruct (IH l'' eq_refl) as (z & Hz & P). exists z. split; [exact Hz|].
  rewrite P. apply perm_swap.
Qed.

(** The path drawn and the list left are, as paths, the list drawn from. *)
Lemma get_random_done l s it l' s' :
  get_random_item_from_list_then_remove oracle l s = Done (it, l') s' ->
  Permutation (map img_id l) (img_id it :: map img_id l').
Proof.
  unfold get_random_item_from_list_then_remove, gbind, choice.
  match goal with |- context [nth_error l ?i] => destruct (nth_error l i) as [x|] eqn:Hx end;
    [|intros E; discriminate E].
  destruct (remove_first _ l) as [l''|] eqn:R; unfold gret, throw; intros E; [|discriminate E].
  inversion E; subst. destruct (remove_first_perm _ _ _ R) as (y & Hy & P). apply Nat.eqb_eq in Hy.
  rewrite P. simpl. rewrite Hy. reflexivity.
Qed.

(** [random_open_x_images] returns [min(x, len(paths))] images and
    leaves the caller's list with the others: together they are the
    paths it was given. *)
Theorem random_open_x_images_perm x l s imgs rest s' :
  random_open_x_images oracle x l s = Done (imgs, rest) s' ->
  Permutation (map img_id l) (map img_id (imgs ++ rest)) /\ length imgs = Nat.min x (length l).
Proof.
  revert l s imgs rest. induction x as [|x IH]; intros l s imgs rest; cbn [random_open_x_images].
  - unfold gret. intros E. inversion E; subst. split; [reflexivity | simpl; lia].
  - destruct (0 <? length l)%nat eqn:Hl.
    + apply Nat.ltb_lt in Hl. unfold gbind.
      destruct (get_random_item_from_list_then_remove oracle l s) as [[it l1] s1| |] eqn:R;
        [|intros E; discriminate E..].
      destruct (random_open_x_images oracle x l1 s1) as [[i2 r2] s2| |] eqn:R2; [|intros E; discriminate E..].
      unfold gret. intros E. inversion E; subst.
      pose proof (get_random_done _ _ _ _ _ R) as P. destruct (IH _ _ _ _ R2) as [P2 L2].
      split; [rewrite P; simpl; constructor; exact P2|].
      apply Permutation_length in P. simpl in P. rewrite !length_map in P. cbn [length]. rewrite P. simpl. lia.
    + apply Nat.ltb_ge in Hl. intros E. apply IH in E as [P L]. split; [exact P|].
      destruct l; simpl in *; lia.
Qed.

(** On a nonempty list, [random.choice] and the removal always succeed. *)
Lemma get_random_total l s :
  (0 < length l)%nat -> exists it l' s', get_random_item_from_list_then_remove oracle l s = Done (it, l') s'.
Proof.
  intros Hl. unfold get_random_item_from_list_then_remove, gbind, choice.
  match goal with |- context [nth_error l ?i] => assert (Hi : (i < length l)%nat) end.
  { pose proof (Z.mod_pos_bound (oracle (g_tape s)) (Z.of_nat (length l))). lia. }
  destruct (nth_error l _) as [x|] eqn:Hx; [|apply nth_error_None in Hx; lia].
  destruct (remove_first_In (fun y => Nat.eqb (img_id y) (img_id x)) l x) as [l' R];
    [eapply nth_error_In; exact Hx | apply Nat.eqb_refl |].
  rewrite R. unfold gret. eauto.
Qed.

(** [random_open_x_images] always returns, whatever the random draws:
    it never raises, it delivers [min(x, len(paths))] images, and these
    together with what is left in the caller's list are the paths it was
    given. *)
Theorem random_open_x_images_delivers x l s :
  exists imgs rest s', random_open_x_images oracle x l s = Done (imgs, rest) s' /\
    Permutation (map img_id l) (map img_id (imgs ++ rest)) /\ length imgs = Nat.min x (length l).
Proof.
  enough (exists imgs rest s', random_open_x_images oracle x l s = Done (imgs, rest) s') as (i & r & s' & E)
    by (exists i, r, s'; split; [exact E | exact (random_open_x_images_perm _ _ _ _ _ _ E)]).
  revert l s. induction x as [|x IH]; intros l s; cbn [random_open_x_images]; [unfold gret; eauto|].
  destruct (0 <? length l)%nat eqn:Hl; [|apply IH].
  apply Nat.ltb_lt in Hl. destruct (get_random_total l s Hl) as (it & l1 & s1 & R).
  unfold gbind. rewrite R. destruct (IH l1 s1) as (i2 & r2 & s2 & ->). unfold gret. eauto.
Qed.

End PopulateClaims.

(** ** Concrete runs *)

Module PopRuns.
Import Image (image, mkImage).

Definition draw0 : nat -> Z := fun _ => 0.

(** A dict of six image paths (an image standing for its path). *)
Definition dict6 : pool :=
  pool_set (pool_set (pool_set empty_pool SquareIsh [mkImage 10 1000 1000; mkImage 12 800 700])
    PortraitIsh [mkImage 11 150 100; mkImage 13 1500 1000]) LandscapeIsh [mkImage 14 600 1000; mkImage 15 300 500].

(** The tree of [GenRuns] with the dict. *)
Definition st1 : gstate := mkG (g_main GenRuns.s1) dict6 0 (g_fresh GenRuns.s1).

Lemma populate_bottom_level_containers_invariant_witness :
  out_holds (fun s' => sk_caps (lskel (g_main s')) = true /\ sk_le (lskel (g_main st1)) (lskel (g_main s')) = true /\
     Forall (fun q => sub_at (g_main s') q <> None) GenRuns.leaves1 /\
     (sk_leaves (lskel (g_main s')) + pool_total (g_pool s') <= sk_leaves (lskel (g_main st1)) + pool_total (g_pool st1))%nat)
    (@populate_bottom_level_containers ieee_num GenRuns.draw1 GenRuns.leaves1 st1).
Proof.
  apply (populate_bottom_level_containers_invariant (N := ieee_num) GenRuns.draw1 GenRuns.leaves1 st1).
  - split; vm_compute; reflexivity.
  - vm_compute. repeat constructor; discriminate.
Defined.

Definition st0 : gstate := mkG (g_main GenRuns.s0) dict6 0 1.
Definition s2 : gstate :=
  match @run_iteration ieee_num GenRuns.draw1 RenderRuns.raster0 2 st0 with Done _ s => s | _ => st0 end.
Definition b2 : buffer :=
  match @run_iteration ieee_num GenRuns.draw1 RenderRuns.raster0 2 st0 with
  | Done b _ => b
  | _ => mkBuf 0 0 (fun _ _ => (0, 0, 0))
  end.

(** The round completes: the tree it builds renders. *)
Lemma out2_eq : @run_iteration ieee_num GenRuns.draw1 RenderRuns.raster0 2 st0 = Done b2 s2.
Proof. vm_compute. reflexivity. Qed.

Lemma run_iteration_keeps_dict_and_capacity_witness :
  g_pool s2 = g_pool st0 /\ sk_caps (lskel (g_main s2)) = true.
Proof.
  exact (run_iteration_keeps_dict_and_capacity (N := ieee_num) GenRuns.draw1 RenderRuns.raster0 2 st0 b2 s2
           out2_eq).
Defined.

Lemma run_rounds_full_hd_witness :
  length [b2] = 1%nat /\ Forall (fun b => b_h b = 1080 /\ b_w b = 1920) [b2] /\ g_pool s2 = g_pool st0.
Proof.
  apply (run_rounds_full_hd (N := ieee_num) GenRuns.draw1 RenderRuns.raster0 2 1 st0 [b2] s2).
  simpl. unfold gbind. rewrite out2_eq. reflexivity.
Defined.

(** A horizontal container 120 wide with capacity 3: two frames of the
    50-pixel minimum content fit, a third does not. *)
Definition hc : layout :=
  match Construct.create_horizontal_container 0 120 100 3 (Construct.ints [0; 0; 0; 0])
          (Construct.ints [255; 255; 255]) (Construct.ints [0; 0]) 50 50 with
  | Built c => c
  | Failed _ => mkLayout 0 Horizontal GenRuns.a0 []
  end.

Definition dict4 : pool :=
  pool_set (pool_set empty_pool LandscapeIsh [mkImage 1 600 1000; mkImage 2 300 450; mkImage 3 700 1000])
    SquareIsh [mkImage 4 500 500].

Definition st3 : gstate := mkG hc dict4 0 1.
Definition out3 : outcome unit := Eval vm_compute in @populate_container ieee_num draw0 [] st3.
Definition s3 : gstate := match out3 with Done _ s => s | _ => st3 end.

(** an image that does not fit
    is taken out of the dict and thrown away: populating a horizontal
    container with room for two frames takes all four images of the
    dict (the third slot draws one image per nonempty bucket, none fits)
    and places two. *)
Example populate_container_discards_images :
  @populate_container ieee_num draw0 [] st3 = Done tt s3 /\
  pool_total (g_pool st3) = 4%nat /\ pool_total (g_pool s3) = 0%nat /\
  sk_leaves (lskel (g_main st3)) = 0%nat /\ sk_leaves (lskel (g_main s3)) = 2%nat.
Proof. vm_compute. repeat split. Qed.

End PopRuns.
