(* ===== verification/Scenarios.v ===== *)
(** Concrete runs of the program, on CPython's arithmetic ([ieee_num]).

    The scenarios of spec.md section 8, built with the factory functions
    and run through the container methods, and the concrete behaviours that
    show where the code departs from the spec.  Everything here is closed
    and checked by evaluation. *)

From Stdlib Require Import ZArith List Lia.
From S2P Require Import Prelude PyNum Image Items Logic Frame Container Factory.
Import ListNotations.
Open Scope Z_scope.

Import Image (image, mkImage, img_id, img_w, img_h).
Import Construct.

Module Scenarios.
#[local] Existing Instance ieee_num.

Definition white : pyval := ints [255; 255; 255].
Definition no_padding : pyval := ints [0; 0; 0; 0].
Definition no_gutters : pyval := ints [0; 0].

(** Two calls of [add_item], the second only after the first returned. *)
Definition add_two (c : layout) (x y : item) : exc layout :=
  match Layout.add_item c x with
  | Ok c1 => Layout.add_item c1 y
  | r => r
  end.

(** A 300 x 100 horizontal container of
    capacity 2 receives two 100 x 100 images; both keep their size within
    their 150 x 100 budget and are painted centred in their cells, 25
    pixels in from each cell's left edge. *)
Theorem horizontal_two_images_scenario :
  exists c c',
    create_horizontal_container 1 300 100 2 no_padding white no_gutters 50 50 = Built c /\
    add_two c (IImage (mkImage 2 100 100)) (IImage (mkImage 3 100 100)) = Ok c' /\
    l_items c' = [IImage (mkImage 2 100 100); IImage (mkImage 3 100 100)] /\
    budget (l_kind c') (l_attrs c') (count (l_items c')) = (150, 100) /\
    layout_coordinates (l_kind c') (l_attrs c') (l_items c') = [(25, 0, 125, 100); (175, 0, 275, 100)].
Proof. do 2 eexists. split; [reflexivity|]. split; [vm_compute; reflexivity|]. vm_compute. auto. Qed.

(** A 300 x 200 grid of 2 rows and 3 columns with
    gutters of 10 has cells of 93 x 95 and capacity 6. *)
Theorem grid_cell_scenario :
  exists a, create_grid_container 1 300 200 2 3 no_padding white (ints [10; 10]) 50 50 =
            Built (mkLayout 1 (Grid 2 3 93 95) a []) /\ c_capacity a = 6.
Proof. eexists. split; [vm_compute; reflexivity | reflexivity]. Qed.

(** A frame without padding around a 200 x 100
    image, resized to width 100, halves its height and its image becomes
    100 x 50. *)
Theorem frame_resize_scenario :
  exists fa fa',
    create_image_frame_container 1 (mkImage 2 200 100) no_padding white 50 50 = Built (IFrame 1 fa (mkImage 2 200 100)) /\
    Frame.resize_by_width fa (mkImage 2 200 100) 100 = Ok (fa', mkImage 2 100 50) /\
    c_width fa' = 100 /\ c_height fa' = 50.
Proof. do 2 eexists. split; [vm_compute; reflexivity|]. split; [vm_compute; reflexivity|]. split; reflexivity. Qed.

(** the grid's minimum layout height is
    its current height less its rows' minimum content, not the smallest
    height it can shrink to: a 60-high two-row grid reports -40.  A
    100-high vertical container already holding two 50-high frames
    refuses a third frame but still accepts that grid. *)
Theorem grid_minimum_is_not_a_minimum :
  exists c g,
    create_vertical_container 1 100 100 3 no_padding white no_gutters 50 50 = Built c /\
    create_grid_container 9 100 60 2 2 no_padding white no_gutters 50 50 = Built g /\
    LayoutLogic.min_layout_height (to_item g) = -40 /\
    (let fr i := match create_image_frame_container i (mkImage (i + 10) 50 50) no_padding white 50 50 with
                 | Built f => f | Failed _ => IImage (mkImage 0 0 0) end in
     exists c2, add_two c (fr 2%nat) (fr 3%nat) = Ok c2 /\
       fst (Layout.can_next_item_fit c2 (fr 4%nat)) = false /\
       fst (Layout.can_next_item_fit c2 (to_item g)) = true).
Proof.
  do 2 eexists. split; [reflexivity|]. split; [vm_compute; reflexivity|]. split; [reflexivity|].
  eexists. split; [vm_compute; reflexivity|]. split; vm_compute; reflexivity.
Qed.

(** [isinstance(True, int)] holds in Python, so
    a padding of [(True, 0, 0, 0)] passes validation as a top padding of
    1, and a colour of [(True, False, True)] as [(1, 0, 1)]. *)
Theorem bool_padding_accepted :
  exists a,
    init_attrs 100 100 1 (PyTuple [PyBool true; PyInt 0; PyInt 0; PyInt 0])
      (PyTuple [PyBool true; PyBool false; PyBool true]) no_gutters 50 50 = Built a /\
    c_padding_top a = 1 /\ c_background_color a = (1, 0, 1).
Proof. eexists. repeat split. Qed.

(** a grid requested with zero columns is
    not refused by validation: its constructor fails with
    [ZeroDivisionError] from the cell computation. *)
Theorem grid_zero_columns_division :
  create_grid_container 1 300 200 2 0 no_padding white no_gutters 50 50 = Failed ZeroDivisionError.
Proof. reflexivity. Qed.

End Scenarios.
