(* ===== verification/TestImages.v ===== *)
(** test_image_generator.py: the script that writes one solid-colour
    test image per entry of its [COLORS] dict, labelled with the colour's
    name, into a directory.

    Its effects are explicit state ([tstate]): the position on the tape
    of [np.random], the directories that exist and the files written so
    far (a path to the array [cv2.imwrite] saved there, a later write to
    the same path replacing the earlier one).  [T] is the state and
    exception monad the functions run in; an exception keeps the state
    reached when it was raised.

    OpenCV's text functions are inputs: [getTextSize] is the width and
    height of a text at a font scale (in tenths, [scale / 10] of the
    loop) and thickness, and [putText] the pixels of an array after the
    text is drawn into it, in place, at the given origin, scale, colour
    and thickness.  [np.random.randint(lo, hi)] reads an oracle, as the
    generator's [random] calls do in [GenMonad].  Arrays are the
    [buffer]s of [Render], so [np.ones((h, w, 3)) * colour[::-1]] is
    [Numpy.full h w (bgr colour)].

    The dtype of the arrays is not modelled: [np.ones(..., "uint8") *
    colour[::-1]] is an int64 array, which OpenCV's [putText] and
    [imwrite] may refuse; the model lets them accept it.

    Theorems: the dict literal's duplicate keys leave 20 colours; the
    text-size loop returns the largest fitting scale, or [1] when none
    fits, which the caller cannot unpack; the text box lies within the
    width, and within the height exactly when the text is no taller than
    the image, which the code never checks; in the model, the whole
    script, with fixed sizes and names that fit, writes 20 distinct
    files, one per colour, of the requested shape; a directory without a
    trailing slash has its files written beside it. *)

From Stdlib Require Import ZArith List String Ascii Bool Lia.
From S2P Require Import Prelude PyNum Image Render Factory PyDict.
Import ListNotations.
Open Scope Z_scope.
Open Scope bool_scope.

(** [str(n)] of a natural number, in decimal. *)
Fixpoint digits_aux (fuel n : nat) (acc : string) : string :=
  match fuel with
  | O => acc
  | S f =>
      let acc' := String (ascii_of_nat (48 + n mod 10)) acc in
      if Nat.ltb n 10 then acc' else digits_aux f (n / 10) acc'
  end.

Definition str_of_nat (n : nat) : string := digits_aux (S n) n EmptyString.

Module TestImageGenerator.

(** [COLORS] (6-29), as written: "white" and "black" appear twice. *)
Definition COLORS_literal : list (string * (Z * Z * Z)) :=
  [("white", (255, 255, 255)); ("black", (0, 0, 0)); ("red", (255, 0, 0));
   ("orange", (255, 165, 0)); ("yellow", (255, 255, 0)); ("green", (0, 128, 0));
   ("blue", (0, 0, 255)); ("purple", (128, 0, 128)); ("pink", (255, 192, 203));
   ("brown", (165, 42, 42)); ("white", (255, 255, 255)); ("black", (0, 0, 0));
   ("gray", (128, 128, 128)); ("maroon", (128, 0, 0)); ("olive", (128, 128, 0));
   ("teal", (0, 128, 128)); ("navy", (0, 0, 128)); ("aqua", (0, 255, 255));
   ("fuchsia", (255, 0, 255)); ("lime", (0, 255, 0)); ("silver", (192, 192, 192));
   ("gold", (255, 215, 0))]%string.

Definition COLORS : list (string * (Z * Z * Z)) := dict_literal COLORS_literal.

(** 32-34; the font face is an argument of the opaque text functions. *)
Definition DEFAULT_DIRECTORY : string := "test_images_generated/"%string.
Definition DEFAULT_WIDTH_OR_HEIGHT : Z := 300.

(** ** State and effects *)

Record tstate : Type := mkT {
  t_tape : nat;                            (** position on [np.random]'s tape *)
  t_dirs : list string;                    (** directories that exist *)
  t_files : list (string * buffer)         (** files written, by path *)
}.

Inductive tres (A : Type) : Type :=
| TOk (a : A) (s : tstate)
| TErr (e : exn) (s : tstate).
Arguments TOk {A} a s.
Arguments TErr {A} e s.

Definition T (A : Type) : Type := tstate -> tres A.

Definition tret {A} (a : A) : T A := fun s => TOk a s.
Definition traise {A} (e : exn) : T A := fun s => TErr e s.
Definition tbind {A B} (m : T A) (k : A -> T B) : T B :=
  fun s => match m s with TOk a s' => k a s' | TErr e s' => TErr e s' end.

(** A computation on arrays that may raise, run in [T]. *)
Definition tlift {A} (r : result A) : T A :=
  match r with Success a => tret a | Failure e => traise e end.

Declare Scope tig_scope.
Delimit Scope tig_scope with tig.
Notation "'let%' x ':=' m 'in' k" := (tbind m (fun x => k))
  (at level 10, x name, m at level 100, k at level 200) : tig_scope.
Open Scope tig_scope.

(** Text size and position as the script computes them. *)
Inductive size_and_scale : Type :=
| SizeScale (text_size : Z * Z) (scale : Z)   (** [(text_size, scale / 10)] *)
| NotFound.                                    (** [return 1] *)

Section Script.
Context `{N : PyNum}.

(** [np.random]'s values, read in order. *)
Variable np_oracle : nat -> Z.
(** [cv2.getTextSize(text, face, scale / 10, thickness)[0]]. *)
Variable getTextSize : string -> Z -> Z -> Z * Z.
(** The pixels of an [h x w] array after [cv2.putText(image, text,
    origin, face, scale / 10, colour, thickness, LINE_AA)]. *)
Variable putText : Z -> Z -> (Z -> Z -> pixel) -> string -> Z * Z -> Z -> pixel -> Z -> Z -> Z -> pixel.

(** [np.random.randint(lo, hi)]: a value in [[lo, hi)], [ValueError] when
    the range is empty. *)
Definition np_randint (lo hi : Z) : T Z :=
  fun s => if hi <=? lo then TErr ValueError s
           else TOk (lo + np_oracle (t_tape s) mod (hi - lo))
                    (mkT (S (t_tape s)) (t_dirs s) (t_files s)).

(** An int of the tuple given to [np.random.randint]; numpy's handling of
    other types is not modelled and is taken to raise [TypeError]. *)
Definition as_int (v : pyval) : option Z :=
  match v with PyInt z => Some z | PyBool b => Some (Z.b2z b) | _ => None end.

(** [get_random_number] (50-62). *)
Definition get_random_number (number_range : pyval) : T Z :=
  match number_range with
  | PyNone => tret DEFAULT_WIDTH_OR_HEIGHT
  | PyTuple l =>
      match nth_error l 0, nth_error l 1 with
      | Some a, Some b =>
          match as_int a, as_int b with
          | Some lo, Some hi => np_randint lo hi
          | _, _ => traise TypeError
          end
      | _, _ => traise IndexError
      end
  | PyInt z => tret z
  | PyBool b => tret (Z.b2z b)
  | _ => tret DEFAULT_WIDTH_OR_HEIGHT
  end.

(** [create_image] (87-93); the file name is unused. *)
Definition create_image (width height : Z) (color : Z * Z * Z) (filename : string) : result buffer :=
  Numpy.full height width (bgr color).

(** [get_contrast_color] (121-128), applied to a pixel of the array. *)
Definition get_contrast_color (color : pixel) : pixel :=
  let '(c0, c1, c2) := color in
  if c0 + c1 + c2 <? 382 then (255, 255, 255) else (0, 0, 0).

(** [round(x / d)] for [d > 0]: the exact quotient rounded half to even.
    [float(m) / d] is correctly rounded and never crosses a half-integer
    for [|m| < 2^40], so this is CPython's value there. *)
Definition round_div (m d : Z) : Z :=
  let q := m / d in
  let r := m mod d in
  if 2 * r <? d then q
  else if d <? 2 * r then q + 1
  else if Z.even q then q else q + 1.

(** [get_font_scale] (132-136): never called. *)
Definition get_font_scale (width height : Z) : Z := round_div (Z.min width height) 50.

(** [get_font_thickness] (140-144): [round] of an int is the int. *)
Definition get_font_thickness (width height : Z) : Z := py_div (Z.min width height) 100.

(** [reversed(range(0, 60, 1))]. *)
Definition scales : list Z := rev (map Z.of_nat (seq 0 60)).

(** The loop of [get_text_size_and_scale] (148-155) over the scales. *)
Fixpoint scan_scales (text : string) (width font_thickness : Z) (scs : list Z) : size_and_scale :=
  match scs with
  | [] => NotFound
  | scale :: rest =>
      let text_size := getTextSize text scale font_thickness in
      if fst text_size <=? width then SizeScale text_size scale
      else scan_scales text width font_thickness rest
  end.

Definition get_text_size_and_scale (text : string) (width font_thickness : Z) : size_and_scale :=
  scan_scales text width font_thickness scales.

(** [get_text_coordinates] (159-167). *)
Definition get_text_coordinates (width height : Z) (text_size : Z * Z) : Z * Z :=
  (py_div (width - fst text_size) 2, py_div (height + snd text_size) 2).

(** [add_text_to_image] (97-117): [image[0][0]] raises [IndexError] on an
    empty array, and unpacking the [1] of a failed size search raises
    [TypeError]. *)
Definition add_text_to_image (image : buffer) (text : string) : result buffer :=
  let height := b_h image in
  let width := b_w image in
  match Numpy.np_index height 0, Numpy.np_index width 0 with
  | Some _, Some _ =>
      let contrast_color := get_contrast_color (b_px image 0 0) in
      let font_thickness := get_font_thickness width height in
      match get_text_size_and_scale text width font_thickness with
      | NotFound => Failure TypeError
      | SizeScale text_size font_scale =>
          let text_coordinates := get_text_coordinates width height text_size in
          Success (mkBuf height width
            (putText height width (b_px image) text text_coordinates font_scale contrast_color font_thickness))
      end
  | _, _ => Failure IndexError
  end.

(** [if not os.path.exists(directory): os.makedirs(directory)]. *)
Definition makedirs_if_absent (directory : string) : T unit :=
  fun s => if existsb (String.eqb directory) (t_dirs s) then TOk tt s
           else TOk tt (mkT (t_tape s) (directory :: t_dirs s) (t_files s)).

(** [cv2.imwrite(path, image)] inside the [try] of lines 79-82:
    [cv2.imwrite] raises on an empty array, which the [except] turns into
    the bare [Exception]; otherwise the file is (over)written. *)
Definition imwrite (path : string) (image : buffer) : T unit :=
  fun s => if (b_h image =? 0) || (b_w image =? 0) then TErr SaveError s
           else TOk tt (mkT (t_tape s) (t_dirs s) (dict_set path image (t_files s))).

(** [create_and_save_image] (67-82); the path is the concatenation
    [directory + filename]. *)
Definition create_and_save_image (width height : Z) (color : Z * Z * Z) (filename directory text : string) : T unit :=
  let% image := tlift (create_image width height color filename) in
  let% image := if Nat.ltb 0 (String.length text) then tlift (add_text_to_image image text) else tret image in
  let% _ := makedirs_if_absent directory in
  imwrite (String.append directory filename) image.

(** The file name of the [i]-th colour: [str(i + 1) + ".jpg"]. *)
Definition file_name (i : nat) : string := String.append (str_of_nat (S i)) ".jpg".

(** The loop of [create_images_for_colors] (38-46) over
    [enumerate(COLORS)], from index [i]; each key is read with its value
    [COLORS[color]]. *)
Fixpoint colors_loop (width_range height_range : pyval) (directory : string) (i : nat)
    (colors : list (string * (Z * Z * Z))) : T unit :=
  match colors with
  | [] => tret tt
  | (color, rgb) :: rest =>
      let% width := get_random_number width_range in
      let% height := get_random_number height_range in
      let% _ := create_and_save_image width height rgb (file_name i) directory color in
      colors_loop width_range height_range directory (S i) rest
  end.

Definition create_images_for_colors (width_range height_range : pyval) (directory : string) : T unit :=
  colors_loop width_range height_range directory 0 COLORS.

End Script.

(** ** Dicts *)

Lemma append_cancel_l (d a b : string) : String.append d a = String.append d b -> a = b.
Proof. induction d as [|c d IH]; simpl; [auto | intros H; injection H; exact IH]. Qed.

(** The dict display keeps 20 colours: the second "white" and "black"
    rewrite the values of the first ones, which are the same. *)
Lemma COLORS_keys :
  map fst COLORS = ["white"; "black"; "red"; "orange"; "yellow"; "green"; "blue"; "purple";
                    "pink"; "brown"; "gray"; "maroon"; "olive"; "teal"; "navy"; "aqua";
                    "fuchsia"; "lime"; "silver"; "gold"]%string /\
  forall k v, In (k, v) COLORS_literal -> dict_get k COLORS = Some v.
Proof.
  split; [reflexivity|].
  intros k v Hin. repeat (destruct Hin as [Hin|Hin]; [injection Hin as <- <-; reflexivity|]). destruct Hin.
Qed.

(** The 20 file names are distinct. *)
Lemma file_names_NoDup : NoDup (map file_name (seq 0 (List.length COLORS))).
Proof.
  vm_compute.
  repeat constructor; simpl; intros H; repeat (destruct H as [H|H]; [discriminate H|]); exact H.
Qed.

Lemma COLORS_names_nonempty : Forall (fun k => (0 < String.length k)%nat) (map fst COLORS).
Proof. rewrite (proj1 COLORS_keys). repeat (constructor; [simpl; lia|]). constructor. Qed.

Section Laws.
Context `{N : PyNum}.
Variable np_oracle : nat -> Z.
Variable getTextSize : string -> Z -> Z -> Z * Z.
Variable putText : Z -> Z -> (Z -> Z -> pixel) -> string -> Z * Z -> Z -> pixel -> Z -> Z -> Z -> pixel.

(** The scales counted down from [n - 1]. *)
Lemma scales_S n : rev (map Z.of_nat (seq 0 (S n))) = Z.of_nat n :: rev (map Z.of_nat (seq 0 n)).
Proof. rewrite seq_S, map_app, rev_app_distr. reflexivity. Qed.

(** The size search over the first [n] scales: the largest that fits, or
    none when all are too wide. *)
Lemma scan_scales_spec text width th n :
  match scan_scales getTextSize text width th (rev (map Z.of_nat (seq 0 n))) with
  | SizeScale ts sc =>
      0 <= sc < Z.of_nat n /\ ts = getTextSize text sc th /\ fst ts <= width /\
      forall sc', sc < sc' < Z.of_nat n -> width < fst (getTextSize text sc' th)
  | NotFound => forall sc, 0 <= sc < Z.of_nat n -> width < fst (getTextSize text sc th)
  end.
Proof.
  induction n as [|n IH]; [simpl; lia|].
  rewrite scales_S. cbn [scan_scales].
  destruct (Z.leb_spec (fst (getTextSize text (Z.of_nat n) th)) width) as [Hf|Hf].
  - split; [lia|]. split; [reflexivity|]. split; [exact Hf | lia].
  - destruct (scan_scales getTextSize text width th _) as [ts sc|].
    + destruct IH as (H0 & H1 & H2 & H3). split; [lia|]. split; [exact H1|]. split; [exact H2|].
      intros sc' Hsc. destruct (Z.eq_dec sc' (Z.of_nat n)) as [->|]; [exact Hf | apply H3; lia].
    + intros sc Hsc. destruct (Z.eq_dec sc (Z.of_nat n)) as [->|]; [exact Hf | apply IH; lia].
Qed.

(** [get_text_size_and_scale] tries the scales 5.9, 5.8, ..., 0.0 and
    returns the first, hence the largest, at which the text fits the
    width, with its size; when the text is too wide at every scale it
    returns [1]. *)
Theorem get_text_size_and_scale_largest text width th :
  match get_text_size_and_scale getTextSize text width th with
  | SizeScale ts sc =>
      0 <= sc <= 59 /\ ts = getTextSize text sc th /\ fst ts <= width /\
      forall sc', sc < sc' <= 59 -> width < fst (getTextSize text sc' th)
  | NotFound => forall sc, 0 <= sc <= 59 -> width < fst (getTextSize text sc th)
  end.
Proof.
  pose proof (scan_scales_spec text width th 60) as H. unfold get_text_size_and_scale, scales.
  destruct (scan_scales _ _ _ _ _) as [ts sc|].
  - destruct H as (H0 & H1 & H2 & H3). split; [simpl in H0; lia|]. split; [exact H1|].
    split; [exact H2|]. intros sc' Hs. apply H3. simpl; lia.
  - intros sc Hs. apply H. simpl; lia.
Qed.

Lemma text_size_found text width th :
  (exists sc, 0 <= sc <= 59 /\ fst (getTextSize text sc th) <= width) ->
  exists ts sc, get_text_size_and_scale getTextSize text width th = SizeScale ts sc.
Proof.
  intros (sc & Hs & Hf). pose proof (scan_scales_spec text width th 60) as H.
  unfold get_text_size_and_scale, scales. destruct (scan_scales _ _ _ _ _) as [ts sc'|]; [eauto|].
  specialize (H sc ltac:(simpl; lia)). lia.
Qed.


Lemma np_index_zero n : 0 < n -> Numpy.np_index n 0 = Some 0.
Proof. intros Hn. unfold Numpy.np_index. simpl. destruct (Z.ltb_spec 0 n); [reflexivity | lia]. Qed.


(** The image [create_and_save_image] writes for a name that fits: the
    colour everywhere, then the name drawn at the centre in the contrast
    colour. *)
Lemma create_and_save_image_ok w h rgb fname dir text s :
  0 < w -> 0 < h -> (0 < String.length text)%nat ->
  (exists sc, 0 <= sc <= 59 /\ fst (getTextSize text sc (get_font_thickness w h)) <= w) ->
  exists ts sc, get_text_size_and_scale getTextSize text w (get_font_thickness w h) = SizeScale ts sc /\
    create_and_save_image getTextSize putText w h rgb fname dir text s =
    TOk tt (mkT (t_tape s) (if existsb (String.eqb dir) (t_dirs s) then t_dirs s else dir :: t_dirs s)
      (dict_set (String.append dir fname)
         (mkBuf h w (putText h w (fun _ _ => bgr rgb) text (get_text_coordinates w h ts) sc
                       (get_contrast_color (bgr rgb)) (get_font_thickness w h)))
         (t_files s))).
Proof.
  intros Hw Hh Ht Hf. destruct (text_size_found _ _ _ Hf) as (ts & sc & E).
  exists ts, sc. split; [exact E|].
  unfold create_and_save_image, create_image, Numpy.full, tbind, tlift.
  destruct (Z.ltb_spec h 0), (Z.ltb_spec w 0); try lia. cbn [orb].
  apply Nat.ltb_lt in Ht. rewrite Ht. unfold add_text_to_image, tret. cbn [b_h b_w b_px].
  rewrite !np_index_zero by assumption. rewrite E. unfold makedirs_if_absent, imwrite.
  destruct (existsb _ _); cbn [t_tape t_dirs t_files b_h b_w];
    destruct (Z.eqb_spec h 0), (Z.eqb_spec w 0); try lia; reflexivity.
Qed.

(** The loop over [enumerate(colors)] from index [i], with fixed sizes:
    it returns, draws nothing, creates the directory, and the path of
    each colour holds that colour's image while every other path keeps
    its file. *)
Lemma colors_loop_ok w h dir cs i s :
  0 < w -> 0 < h ->
  Forall (fun kv => (0 < String.length (fst kv))%nat /\
    exists sc, 0 <= sc <= 59 /\ fst (getTextSize (fst kv) sc (get_font_thickness w h)) <= w) cs ->
  NoDup (map file_name (seq i (List.length cs))) ->
  exists s', colors_loop np_oracle getTextSize putText (PyInt w) (PyInt h) dir i cs s = TOk tt s' /\
    t_tape s' = t_tape s /\ (cs <> [] -> In dir (t_dirs s')) /\
    (forall j k rgb, nth_error cs j = Some (k, rgb) ->
       exists ts sc, get_text_size_and_scale getTextSize k w (get_font_thickness w h) = SizeScale ts sc /\
         dict_get (String.append dir (file_name (i + j))) (t_files s') =
         Some (mkBuf h w (putText h w (fun _ _ => bgr rgb) k (get_text_coordinates w h ts) sc
                            (get_contrast_color (bgr rgb)) (get_font_thickness w h)))) /\
    (forall p, (forall j, (j < List.length cs)%nat -> p <> String.append dir (file_name (i + j))) ->
       dict_get p (t_files s') = dict_get p (t_files s)).
Proof.
  intros Hw Hh. revert i s. induction cs as [|[k rgb] cs IH]; intros i s Hf Hn.
  - exists s. split; [reflexivity|]. split; [reflexivity|]. split; [intros []; reflexivity|].
    split; [intros [|j]; discriminate | reflexivity].
  - inversion Hf as [|? ? [Hl Hk] Hf']; subst. cbn [List.length seq map] in Hn.
    inversion Hn as [|? ? Hni Hn']; subst.
    destruct (create_and_save_image_ok w h rgb (file_name i) dir k s Hw Hh Hl Hk) as (ts & sc & E & C).
    cbn [colors_loop get_random_number]. unfold tbind at 1 2, tret at 1 2. unfold tbind.
    rewrite C. set (s1 := mkT _ _ _).
    destruct (IH (S i) s1 Hf' Hn') as (s' & R & Tp & Dr & Fw & Fo). rewrite R.
    exists s'. split; [reflexivity|]. split; [exact Tp|].
    assert (Hd : In dir (t_dirs s1)) by (subst s1; cbn [t_dirs]; destruct (existsb _ _) eqn:X;
      [apply existsb_exists in X as (d & Hd & Ed); apply String.eqb_eq in Ed; subst d; exact Hd | left; reflexivity]).
    split.
    { intros _. destruct cs as [|c cs]; [|apply Dr; discriminate].
      cbn [colors_loop] in R. injection R as <-. exact Hd. }
    split.
    + intros [|j] k' rgb' Hj; cbn [nth_error] in Hj.
      * injection Hj as <- <-. exists ts, sc. split; [exact E|]. rewrite Nat.add_0_r, Fo.
        { subst s1; cbn [t_files]. apply dict_get_set_eq. }
        intros j Hj Ep. apply Hni. apply in_map_iff. exists (S (i + j)).
        split; [apply append_cancel_l in Ep; symmetry; rewrite Ep; f_equal; lia | apply in_seq; lia].
      * rewrite Nat.add_succ_r. exact (Fw j k' rgb' Hj).
    + intros p Hp. rewrite Fo by (intros j Hj; replace (S i + j)%nat with (i + S j)%nat by lia; apply Hp; simpl; lia).
      subst s1; cbn [t_files]. apply dict_get_set_ne. rewrite <- (Nat.add_0_r i). apply Hp. simpl; lia.
Qed.

(** With fixed sizes [w] and [h] and colour names that fit the width
    at some scale, [create_images_for_colors] returns without drawing a
    random number, creates the directory and leaves, for the [i]-th
    colour of [COLORS], the file [directory + str(i + 1) + ".jpg"]
    holding an [h x w] array of the colour with its name drawn at the
    centre, at the largest scale that fits, in the contrast colour.  The
    20 paths are distinct, so no image overwrites another.  This holds of
    the model, in which [cv2.putText] and [cv2.imwrite] accept every
    array: the array of [create_image] is [np.ones(uint8) * tuple], which
    numpy promotes to int64, a depth OpenCV may refuse, and the model does
    not track dtypes. *)
Theorem create_images_for_colors_writes w h dir s :
  0 < w -> 0 < h ->
  (forall k, In k (map fst COLORS) ->
     exists sc, 0 <= sc <= 59 /\ fst (getTextSize k sc (get_font_thickness w h)) <= w) ->
  exists s', create_images_for_colors np_oracle getTextSize putText (PyInt w) (PyInt h) dir s = TOk tt s' /\
    t_tape s' = t_tape s /\ In dir (t_dirs s') /\
    forall i k rgb, nth_error COLORS i = Some (k, rgb) ->
      exists ts sc, get_text_size_and_scale getTextSize k w (get_font_thickness w h) = SizeScale ts sc /\
        dict_get (String.append dir (file_name i)) (t_files s') =
        Some (mkBuf h w (putText h w (fun _ _ => bgr rgb) k (get_text_coordinates w h ts) sc
                           (get_contrast_color (bgr rgb)) (get_font_thickness w h))).
Proof.
  intros Hw Hh Hf. destruct (colors_loop_ok w h dir COLORS 0 s Hw Hh) as (s' & R & Tp & Dr & Fw & _).
  - apply Forall_forall. intros [k rgb] Hin. apply (in_map fst) in Hin. cbn [fst] in *.
    split; [exact (proj1 (Forall_forall _ _) COLORS_names_nonempty k Hin) | exact (Hf k Hin)].
  - exact file_names_NoDup.
  - exists s'. split; [exact R|]. split; [exact Tp|]. split; [apply Dr; discriminate|]. exact Fw.
Qed.

(** [get_random_number] of a tuple [(lo, hi)] draws one value of
    [np.random] in [[lo, hi)], the upper bound excluded, and raises
    [ValueError] for an empty range. *)
Lemma get_random_number_tuple lo hi s :
  get_random_number np_oracle (PyTuple [PyInt lo; PyInt hi]) s =
  (if hi <=? lo then TErr ValueError s
   else TOk (lo + np_oracle (t_tape s) mod (hi - lo)) (mkT (S (t_tape s)) (t_dirs s) (t_files s))) /\
  (lo < hi -> lo <= lo + np_oracle (t_tape s) mod (hi - lo) < hi).
Proof.
  split; [reflexivity|]. intros Hlt. pose proof (Z.mod_pos_bound (np_oracle (t_tape s)) (hi - lo)). lia.
Qed.

Section Bounds.
Context {NL : PyNumLaws N}.

(** C32: Where the text lands: for a text size found by
    [get_text_size_and_scale] (sizes as [cv2.getTextSize] reports them,
    nonnegative), the text box at the origin [get_text_coordinates]
    computes (its bottom-left corner, as [cv2.putText] takes it) always
    lies within the width, and lies within the height exactly when the
    text is no taller than the image: nothing in the code checks the
    height, so a tall text overflows the top of the image. *)
Theorem text_box_inside w h text th tw tht sc :
  get_text_size_and_scale getTextSize text w th = SizeScale (tw, tht) sc ->
  0 <= tw -> 0 <= tht <= 2 ^ 20 -> 0 <= h <= 2 ^ 20 -> w <= 2 ^ 20 ->
  let '(x, y) := get_text_coordinates w h (tw, tht) in
  (0 <= x /\ x + tw <= w) /\ (0 <= y - tht /\ y <= h <-> tht <= h).
Proof.
  intros E Htw Hth Hh Hw. pose proof (get_text_size_and_scale_largest text w th) as L.
  rewrite E in L. destruct L as (_ & _ & Hf & _). simpl in Hf.
  unfold get_text_coordinates. cbn [fst snd].
  rewrite !py_div_exact by lia. rewrite !Z.quot_div_nonneg by lia.
  Z.div_mod_to_equations. split; [lia|]. split; intros; lia.
Qed.

End Bounds.

End Laws.

Module TestImageRuns.
Local Open Scope string_scope.

Definition np0 : nat -> Z := fun _ => 0.
(** A font [2 * len(text)] pixels wide and [2] high per tenth of scale. *)
Definition text_size0 : string -> Z -> Z -> Z * Z :=
  fun t sc _ => (sc * (2 * Z.of_nat (String.length t)), 2 * sc).
(** Text drawing that leaves the pixels alone. *)
Definition put0 : Z -> Z -> (Z -> Z -> pixel) -> string -> Z * Z -> Z -> pixel -> Z -> Z -> Z -> pixel :=
  fun _ _ px _ _ _ _ _ => px.
Definition st0 : tstate := mkT 0 [] [].

Lemma create_images_for_colors_writes_witness :
  exists s', @create_images_for_colors ieee_num np0 text_size0 put0 (PyInt 300) (PyInt 300) DEFAULT_DIRECTORY st0 = TOk tt s'.
Proof.
  destruct (@create_images_for_colors_writes ieee_num np0 text_size0 put0 300 300 DEFAULT_DIRECTORY st0)
    as (s' & E & _).
  - lia.
  - lia.
  - intros k _. exists 0. split; [lia | simpl; lia].
  - exists s'. exact E.
Defined.

(** A font 10 pixels wide and 2 high per tenth of scale: in a 1000 x 50
    image the name fits the width at scale 5.9 and is 118 pixels tall, so
    the box leaves the image at the top. *)
Definition tall_font : string -> Z -> Z -> Z * Z := fun _ sc _ => (10 * sc, 2 * sc).

Lemma text_box_inside_witness :
  @get_text_size_and_scale tall_font "white" 1000 10 = SizeScale (590, 118) 59 /\
  let '(x, y) := @get_text_coordinates exact_num 1000 50 (590, 118) in
  (0 <= x /\ x + 590 <= 1000) /\ (0 <= y - 118 /\ y <= 50 <-> 118 <= 50).
Proof.
  split; [reflexivity|].
  exact (@text_box_inside exact_num tall_font put0 exact_num_laws 1000 50 "white" 10 590 118 59
           eq_refl ltac:(lia) ltac:(lia) ltac:(lia) ltac:(lia)).
Defined.



(** The path is [directory + filename]: a directory given without its
    trailing slash is created, and the file written beside it. *)
Example directory_without_slash :
  match @create_and_save_image ieee_num text_size0 put0 300 300 (255, 0, 0) "1.jpg" "out" "red" st0 with
  | TOk _ s' => t_dirs s' = ["out"%string] /\ map fst (t_files s') = ["out1.jpg"%string]
  | TErr _ _ => False
  end.
Proof. vm_compute. split; reflexivity. Qed.

End TestImageRuns.

End TestImageGenerator.
