(* ===== verification/Main.v ===== *)
(** main.py: the entry point.  Its [COLORS] dict is the display of
    test_image_generator.py again, and its [__main__] block calls
    [layouts_generator.run()]; the rest of the file is commented out. *)

From Stdlib Require Import ZArith List String.
From S2P Require Import Prelude PyNum Image Render GenMonad Populate PyDict TestImages.
Import ListNotations.
Open Scope Z_scope.

Module Main.

(** [COLORS] (14-37), as written, with "white" and "black" twice. *)
Definition COLORS_literal : list (string * (Z * Z * Z)) :=
  [("white", (255, 255, 255)); ("black", (0, 0, 0)); ("red", (255, 0, 0));
   ("orange", (255, 165, 0)); ("yellow", (255, 255, 0)); ("green", (0, 128, 0));
   ("blue", (0, 0, 255)); ("purple", (128, 0, 128)); ("pink", (255, 192, 203));
   ("brown", (165, 42, 42)); ("white", (255, 255, 255)); ("black", (0, 0, 0));
   ("gray", (128, 128, 128)); ("maroon", (128, 0, 0)); ("olive", (128, 128, 0));
   ("teal", (0, 128, 128)); ("navy", (0, 0, 128)); ("aqua", (0, 255, 255));
   ("fuchsia", (255, 0, 255)); ("lime", (0, 255, 0)); ("silver", (192, 192, 192));
   ("gold", (255, 215, 0))]%string.

Definition COLORS : list (string * (Z * Z * Z)) := dict_literal COLORS_literal.

Section Entry.
Context `{N : PyNum}.
Variable oracle : nat -> Z.
Variable raster : Image.image -> Z -> Z -> pixel.

(** The [__main__] block (42-45). *)
Definition main (walk : list (string * list string)) (open_image_file : string -> option Image.image)
    (fuel : nat) : G (list buffer) :=
  run oracle raster walk open_image_file fuel.

End Entry.

(** The two dicts are the same 20 colours in the same order. *)
Lemma COLORS_as_test_image_generator : COLORS = TestImageGenerator.COLORS.
Proof. reflexivity. Qed.

End Main.
